(** * Document converter: the two TypeScript servers, embedded and verified

    The repository ships two implementations of the same three tools
    ([convert-document], [list-supported-formats], [convert-file-batch]):

    - [DocumentConverterServer] (typescript-server/dist/document-converter.js),
      the HTTP server, embedded in module [Http];
    - [DocumentConverterStdioServer] (stdio-server.ts), the stdio server,
      embedded in module [Stdio].

    JavaScript strings are modelled by [string], one character for one
    code unit.  The model covers the strings all of whose code units are
    below 128 ([ascii_text]): on them [length] and [substring] count
    characters, and the classes and case mappings of ECMAScript are those
    of [JsChar].  A statement whose truth depends on how the servers treat
    code units above 127 (as white space, in case mappings, in lengths)
    carries the hypothesis [ascii_text].  A thrown
    exception is a value [Throw e] of [Result]; [await] is sequencing.
    The optional libraries ([marked], [turndown], [puppeteer], [officegen],
    [mammoth], [pdf-parse]) are fields of a record [Libs]: [None] is the
    library that failed to load, [Some f] the library with its behaviour.
    The tool handlers and the [/mcp] route take the arguments of a call
    with the types the tools declare. *)

From Stdlib Require Import String Ascii List Arith ZArith Bool Lia DecimalString.
Import ListNotations.
Open Scope string_scope.
Open Scope nat_scope.

(** ** Characters *)

Module JsChar.

Definition code (c : ascii) : nat := nat_of_ascii c.

(** The code units the model covers. *)
Definition is_ascii (c : ascii) : bool := code c <? 128.

Definition in_range (lo hi : nat) (c : ascii) : bool :=
  (lo <=? code c) && (code c <=? hi).

Definition is_upper (c : ascii) : bool := in_range 65 90 c.
Definition is_lower (c : ascii) : bool := in_range 97 122 c.
Definition is_digit (c : ascii) : bool := in_range 48 57 c.

(** [\w] is [[A-Za-z0-9_]]. *)
Definition is_word (c : ascii) : bool :=
  is_upper c || is_lower c || is_digit c || (code c =? 95).

(** [\s], and what [trim] removes, among the code units below 128: tab,
    line feed, vertical tab, form feed, carriage return and space.  (Above
    them ECMAScript adds the no-break space, the byte order mark, the line
    and paragraph separators and the space separators.) *)
Definition is_space (c : ascii) : bool :=
  in_range 9 13 c || (code c =? 32).

(** The line terminators: [.] does not match them, [^] and [$] under the
    [m] flag look at them. *)
Definition is_line_terminator (c : ascii) : bool :=
  (code c =? 10) || (code c =? 13).

(** [toUpperCase] and [toLowerCase] on a code unit below 128: only the
    26 letters change.  (Above them ECMAScript maps other letters too.) *)
Definition to_upper (c : ascii) : ascii :=
  if is_lower c then ascii_of_nat (code c - 32) else c.

Definition to_lower (c : ascii) : ascii :=
  if is_upper c then ascii_of_nat (code c + 32) else c.

End JsChar.

(** ** The methods of [String.prototype] that the servers call *)

Module JsString.

(** The texts the model covers: every code unit is below 128. *)
Fixpoint is_ascii (s : string) : bool :=
  match s with
  | EmptyString => true
  | String c s' => JsChar.is_ascii c && is_ascii s'
  end.

Definition nl : string := String (ascii_of_nat 10) "".
Definition dq : string := String (ascii_of_nat 34) "".

Fixpoint map (f : ascii -> ascii) (s : string) : string :=
  match s with
  | EmptyString => EmptyString
  | String c s' => String (f c) (map f s')
  end.

Definition toUpperCase : string -> string := map JsChar.to_upper.
Definition toLowerCase : string -> string := map JsChar.to_lower.

Fixpoint trimStart (s : string) : string :=
  match s with
  | EmptyString => EmptyString
  | String c s' => if JsChar.is_space c then trimStart s' else s
  end.

(** [trimEnd] keeps a character when it is not a space or when something
    is left after it. *)
Fixpoint trimEnd (s : string) : string :=
  match s with
  | EmptyString => EmptyString
  | String c s' =>
      match trimEnd s' with
      | EmptyString => if JsChar.is_space c then EmptyString else String c EmptyString
      | t => String c t
      end
  end.

(** [trim] removes from both ends the white space of [JsChar.is_space],
    which is all the white space of a text that [is_ascii] accepts. *)
Definition trim (s : string) : string := trimEnd (trimStart s).

(** A string is falsy exactly when it is empty. *)
Definition truthy (s : string) : bool :=
  match s with EmptyString => false | _ => true end.

Fixpoint startsWith (p s : string) : bool :=
  match p, s with
  | EmptyString, _ => true
  | String a p', String b s' => Ascii.eqb a b && startsWith p' s'
  | String _ _, EmptyString => false
  end.

Fixpoint drop (n : nat) (s : string) : string :=
  match n, s with
  | O, _ => s
  | S n', String _ s' => drop n' s'
  | S _, EmptyString => EmptyString
  end.

Fixpoint take (n : nat) (s : string) : string :=
  match n, s with
  | O, _ => EmptyString
  | S n', String c s' => String c (take n' s')
  | S _, EmptyString => EmptyString
  end.

Definition endsWith (p s : string) : bool :=
  (String.length p <=? String.length s)
  && String.eqb (drop (String.length s - String.length p) s) p.

(** [s.slice(0, -1)] *)
Definition slice_0_m1 (s : string) : string := take (String.length s - 1) s.

(** [s.substring(0, n)] *)
Definition substring_0 (n : nat) (s : string) : string := take n s.

(** [c.repeat(n)] *)
Fixpoint repeat (s : string) (n : nat) : string :=
  match n with
  | O => EmptyString
  | S n' => s ++ repeat s n'
  end.

(** [s.split(sep)] for a non-empty separator: the pieces between the
    occurrences of [sep], found from left to right without overlap.
    [skip] counts the characters of a separator still to pass over and
    [acc] holds the current piece, reversed. *)
Fixpoint rev_string (acc s : string) : string :=
  match s with
  | EmptyString => acc
  | String c s' => rev_string (String c acc) s'
  end.

Fixpoint split_go (sep : string) (acc : string) (skip : nat) (s : string)
  : list string :=
  match s with
  | EmptyString => [rev_string "" acc]
  | String c s' =>
      match skip with
      | S k => split_go sep acc k s'
      | O =>
          if startsWith sep s
          then rev_string "" acc :: split_go sep "" (String.length sep - 1) s'
          else split_go sep (String c acc) 0 s'
      end
  end.

Definition split (sep s : string) : list string := split_go sep "" 0 s.

(** [a.join(sep)] *)
Fixpoint join (sep : string) (l : list string) : string :=
  match l with
  | [] => ""
  | [x] => x
  | x :: rest => x ++ sep ++ join sep rest
  end.

(** Template literals print a number in decimal. *)
Definition of_nat (n : nat) : string := NilEmpty.string_of_uint (Nat.to_uint n).

End JsString.

(** ** Regular expressions

    The servers rewrite text with [String.prototype.replace] and regular
    expression literals.  [regex] holds the constructs these literals use and
    [run] is the backtracking matcher of the language, in continuation
    passing style: a greedy star tries one more iteration before the
    continuation, a lazy star the continuation first, and an iteration that
    consumes nothing is rejected. *)

Module Regex.

Inductive regex : Type :=
| Eps
| Chr (p : ascii -> bool)
| Seq (r1 r2 : regex)
| Star (greedy : bool) (r : regex)
| Group (r : regex)
| Bol (multiline : bool)
| Eol (multiline : bool)
| WordBoundary.

(** A position in the input: the character before it (for [^] and [\b]),
    the text after it, and what capture group 1 holds. *)
Record mstate : Type := MState {
  prev : option ascii;
  rest : string;
  cap : string
}.

Definition at_bol (multiline : bool) (st : mstate) : bool :=
  match prev st with
  | None => true
  | Some c => multiline && JsChar.is_line_terminator c
  end.

Definition at_eol (multiline : bool) (st : mstate) : bool :=
  match rest st with
  | EmptyString => true
  | String c _ => multiline && JsChar.is_line_terminator c
  end.

Definition at_word_boundary (st : mstate) : bool :=
  xorb (match prev st with Some c => JsChar.is_word c | None => false end)
       (match rest st with String c _ => JsChar.is_word c | EmptyString => false end).

Definition consumed (st st' : mstate) : string :=
  JsString.take (String.length (rest st) - String.length (rest st')) (rest st).

(** The loop of a star over the matcher [step] of its body: [fuel] bounds
    the number of iterations, each of which consumes a character, so the
    length of the remaining text is enough. *)
Fixpoint star_loop (step : mstate -> (mstate -> option mstate) -> option mstate)
  (greedy : bool) (k : mstate -> option mstate) (fuel : nat) (st : mstate)
  {struct fuel} : option mstate :=
  match fuel with
  | O => k st
  | S fuel' =>
      let again (_ : unit) :=
        step st (fun st' =>
          if String.length (rest st') <? String.length (rest st)
          then star_loop step greedy k fuel' st' else None) in
      if greedy
      then match again tt with Some x => Some x | None => k st end
      else match k st with Some x => Some x | None => again tt end
  end.

Fixpoint run (r : regex) (st : mstate) (k : mstate -> option mstate)
  {struct r} : option mstate :=
  match r with
  | Eps => k st
  | Chr p =>
      match rest st with
      | String c s' => if p c then k (MState (Some c) s' (cap st)) else None
      | EmptyString => None
      end
  | Seq r1 r2 => run r1 st (fun st1 => run r2 st1 k)
  | Star greedy r1 =>
      star_loop (run r1) greedy k (String.length (rest st)) st
  | Group r1 =>
      run r1 st (fun st' => k (MState (prev st') (rest st') (consumed st st')))
  | Bol m => if at_bol m st then k st else None
  | Eol m => if at_eol m st then k st else None
  | WordBoundary => if at_word_boundary st then k st else None
  end.

(** A match of [r] starting exactly at the position ([before], [s]): its
    length and the text of group 1. *)
Definition exec (r : regex) (before : option ascii) (s : string)
  : option (nat * string) :=
  match run r (MState before s "") (fun st => Some st) with
  | Some st' => Some (String.length s - String.length (rest st'), cap st')
  | None => None
  end.

(** [s.replace(r, f)]: with the [g] flag every match from left to right is
    replaced, the search resuming where the match ended (one character
    further after an empty match); without it only the first match is.
    [f] receives the matched text and group 1.  [skip] counts the
    characters of the last match still to pass over. *)
Fixpoint replace_go (r : regex) (f : string -> string -> string)
  (global : bool) (before : option ascii) (skip : nat) (s : string)
  {struct s} : string :=
  match skip with
  | S k =>
      match s with
      | EmptyString => EmptyString
      | String c s' => replace_go r f global (Some c) k s'
      end
  | O =>
      match exec r before s with
      | Some (len, g1) =>
          f (JsString.take len s) g1 ++
          (if global then
             match s with
             | EmptyString => EmptyString
             | String c s' =>
                 match len with
                 | O => String c (replace_go r f global (Some c) 0 s')
                 | S l => replace_go r f global (Some c) l s'
                 end
             end
           else JsString.drop len s)
      | None =>
          match s with
          | EmptyString => EmptyString
          | String c s' => String c (replace_go r f global (Some c) 0 s')
          end
      end
  end.

Definition replace_all (r : regex) (f : string -> string -> string)
  (s : string) : string := replace_go r f true None 0 s.

Definition replace_first (r : regex) (f : string -> string -> string)
  (s : string) : string := replace_go r f false None 0 s.

(** Replacement by a fixed string. *)
Definition const (t : string) : string -> string -> string := fun _ _ => t.

(** Building blocks of the literals. *)
Fixpoint seq (l : list regex) : regex :=
  match l with
  | [] => Eps
  | [r] => r
  | r :: l' => Seq r (seq l')
  end.

Fixpoint lit (s : string) : regex :=
  match s with
  | EmptyString => Eps
  | String c EmptyString => Chr (Ascii.eqb c)
  | String c s' => Seq (Chr (Ascii.eqb c)) (lit s')
  end.

(** A literal under the [i] flag. *)
Fixpoint lit_i (s : string) : regex :=
  match s with
  | EmptyString => Eps
  | String c s' =>
      Seq (Chr (fun x => Ascii.eqb (JsChar.to_lower x) (JsChar.to_lower c)))
          (lit_i s')
  end.

Fixpoint mem (c : ascii) (s : string) : bool :=
  match s with
  | EmptyString => false
  | String d s' => Ascii.eqb c d || mem c s'
  end.

Definition one_of (s : string) : regex := Chr (fun c => mem c s).
Definition none_of (s : string) : regex := Chr (fun c => negb (mem c s)).
Definition any : regex := Chr (fun _ => true).
Definition dot : regex := Chr (fun c => negb (JsChar.is_line_terminator c)).
Definition plus (greedy : bool) (r : regex) : regex := Seq r (Star greedy r).

End Regex.

(** ** Exceptions *)

(** An [Error] object: [new Error(m)] has name ["Error"] and message [m];
    a library may throw an error of another name.  What is thrown is always
    taken to be such an object. *)
Record JsError : Type := MkError {
  name : string;
  message : string
}.

Definition Error (m : string) : JsError := MkError "Error" m.

(** [String(e)] and [`${e}`] call [Error.prototype.toString]. *)
Definition error_toString (e : JsError) : string :=
  if negb (JsString.truthy (name e)) then message e
  else if negb (JsString.truthy (message e)) then name e
  else name e ++ ": " ++ message e.

(** The outcome of a call: it returns a value or throws. *)
Inductive Result (A : Type) : Type :=
| Return (a : A)
| Throw (e : JsError).

Arguments Return {A} a.
Arguments Throw {A} e.

Definition bind {A B : Type} (r : Result A) (f : A -> Result B) : Result B :=
  match r with
  | Return a => f a
  | Throw e => Throw e
  end.

(** [try { body } catch (error) { handler }] *)
Definition try_catch {A : Type} (body : Result A) (handler : JsError -> Result A)
  : Result A :=
  match body with
  | Return a => Return a
  | Throw e => handler e
  end.

Declare Scope js_scope.
Delimit Scope js_scope with js.
Notation "x <- c1 ;; c2" := (bind c1 (fun x => c2))
  (at level 61, c1 at next level, right associativity) : js_scope.
Notation "c1 ;;; c2" := (bind c1 (fun _ => c2))
  (at level 61, right associativity) : js_scope.
Open Scope js_scope.

(** ** The optional libraries *)

(** [puppeteer]: [open_page] is [launch] followed by [newPage]; [print]
    is [setContent], [pdf] (with 1 inch margins when [margins] is set) and
    [close], and returns the bytes of the document in base64.  Closing the
    browser after a failure is taken not to throw. *)
Record Puppeteer : Type := {
  open_page : Result unit;
  print : forall (margins : bool) (html : string), Result string
}.

(** A paragraph handed to [officegen]: its text, and whether it is set bold
    at size 16. *)
Record DocxParagraph : Type := {
  para_text : string;
  para_bold : bool
}.

(** Each field is [None] when [require] failed.  [mammoth] and [pdf-parse]
    take the base64 text and return the extracted text; [officegen] returns
    the generated document in base64. *)
Record Libs : Type := {
  marked : option (string -> Result string);
  turndown : option (string -> Result string);
  puppeteer : option Puppeteer;
  officegen : option (list DocxParagraph -> Result string);
  mammoth : option (string -> Result string);
  pdfParse : option (string -> Result string)
}.

(** No optional library is installed. *)
Definition no_libs : Libs :=
  {| marked := None; turndown := None; puppeteer := None;
     officegen := None; mammoth := None; pdfParse := None |}.

(** [a.includes(x)] *)
Definition includes (l : list string) (x : string) : bool :=
  existsb (String.eqb x) l.

(** [v || d] for a property that may be absent. *)
Definition or_else (v : option string) (d : string) : string :=
  match v with
  | Some s => if JsString.truthy s then s else d
  | None => d
  end.

(** ** Values sent over HTTP *)

(** A JSON value; the fields of an object are in the order of the literal. *)
#[local] Unset Elimination Schemes.
Inductive json : Type :=
| JNull
| JBool (b : bool)
| JNum (n : Z)
| JStr (s : string)
| JArr (items : list json)
| JObj (fields : list (string * json)).
#[local] Set Elimination Schemes.

(** A property whose value is [undefined] is left out by [res.json]. *)
Definition optional_field (key : string) (v : option json) : list (string * json) :=
  match v with
  | Some x => [(key, x)]
  | None => []
  end.

(** [obj.key], when [obj] is an object that has the key. *)
Fixpoint lookup (key : string) (fields : list (string * json)) : option json :=
  match fields with
  | [] => None
  | (k, v) :: rest => if String.eqb k key then Some v else lookup key rest
  end.

Definition get (key : string) (v : json) : option json :=
  match v with
  | JObj fields => lookup key fields
  | _ => None
  end.

(** The marks of the format listings, U+2713 and U+2717.  They are outside
    ASCII and are written here as their UTF-8 bytes; nothing measures or
    rewrites the texts that hold them. *)
Definition check_mark : string :=
  String (ascii_of_nat 226) (String (ascii_of_nat 156) (String (ascii_of_nat 147) "")).
Definition cross_mark : string :=
  String (ascii_of_nat 226) (String (ascii_of_nat 156) (String (ascii_of_nat 151) "")).

(** [lib ? a : b] and [lib !== null] *)
Definition installed {A : Type} (lib : option A) : bool :=
  match lib with Some _ => true | None => false end.

(** The names of the tools in a list of tool descriptions. *)
Definition tool_names (tools : list json) : list (option json) :=
  List.map (get "name") tools.

(** ** The stdio server: [DocumentConverterStdioServer] *)

Module Stdio.

Import JsString.

Definition SUPPORTED_FORMATS_input : list string :=
  ["txt"; "md"; "html"; "docx"; "pdf"; "rtf"].
Definition SUPPORTED_FORMATS_output : list string :=
  ["txt"; "md"; "html"; "docx"; "pdf"; "rtf"].

Record ConversionFile : Type := {
  content : option string;
  input_format : option string;
  filename : option string
}.

(** [/\b\w/g] *)
Definition re_word_start : Regex.regex :=
  Regex.Seq Regex.WordBoundary (Regex.Chr JsChar.is_word).

(** The body of the loop of [convertTextToMarkdown]: the line pushed for
    one input line. *)
Definition markdownLine (line : string) : string :=
  let trimmedLine := trim line in
  if negb (truthy trimmedLine) then ""
  else if String.eqb trimmedLine (toUpperCase trimmedLine)
          && (3 <? String.length trimmedLine)
  then "# " ++ Regex.replace_all re_word_start (fun l _ => toUpperCase l)
                 (toLowerCase trimmedLine)
  else if endsWith ":" trimmedLine
  then "## " ++ slice_0_m1 trimmedLine
  else trimmedLine.

Definition convertTextToMarkdown (text : string) : string :=
  let lines := split nl text in
  let markdownLines := List.map markdownLine lines in
  join nl markdownLines.

Definition convertMarkdownToHtml (libs : Libs) (mdText : string) : Result string :=
  match marked libs with
  | None =>
      Throw (Error "Marked library not available. Install with: npm install marked")
  | Some parse =>
      html <- parse mdText ;;
      Return (join nl [
        "<!DOCTYPE html>";
        "<html>";
        "<head>";
        "    <meta charset=" ++ dq ++ "utf-8" ++ dq ++ ">";
        "    <title>Converted Document</title>";
        "    <style>";
        "        body { font-family: Arial, sans-serif; margin: 40px; line-height: 1.6; }";
        "        code { background-color: #f4f4f4; padding: 2px 4px; border-radius: 3px; }";
        "        pre { background-color: #f4f4f4; padding: 10px; border-radius: 5px; overflow-x: auto; }";
        "        blockquote { border-left: 4px solid #ddd; margin: 0; padding-left: 20px; color: #666; }";
        "    </style>";
        "</head>";
        "<body>";
        html;
        "</body>";
        "</html>"])
  end.

(** The literals of [convertHtmlToText]. *)
Definition re_script : Regex.regex :=
  Regex.seq [Regex.lit_i "<script"; Regex.Star true (Regex.none_of ">");
             Regex.lit_i ">"; Regex.Star false Regex.any; Regex.lit_i "</script>"].
Definition re_style : Regex.regex :=
  Regex.seq [Regex.lit_i "<style"; Regex.Star true (Regex.none_of ">");
             Regex.lit_i ">"; Regex.Star false Regex.any; Regex.lit_i "</style>"].
(** [/<[^>]+>/g] *)
Definition re_tag : Regex.regex :=
  Regex.seq [Regex.lit "<"; Regex.plus true (Regex.none_of ">"); Regex.lit ">"].
(** [/\s+/g] *)
Definition re_spaces : Regex.regex :=
  Regex.plus true (Regex.Chr JsChar.is_space).

Definition replace_lit (pat rep s : string) : string :=
  Regex.replace_all (Regex.lit pat) (Regex.const rep) s.

Definition convertHtmlToText (htmlContent : string) : string :=
  let s := Regex.replace_all re_script (Regex.const "") htmlContent in
  let s := Regex.replace_all re_style (Regex.const "") s in
  let s := Regex.replace_all re_tag (Regex.const "") s in
  let s := replace_lit "&nbsp;" " " s in
  let s := replace_lit "&amp;" "&" s in
  let s := replace_lit "&lt;" "<" s in
  let s := replace_lit "&gt;" ">" s in
  let s := replace_lit "&quot;" dq s in
  let s := replace_lit "&#39;" "'" s in
  let s := Regex.replace_all re_spaces (Regex.const " ") s in
  trim s.

Definition convertHtmlToMarkdown (libs : Libs) (htmlContent : string)
  : Result string :=
  match turndown libs with
  | None =>
      let text := convertHtmlToText htmlContent in
      Return (convertTextToMarkdown text)
  | Some turndownService => turndownService htmlContent
  end.

(** The page built from plain text, in [convertToPdf] and again in
    [convertDocument]: the text is escaped, cut into paragraphs at empty
    lines, blank paragraphs are dropped, and line feeds become [<br>]. *)
Definition escapeHtml (s : string) : string :=
  replace_lit ">" "&gt;" (replace_lit "<" "&lt;" (replace_lit "&" "&amp;" s)).

Definition textToHtmlPage (text : string) : string :=
  let escapedContent := escapeHtml text in
  let paragraphs := split (nl ++ nl) escapedContent in
  let htmlParagraphs :=
    List.map (fun para => "<p>" ++ replace_lit nl "<br>" para ++ "</p>")
             (List.filter (fun para => truthy (trim para)) paragraphs) in
  join nl [
    "<!DOCTYPE html>";
    "<html>";
    "<head>";
    "    <meta charset=" ++ dq ++ "utf-8" ++ dq ++ ">";
    "    <title>Converted Document</title>";
    "    <style>body { font-family: Arial, sans-serif; margin: 40px; line-height: 1.6; }</style>";
    "</head>";
    "<body>";
    join "" htmlParagraphs;
    "</body>";
    "</html>"].

(** The result is the buffer already printed by [toString("base64")], which
    [convertDocument] applies to it. *)
Definition convertToPdf (libs : Libs) (content contentType : string)
  : Result string :=
  match puppeteer libs with
  | None =>
      Throw (Error "Puppeteer library not available. Install with: npm install puppeteer")
  | Some p =>
      open_page p ;;;
      htmlContent <-
        (if String.eqb contentType "html" then Return content
         else if String.eqb contentType "markdown"
         then convertMarkdownToHtml libs content
         else Return (textToHtmlPage content)) ;;
      print p true htmlContent
  end.

(** [/[#*_`]/g] *)
Definition re_md_marks : Regex.regex := Regex.one_of "#*_`".
(** [/^#+\s*/] *)
Definition re_heading_marks : Regex.regex :=
  Regex.seq [Regex.Bol false; Regex.plus true (Regex.lit "#");
             Regex.Star true (Regex.Chr JsChar.is_space)].

(** One paragraph that passed the filter.  [para.length] counts code
    units and [toUpperCase] is that of [JsChar]: the paragraph of a text
    that [JsString.is_ascii] accepts. *)
Definition docxParagraph (para : string) : DocxParagraph :=
  if (String.length para <? 50)
     && (String.eqb para (toUpperCase para) || startsWith "#" para)
  then {| para_text := trim (Regex.replace_first re_heading_marks (Regex.const "") para);
          para_bold := true |}
  else {| para_text := trim para; para_bold := false |}.

Definition convertToDocx (libs : Libs) (content contentType : string)
  : Result string :=
  match officegen libs with
  | None =>
      Throw (Error "Officegen library not available. Install with: npm install officegen")
  | Some generate =>
      let textContent :=
        if String.eqb contentType "html" then convertHtmlToText content
        else if String.eqb contentType "markdown"
        then Regex.replace_all re_md_marks (Regex.const "") content
        else content in
      let paragraphs := split (nl ++ nl) textContent in
      generate (List.map docxParagraph
                  (List.filter (fun para => truthy (trim para)) paragraphs))
  end.

Definition convertDocument (libs : Libs)
  (content inputFormat outputFormat : string) (filename : option string)
  : Result string :=
  let input := trim (toLowerCase inputFormat) in
  let output := trim (toLowerCase outputFormat) in
  if negb (includes SUPPORTED_FORMATS_input input) then
    Throw (Error ("Unsupported input format '" ++ input ++ "'. Supported: "
                  ++ join ", " SUPPORTED_FORMATS_input))
  else if negb (includes SUPPORTED_FORMATS_output output) then
    Throw (Error ("Unsupported output format '" ++ output ++ "'. Supported: "
                  ++ join ", " SUPPORTED_FORMATS_output))
  else
    try_catch
      (working <-
         (if String.eqb input "txt" then Return (content, "text")
          else if String.eqb input "md" then Return (content, "markdown")
          else if String.eqb input "html" then Return (content, "html")
          else if String.eqb input "docx" then
            match mammoth libs with
            | None => Throw (Error "Mammoth library not available for DOCX processing. Install with: npm install mammoth")
            | Some extractRawText =>
                value <- extractRawText content ;; Return (value, "text")
            end
          else if String.eqb input "pdf" then
            match pdfParse libs with
            | None => Throw (Error "pdf-parse library not available for PDF processing. Install with: npm install pdf-parse")
            | Some parse =>
                text <- parse content ;; Return (text, "text")
            end
          else Return (content, "text")) ;;
       let workingContent := fst working in
       let workingType := snd working in
       (* Convert to output format *)
       if String.eqb output "txt" then
         if String.eqb workingType "html" then Return (convertHtmlToText workingContent)
         else if String.eqb workingType "markdown"
         then Return (Regex.replace_all re_md_marks (Regex.const "") workingContent)
         else Return workingContent
       else if String.eqb output "md" then
         if String.eqb workingType "text" then Return (convertTextToMarkdown workingContent)
         else if String.eqb workingType "html" then convertHtmlToMarkdown libs workingContent
         else Return workingContent
       else if String.eqb output "html" then
         if String.eqb workingType "markdown" then convertMarkdownToHtml libs workingContent
         else if String.eqb workingType "text" then Return (textToHtmlPage workingContent)
         else Return workingContent
       else if String.eqb output "pdf" then
         convertToPdf libs workingContent workingType
       else if String.eqb output "docx" then
         convertToDocx libs workingContent workingType
       else
         Throw (Error ("Output format '" ++ output ++ "' conversion not implemented")))
      (fun error => Throw (Error ("Conversion failed: " ++ message error))).

(** One entry of [results]: [{filename, status: "success", content}] or
    [{filename, status: "error", error}]. *)
Inductive BatchResult : Type :=
| Success (filename content : string)
| Failure (filename error : string).

Definition result_filename (r : BatchResult) : string :=
  match r with Success f _ => f | Failure f _ => f end.

Definition status (r : BatchResult) : string :=
  match r with Success _ _ => "success" | Failure _ _ => "error" end.

(** The body of the first loop of [convertFileBatch], at index [i]. *)
Definition batchEntry (libs : Libs) (outputFormat : string) (i : nat)
  (fileInfo : ConversionFile) : BatchResult :=
  let content := or_else (content fileInfo) "" in
  let inputFormat := or_else (input_format fileInfo) "txt" in
  let filename := or_else (filename fileInfo) ("file_" ++ of_nat (i + 1)) in
  match convertDocument libs content inputFormat outputFormat (Some filename) with
  | Return converted => Success filename converted
  | Throw error => Failure filename (message error)
  end.

(** [for (let i = ...; i < files.length; i++)], from index [i] on. *)
Fixpoint batchResults (libs : Libs) (outputFormat : string) (i : nat)
  (files : list ConversionFile) : list BatchResult :=
  match files with
  | [] => []
  | fileInfo :: rest =>
      batchEntry libs outputFormat i fileInfo
        :: batchResults libs outputFormat (S i) rest
  end.

(** [length] and [substring] count code units, the characters of a text
    that [JsString.is_ascii] accepts. *)
Definition contentPreview (content : string) : string :=
  if 100 <? String.length content
  then substring_0 100 content ++ "..."
  else content.

(** The text appended to [output] for one entry of [results]. *)
Definition resultBlock (result : BatchResult) : string :=
  "File: " ++ result_filename result ++ nl ++
  "Status: " ++ status result ++ nl ++
  match result with
  | Failure _ error => "Error: " ++ error ++ nl
  | Success _ content => "Content Preview: " ++ contentPreview content ++ nl
  end ++
  repeat "-" 30 ++ nl.

Definition batchReport (n : nat) (outputFormat : string)
  (results : list BatchResult) : string :=
  "Batch Conversion Results (" ++ of_nat n ++ " files to "
    ++ outputFormat ++ ")" ++ nl ++
  repeat "=" 50 ++ nl ++ nl ++
  String.concat "" (List.map resultBlock results).

Definition convertFileBatch (libs : Libs) (files : list ConversionFile)
  (outputFormat : string) : string :=
  let results := batchResults libs outputFormat 0 files in
  batchReport (List.length files) outputFormat results.

(** [checkDependencies()]: the entries of the object, in its order. *)
Definition checkDependencies (libs : Libs) : list (string * bool) :=
  [ ("marked", installed (marked libs));
    ("turndown", installed (turndown libs));
    ("puppeteer", installed (puppeteer libs));
    ("officegen", installed (officegen libs));
    ("mammoth", installed (mammoth libs));
    ("pdf-parse", installed (pdfParse libs)) ].

(** The line added to [result] for one entry of [deps]. *)
Definition dependencyLine (entry : string * bool) : string :=
  let status := if snd entry then check_mark ++ " Available"
                else cross_mark ++ " Not installed" in
  fst entry ++ ": " ++ status ++ nl.

Definition listSupportedFormats (libs : Libs) : string :=
  let deps := checkDependencies libs in
  let result := "Document Converter - Supported Formats" ++ nl in
  let result := result ++ "=" ++ repeat "=" 39 ++ nl ++ nl in
  let result := result ++ "Input Formats: " ++ join ", " SUPPORTED_FORMATS_input ++ nl in
  let result := result ++ "Output Formats: " ++ join ", " SUPPORTED_FORMATS_output ++ nl ++ nl in
  let result := result ++ "Library Dependencies:" ++ nl in
  let result := result ++ repeat "-" 20 ++ nl in
  let result := List.fold_left (fun r entry => r ++ dependencyLine entry) deps result in
  let result := result ++ nl ++ "Installation Commands:" ++ nl in
  let result := result ++ repeat "-" 20 ++ nl in
  let result := result ++ "npm install marked turndown puppeteer officegen mammoth pdf-parse" ++ nl ++ nl in
  let result := result ++ "Notes:" ++ nl in
  let result := result ++ "- Binary formats (PDF, DOCX) require base64 encoding" ++ nl in
  let result := result ++ "- Some conversions may require additional system dependencies" ++ nl in
  let result := result ++ "- Puppeteer may require additional setup for headless Chrome" ++ nl in
  result.

(** The arguments of a tool call, as the handler casts them; a tool reads
    the ones it needs. *)
Record CallToolArguments : Type := {
  arg_content : string;
  arg_input_format : string;
  arg_output_format : string;
  arg_filename : option string;
  arg_files : list ConversionFile
}.

(** The handler of [CallToolRequestSchema].  Its answer is an object with
    one text item; the model returns the text.  Whatever the tool throws is
    caught and answered as text. *)
Definition callTool (libs : Libs) (name : string) (args : CallToolArguments)
  : string :=
  match
    (if String.eqb name "convert-document" then
       convertDocument libs (arg_content args) (arg_input_format args)
         (arg_output_format args) (arg_filename args)
     else if String.eqb name "list-supported-formats" then
       Return (listSupportedFormats libs)
     else if String.eqb name "convert-file-batch" then
       Return (convertFileBatch libs (arg_files args) (arg_output_format args))
     else Throw (Error ("Unknown tool: " ++ name)))
  with
  | Return text => text
  | Throw error => "Error: " ++ message error
  end.

(** The handler of [ListToolsRequestSchema]. *)
Definition format_enum (formats : list string) : json :=
  JArr (List.map JStr formats).

Definition listTools : json :=
  JObj [("tools", JArr [
    JObj [
      ("name", JStr "convert-document");
      ("description", JStr "Convert document from one format to another");
      ("inputSchema", JObj [
        ("type", JStr "object");
        ("properties", JObj [
          ("content", JObj [("type", JStr "string");
                            ("description", JStr "Document content (text or base64 for binary formats)")]);
          ("input_format", JObj [("type", JStr "string");
                                 ("enum", format_enum SUPPORTED_FORMATS_input);
                                 ("description", JStr "Input document format")]);
          ("output_format", JObj [("type", JStr "string");
                                  ("enum", format_enum SUPPORTED_FORMATS_output);
                                  ("description", JStr "Output document format")]);
          ("filename", JObj [("type", JStr "string");
                             ("description", JStr "Optional filename for context")])]);
        ("required", JArr [JStr "content"; JStr "input_format"; JStr "output_format"])])];
    JObj [
      ("name", JStr "list-supported-formats");
      ("description", JStr "List all supported input and output formats");
      ("inputSchema", JObj [("type", JStr "object"); ("properties", JObj []);
                            ("additionalProperties", JBool false)])];
    JObj [
      ("name", JStr "convert-file-batch");
      ("description", JStr "Convert multiple files to the same output format");
      ("inputSchema", JObj [
        ("type", JStr "object");
        ("properties", JObj [
          ("files", JObj [
            ("type", JStr "array");
            ("items", JObj [
              ("type", JStr "object");
              ("properties", JObj [
                ("content", JObj [("type", JStr "string")]);
                ("input_format", JObj [("type", JStr "string")]);
                ("filename", JObj [("type", JStr "string")])]);
              ("required", JArr [JStr "content"; JStr "input_format"])]);
            ("description", JStr "List of files to convert")]);
          ("output_format", JObj [("type", JStr "string");
                                  ("enum", format_enum SUPPORTED_FORMATS_output);
                                  ("description", JStr "Target output format for all files")])]);
        ("required", JArr [JStr "files"; JStr "output_format"])])]])].

End Stdio.

(** ** The HTTP server: [DocumentConverterServer] *)

Module Http.

Import JsString.

(** A format argument is a string or [undefined] ([None]): the batch tool
    passes [file.input_format] on as it finds it. *)
Definition strict_eq (a b : option string) : bool :=
  match a, b with
  | Some x, Some y => String.eqb x y
  | None, None => true
  | _, _ => false
  end.

(** [v === 'lit'] *)
Definition equals (v : option string) (lit : string) : bool := strict_eq v (Some lit).

(** [`${v}`] *)
Definition show (v : option string) : string :=
  match v with Some s => s | None => "undefined" end.

(** [content] is required by the schema of the tool; [input_format] and
    [filename] are read as they come. *)
Record ConversionFile : Type := {
  content : string;
  input_format : option string;
  filename : option string
}.

(** [/<[^>]*>/g] *)
Definition re_tag : Regex.regex :=
  Regex.seq [Regex.lit "<"; Regex.Star true (Regex.none_of ">"); Regex.lit ">"].
(** [/\s+/g] *)
Definition re_spaces : Regex.regex :=
  Regex.plus true (Regex.Chr JsChar.is_space).
(** [/[#*`_\[\]()]/g] *)
Definition re_md_marks : Regex.regex := Regex.one_of "#*`_[]()".

Definition convertToText (content : string) (inputType : option string) : string :=
  if equals inputType "html" then
    trim (Regex.replace_all re_spaces (Regex.const " ")
            (Regex.replace_all re_tag (Regex.const "") content))
  else if equals inputType "md" then
    trim (Regex.replace_all re_spaces (Regex.const " ")
            (Regex.replace_all re_md_marks (Regex.const "") content))
  else content.

(** [/\b\w/g] *)
Definition re_word_start : Regex.regex :=
  Regex.Seq Regex.WordBoundary (Regex.Chr JsChar.is_word).

(** The function mapped over the lines in [convertToMarkdown]. *)
Definition markdownLine (line : string) : string :=
  if negb (truthy (trim line)) then ""
  else if String.eqb (toUpperCase line) line && (3 <? String.length line)
  then "# " ++ Regex.replace_all re_word_start (fun l _ => toUpperCase l)
                 (toLowerCase line)
  else if endsWith ":" line
  then "## " ++ slice_0_m1 line
  else line.

Definition convertToMarkdown (libs : Libs) (content : string)
  (inputType : option string) : Result string :=
  match equals inputType "html", turndown libs with
  | true, Some turndownService => turndownService content
  | _, _ =>
      if equals inputType "txt" then
        let lines := split nl content in
        Return (join nl (List.map markdownLine lines))
      else Return content
  end.

Definition replace_lit (pat rep s : string) : string :=
  Regex.replace_all (Regex.lit pat) (Regex.const rep) s.

Definition escapeHtml (s : string) : string :=
  replace_lit ">" "&gt;" (replace_lit "<" "&lt;" (replace_lit "&" "&amp;" s)).

(** The literals of [simpleMarkdownToHtml]. *)
Definition re_header (marks : string) : Regex.regex :=
  Regex.seq [Regex.Bol true; Regex.lit_i (marks ++ " ");
             Regex.Group (Regex.Seq (Regex.Star true Regex.dot) (Regex.Eol true))].
Definition re_between (opening : string) (inner : Regex.regex) (closing : string)
  : Regex.regex :=
  Regex.seq [Regex.lit opening; Regex.Group (Regex.Star false inner);
             Regex.lit closing].
(** [/<p>(<h[1-6]>.*?<\/h[1-6]>)<\/p>/g] *)
Definition re_p_heading : Regex.regex :=
  Regex.seq [Regex.lit "<p>";
             Regex.Group (Regex.seq [Regex.lit "<h"; Regex.one_of "123456";
                                     Regex.lit ">"; Regex.Star false Regex.dot;
                                     Regex.lit "</h"; Regex.one_of "123456";
                                     Regex.lit ">"]);
             Regex.lit "</p>"].
(** [/<p>(<pre>.*?<\/pre>)<\/p>/g] *)
Definition re_p_pre : Regex.regex :=
  Regex.seq [Regex.lit "<p>";
             Regex.Group (Regex.seq [Regex.lit "<pre>"; Regex.Star false Regex.dot;
                                     Regex.lit "</pre>"]);
             Regex.lit "</p>"].

Definition wrap (opening closing : string) : string -> string -> string :=
  fun _ g1 => opening ++ g1 ++ closing.

Definition simpleMarkdownToHtml (markdown : string) : string :=
  let html := markdown in
  (* Escape HTML characters first *)
  let html := escapeHtml html in
  (* Headers *)
  let html := Regex.replace_all (re_header "###") (wrap "<h3>" "</h3>") html in
  let html := Regex.replace_all (re_header "##") (wrap "<h2>" "</h2>") html in
  let html := Regex.replace_all (re_header "#") (wrap "<h1>" "</h1>") html in
  (* Bold and italic *)
  let html := Regex.replace_all (re_between "**" Regex.dot "**")
                (wrap "<strong>" "</strong>") html in
  let html := Regex.replace_all (re_between "*" Regex.dot "*")
                (wrap "<em>" "</em>") html in
  (* Code blocks *)
  let html := Regex.replace_all (re_between "```" Regex.any "```")
                (wrap "<pre><code>" "</code></pre>") html in
  let html := Regex.replace_all (re_between "`" Regex.dot "`")
                (wrap "<code>" "</code>") html in
  (* Line breaks *)
  let html := replace_lit (nl ++ nl) "</p><p>" html in
  let html := replace_lit nl "<br>" html in
  (* Wrap in paragraphs *)
  let html := "<p>" ++ html ++ "</p>" in
  (* Clean up empty paragraphs *)
  let html := replace_lit "<p></p>" "" html in
  let html := Regex.replace_all re_p_heading (wrap "" "") html in
  let html := Regex.replace_all re_p_pre (wrap "" "") html in
  html.

Definition convertToHtml (libs : Libs) (content : string)
  (inputType : option string) : Result string :=
  if equals inputType "md" then
    match marked libs with
    | Some parse =>
        body <- parse content ;;
        Return (join nl [
          "<!DOCTYPE html>";
          "<html>";
          "<head>";
          "    <meta charset=" ++ dq ++ "utf-8" ++ dq ++ ">";
          "    <title>Converted Document</title>";
          "    <style>";
          "        body { font-family: Arial, sans-serif; margin: 40px; line-height: 1.6; }";
          "        code { background-color: #f4f4f4; padding: 2px 4px; border-radius: 3px; }";
          "        pre { background-color: #f4f4f4; padding: 10px; border-radius: 5px; overflow-x: auto; }";
          "    </style>";
          "</head>";
          "<body>";
          body;
          "</body>";
          "</html>"])
    | None =>
        (* Simple markdown to HTML conversion fallback *)
        let htmlContent := simpleMarkdownToHtml content in
        Return (join nl [
          "<!DOCTYPE html>";
          "<html>";
          "<head>";
          "    <meta charset=" ++ dq ++ "utf-8" ++ dq ++ ">";
          "    <title>Converted Document</title>";
          "    <style>";
          "        body { font-family: Arial, sans-serif; margin: 40px; line-height: 1.6; }";
          "        h1, h2, h3, h4, h5, h6 { color: #333; }";
          "        code { background-color: #f4f4f4; padding: 2px 4px; border-radius: 3px; }";
          "        pre { background-color: #f4f4f4; padding: 10px; border-radius: 5px; overflow-x: auto; }";
          "    </style>";
          "</head>";
          "<body>";
          htmlContent;
          "</body>";
          "</html>"])
    end
  else if equals inputType "txt" then
    let escaped := escapeHtml content in
    Return (join nl [
      "<!DOCTYPE html>";
      "<html>";
      "<head>";
      "    <meta charset=" ++ dq ++ "utf-8" ++ dq ++ ">";
      "    <title>Text Document</title>";
      "</head>";
      "<body>";
      "<pre>" ++ escaped ++ "</pre>";
      "</body>";
      "</html>"])
  else Return content.

(** The result is the buffer already printed by [toString('base64')]. *)
Definition convertToPdf (libs : Libs) (content : string)
  (inputType : option string) : Result string :=
  match puppeteer libs with
  | None => Throw (Error "PDF conversion requires puppeteer")
  | Some p =>
      open_page p ;;;
      htmlContent <-
        (if negb (equals inputType "html") then convertToHtml libs content inputType
         else Return content) ;;
      print p false htmlContent
  end.

Definition convertToDocx (content : string) (inputType : option string)
  : Result string :=
  (* Simplified DOCX generation - in practice, you'd use a proper library *)
  Throw (Error "DOCX generation not implemented in this demo").

Definition convertDocument (libs : Libs) (content : string)
  (inputFormat outputFormat : option string) (filename : option string)
  : Result string :=
  try_catch
    (if strict_eq inputFormat outputFormat then Return content
     else
       (* Convert to intermediate format if needed *)
       working <-
         match equals inputFormat "docx", mammoth libs with
         | true, Some extractRawText =>
             value <- extractRawText content ;; Return (value, Some "txt")
         | _, _ =>
             match equals inputFormat "pdf", pdfParse libs with
             | true, Some parse =>
                 text <- parse content ;; Return (text, Some "txt")
             | _, _ => Return (content, inputFormat)
             end
         end ;;
       let workingContent := fst working in
       let workingType := snd working in
       (* Convert to target format *)
       if equals outputFormat "txt" then Return (convertToText workingContent workingType)
       else if equals outputFormat "md" then convertToMarkdown libs workingContent workingType
       else if equals outputFormat "html" then convertToHtml libs workingContent workingType
       else if equals outputFormat "pdf" then convertToPdf libs workingContent workingType
       else if equals outputFormat "docx" then convertToDocx workingContent workingType
       else Throw (Error ("Unsupported output format: " ++ show outputFormat)))
    (fun error => Throw (Error ("Conversion failed: " ++ error_toString error))).

(** One entry of [results]; [content] is the preview already. *)
Inductive BatchResult : Type :=
| Success (filename content : string)
| Failure (filename error : string).

Definition result_filename (r : BatchResult) : string :=
  match r with Success f _ => f | Failure f _ => f end.

Definition status (r : BatchResult) : string :=
  match r with Success _ _ => "success" | Failure _ _ => "error" end.

(** [length] and [substring] count code units, the characters of a text
    that [JsString.is_ascii] accepts. *)
Definition contentPreview (converted : string) : string :=
  substring_0 100 converted
  ++ (if 100 <? String.length converted then "..." else "").

(** The body of the loop of [convertFileBatch], at index [i]. *)
Definition batchEntry (libs : Libs) (outputFormat : option string) (i : nat)
  (file : ConversionFile) : BatchResult :=
  match convertDocument libs (content file) (input_format file) outputFormat
          (filename file) with
  | Return converted =>
      Success (or_else (filename file) ("file_" ++ of_nat (i + 1)))
              (contentPreview converted)
  | Throw error =>
      Failure (or_else (filename file) ("file_" ++ of_nat (i + 1)))
              (error_toString error)
  end.

Fixpoint batchResults (libs : Libs) (outputFormat : option string) (i : nat)
  (files : list ConversionFile) : list BatchResult :=
  match files with
  | [] => []
  | file :: rest =>
      batchEntry libs outputFormat i file
        :: batchResults libs outputFormat (S i) rest
  end.

(** The function mapped over [results] in the report. *)
Definition resultBlock (r : BatchResult) : string :=
  "File: " ++ result_filename r ++ nl ++
  "Status: " ++ status r ++ nl ++
  match r with
  | Failure _ error => "Error: " ++ error ++ nl
  | Success _ content => "Preview: " ++ content ++ nl
  end ++
  repeat "-" 30 ++ nl.

Definition convertFileBatch (libs : Libs) (files : list ConversionFile)
  (outputFormat : option string) : string :=
  let results := batchResults libs outputFormat 0 files in
  "Batch Conversion Results (" ++ of_nat (List.length files) ++ " files to "
    ++ show outputFormat ++ ")" ++ nl ++
  repeat "=" 50 ++ nl ++ nl ++
  join "" (List.map resultBlock results).

(** The two lists that [listSupportedFormats] builds in [formats]. *)
Definition formats_input (libs : Libs) : list string :=
  (["txt"; "md"; "html"]
   ++ (if installed (mammoth libs) then ["docx"] else [])
   ++ (if installed (pdfParse libs) then ["pdf"] else []))%list.

Definition formats_output (libs : Libs) : list string :=
  (["txt"; "md"; "html"]
   ++ (if installed (puppeteer libs) then ["pdf"] else []))%list.

Definition mark (available : bool) : string :=
  if available then check_mark else cross_mark.

Definition listSupportedFormats (libs : Libs) : string :=
  "Document Converter - Supported Formats" ++ nl ++
  "========================================" ++ nl ++ nl ++
  "Input Formats: " ++ join ", " (formats_input libs) ++ nl ++
  "Output Formats: " ++ join ", " (formats_output libs) ++ nl ++ nl ++
  "Available Libraries:" ++ nl ++
  "- marked: " ++ mark (installed (marked libs)) ++ nl ++
  "- turndown: " ++ mark (installed (turndown libs)) ++ nl ++
  "- puppeteer: " ++ mark (installed (puppeteer libs)) ++ nl ++
  "- mammoth: " ++ mark (installed (mammoth libs)) ++ nl ++
  "- pdf-parse: " ++ mark (installed (pdfParse libs)).

(** The tools as they are listed. *)
Definition format_enum : json :=
  JArr [JStr "txt"; JStr "md"; JStr "html"; JStr "pdf"; JStr "docx"].

Definition tool_convert_document : json :=
  JObj [
    ("name", JStr "convert-document");
    ("description", JStr "Convert document between different formats (txt, md, html, pdf, docx)");
    ("inputSchema", JObj [
      ("type", JStr "object");
      ("properties", JObj [
        ("content", JObj [("type", JStr "string");
                          ("description", JStr "Document content to convert")]);
        ("input_format", JObj [("type", JStr "string"); ("enum", format_enum);
                               ("description", JStr "Input format")]);
        ("output_format", JObj [("type", JStr "string"); ("enum", format_enum);
                                ("description", JStr "Output format")]);
        ("filename", JObj [("type", JStr "string");
                           ("description", JStr "Optional filename for context")])]);
      ("required", JArr [JStr "content"; JStr "input_format"; JStr "output_format"])])].

Definition tool_list_supported_formats : json :=
  JObj [
    ("name", JStr "list-supported-formats");
    ("description", JStr "List all supported input and output formats");
    ("inputSchema", JObj [("type", JStr "object"); ("properties", JObj [])])].

Definition tool_convert_file_batch : json :=
  JObj [
    ("name", JStr "convert-file-batch");
    ("description", JStr "Convert multiple files to the same output format");
    ("inputSchema", JObj [
      ("type", JStr "object");
      ("properties", JObj [
        ("files", JObj [
          ("type", JStr "array");
          ("items", JObj [
            ("type", JStr "object");
            ("properties", JObj [
              ("content", JObj [("type", JStr "string")]);
              ("input_format", JObj [("type", JStr "string")]);
              ("filename", JObj [("type", JStr "string")])]);
            ("required", JArr [JStr "content"; JStr "input_format"])]);
          ("description", JStr "Array of files to convert")]);
        ("output_format", JObj [("type", JStr "string"); ("enum", format_enum);
                                ("description", JStr "Target output format for all files")])]);
      ("required", JArr [JStr "files"; JStr "output_format"])])].

(** The handler of [ListToolsRequestSchema], and the list the [/mcp] route
    builds for [tools/list]. *)
Definition listTools : json :=
  JObj [("tools", JArr [tool_convert_document; tool_list_supported_formats;
                        tool_convert_file_batch])].

Definition route_tools : list json :=
  [tool_convert_document; tool_list_supported_formats].

(** The arguments of a tool call; a tool reads the ones it needs. *)
Record CallToolArguments : Type := {
  arg_content : string;
  arg_input_format : option string;
  arg_output_format : option string;
  arg_filename : option string;
  arg_files : list ConversionFile
}.

(** The handler of [CallToolRequestSchema].  Its answer is an object with
    one text item; the model returns the text.  Nothing is caught. *)
Definition callTool (libs : Libs) (name : option string) (args : CallToolArguments)
  : Result string :=
  if equals name "convert-document" then
    convertDocument libs (arg_content args) (arg_input_format args)
      (arg_output_format args) (arg_filename args)
  else if equals name "list-supported-formats" then
    Return (listSupportedFormats libs)
  else if equals name "convert-file-batch" then
    Return (convertFileBatch libs (arg_files args) (arg_output_format args))
  else Throw (Error ("Unknown tool: " ++ show name)).

(** The body of a [POST /mcp]: an object whose [method] is a string or
    absent, with any [id], and with [params] when the caller sent some. *)
Record McpParams : Type := {
  tool_name : option string;
  arguments : option CallToolArguments
}.

Record McpRequest : Type := {
  rpc_method : option string;
  rpc_id : option json;
  rpc_params : option McpParams
}.

Record Response : Type := {
  status_code : nat;
  body : json
}.

Definition text_content (text : string) : json :=
  JObj [("content", JArr [JObj [("type", JStr "text"); ("text", JStr text)]])].

Definition rpc_result (result : json) (id : option json) : json :=
  JObj ([("jsonrpc", JStr "2.0"); ("result", result)] ++ optional_field "id" id)%list.

Definition rpc_error (code : Z) (msg : string) (id : option json) : json :=
  JObj ([("jsonrpc", JStr "2.0");
         ("error", JObj [("code", JNum code); ("message", JStr msg)])]
        ++ optional_field "id" id)%list.

Definition route_formats_text : string :=
  "Supported formats:" ++ nl ++
  "Input/Output: txt, md, html" ++ nl ++
  "Input only: pdf, docx (requires additional libraries)" ++ nl ++
  "Output only: pdf (requires puppeteer)".

(** The text of a [tools/call]; reading [request.params] or [args.content]
    when it is absent throws, like the tool itself may.  The message of
    such a [TypeError] is the engine's; the route never shows it. *)
Definition route_call (libs : Libs) (request : McpRequest) : Result string :=
  match rpc_params request with
  | None => Throw (MkError "TypeError" "Cannot destructure 'request.params'")
  | Some p =>
      let name := tool_name p in
      if equals name "convert-document" then
        match arguments p with
        | None => Throw (MkError "TypeError" "Cannot read properties of undefined")
        | Some args =>
            convertDocument libs (arg_content args) (arg_input_format args)
              (arg_output_format args) (arg_filename args)
        end
      else if equals name "list-supported-formats" then
        Return route_formats_text
      else Throw (Error ("Unknown tool: " ++ show name))
  end.

(** The handler of [POST /mcp]. *)
Definition mcp (libs : Libs) (request : McpRequest) : Response :=
  match
    (if equals (rpc_method request) "initialize" then
       Return {| status_code := 200;
                 body := rpc_result
                   (JObj [("protocolVersion", JStr "2024-11-05");
                          ("capabilities", JObj [("tools", JObj [])]);
                          ("serverInfo", JObj [("name", JStr "document-converter");
                                               ("version", JStr "1.0.0")])])
                   (rpc_id request) |}
     else if equals (rpc_method request) "tools/list" then
       Return {| status_code := 200;
                 body := rpc_result (JObj [("tools", JArr route_tools)]) (rpc_id request) |}
     else if equals (rpc_method request) "tools/call" then
       text <- route_call libs request ;;
       Return {| status_code := 200;
                 body := rpc_result (text_content text) (rpc_id request) |}
     else
       Return {| status_code := 400;
                 body := rpc_error (-32601)
                           ("Method not found: " ++ show (rpc_method request))
                           (rpc_id request) |})
  with
  | Return response => response
  | Throw _ =>
      {| status_code := 500;
         body := rpc_error (-32603) "Internal error" (rpc_id request) |}
  end.

End Http.

(** * Properties *)

Import JsString.

(** ** Vocabulary of the statements *)

(** A text of code units below 128, on which the model and the servers
    agree about white space, case and lengths. *)
Definition ascii_text (s : string) : Prop := is_ascii s = true.

(** The format a request names, as the stdio server reads it. *)
Definition normalized (format : string) : string := trim (toLowerCase format).

(** Every optional library is installed and every call to one throws. *)
Definition broken : JsError := MkError "Error" "library failure".

Definition failing_libs : Libs :=
  {| marked := Some (fun _ => Throw broken);
     turndown := Some (fun _ => Throw broken);
     puppeteer := Some {| open_page := Throw broken;
                          print := fun _ _ => Throw broken |};
     officegen := Some (fun _ => Throw broken);
     mammoth := Some (fun _ => Throw broken);
     pdfParse := Some (fun _ => Throw broken) |}.

(** The input of the HTML-to-text example. *)
Definition hello_html : string := "<p>Hello &amp; welcome</p>".

(** The three stages of [convertHtmlToText]. *)
Definition strip_tags (s : string) : string :=
  Regex.replace_all Stdio.re_tag (Regex.const "")
    (Regex.replace_all Stdio.re_style (Regex.const "")
       (Regex.replace_all Stdio.re_script (Regex.const "") s)).

Definition decode_entities (s : string) : string :=
  Stdio.replace_lit "&#39;" "'"
    (Stdio.replace_lit "&quot;" dq
       (Stdio.replace_lit "&gt;" ">"
          (Stdio.replace_lit "&lt;" "<"
             (Stdio.replace_lit "&amp;" "&"
                (Stdio.replace_lit "&nbsp;" " " s))))).

Definition collapse_spaces (s : string) : string :=
  trim (Regex.replace_all Stdio.re_spaces (Regex.const " ") s).

(** The text of a level-1 heading: lowercased, then the first character of
    each word uppercased. *)
Definition title_case (s : string) : string :=
  Regex.replace_all Stdio.re_word_start (fun l _ => toUpperCase l) (toLowerCase s).

(** What a request for a PDF fails with when puppeteer is absent. *)
Definition stdio_puppeteer_missing : JsError :=
  Error "Conversion failed: Puppeteer library not available. Install with: npm install puppeteer".

Definition http_puppeteer_missing : JsError :=
  Error "Conversion failed: Error: PDF conversion requires puppeteer".

(** The preview of a converted text in a batch report: its first 100
    characters, and three dots exactly when it has more. *)
Definition preview_of (converted : string) : string :=
  take 100 converted ++ (if 100 <? String.length converted then "..." else "").

(** The name of the file at position [i] (counted from 0) that has none. *)
Definition default_name (i : nat) : string := "file_" ++ of_nat (i + 1).

(** The blocks and the header of a batch report. *)
Definition success_block (label name converted : string) : string :=
  "File: " ++ name ++ nl ++ "Status: success" ++ nl ++
  label ++ preview_of converted ++ nl ++ repeat "-" 30 ++ nl.

Definition error_block (name msg : string) : string :=
  "File: " ++ name ++ nl ++ "Status: error" ++ nl ++
  "Error: " ++ msg ++ nl ++ repeat "-" 30 ++ nl.

Definition report_header (n : nat) (target : string) : string :=
  "Batch Conversion Results (" ++ of_nat n ++ " files to " ++ target ++ ")" ++ nl ++
  repeat "=" 50 ++ nl ++ nl.

(** Three files, the second of a format that is not supported, the third
    with neither format nor name. *)
Definition scenario_files : list Stdio.ConversionFile :=
  [ {| Stdio.content := Some (repeat "a" 120); Stdio.input_format := Some "txt";
       Stdio.filename := Some "a.txt" |};
    {| Stdio.content := Some "x"; Stdio.input_format := Some "odt";
       Stdio.filename := None |};
    {| Stdio.content := Some "Summary:"; Stdio.input_format := None;
       Stdio.filename := None |} ].

(** A matcher is local when it calls its continuation only on positions at
    or after its own, and strict when it fails as soon as its continuation
    always fails. *)
Definition local_step
  (step : Regex.mstate -> (Regex.mstate -> option Regex.mstate)
          -> option Regex.mstate) : Prop :=
  forall st k k',
    (forall st', String.length (Regex.rest st') <= String.length (Regex.rest st) ->
                 k st' = k' st') ->
    step st k = step st k'.

Definition strict_step
  (step : Regex.mstate -> (Regex.mstate -> option Regex.mstate)
          -> option Regex.mstate) : Prop :=
  forall st, step st (fun _ => None) = None.

(** Unfold the stdio [convertDocument] at formats whose normal forms are
    known. *)
Ltac stdio_formats i o Hi Ho :=
  unfold Stdio.convertDocument; fold (normalized i); fold (normalized o);
  rewrite ?Hi, ?Ho; cbn.

(** The formats the stdio server accepts. *)
Definition registry : list string := ["txt"; "md"; "html"; "docx"; "pdf"; "rtf"].

(** The two stages inside the [try] of the stdio [convertDocument]: the
    working content with its type, and the output made from them. *)
Definition stdio_working (libs : Libs) (content input : string)
  : Result (string * string) :=
  if String.eqb input "txt" then Return (content, "text")
  else if String.eqb input "md" then Return (content, "markdown")
  else if String.eqb input "html" then Return (content, "html")
  else if String.eqb input "docx" then
    match mammoth libs with
    | None => Throw (Error "Mammoth library not available for DOCX processing. Install with: npm install mammoth")
    | Some extractRawText =>
        value <- extractRawText content ;; Return (value, "text")
    end
  else if String.eqb input "pdf" then
    match pdfParse libs with
    | None => Throw (Error "pdf-parse library not available for PDF processing. Install with: npm install pdf-parse")
    | Some parse =>
        text <- parse content ;; Return (text, "text")
    end
  else Return (content, "text").

Definition stdio_output (libs : Libs) (output : string) (working : string * string)
  : Result string :=
  let workingContent := fst working in
  let workingType := snd working in
  if String.eqb output "txt" then
    if String.eqb workingType "html" then Return (Stdio.convertHtmlToText workingContent)
    else if String.eqb workingType "markdown"
    then Return (Regex.replace_all Stdio.re_md_marks (Regex.const "") workingContent)
    else Return workingContent
  else if String.eqb output "md" then
    if String.eqb workingType "text" then Return (Stdio.convertTextToMarkdown workingContent)
    else if String.eqb workingType "html" then Stdio.convertHtmlToMarkdown libs workingContent
    else Return workingContent
  else if String.eqb output "html" then
    if String.eqb workingType "markdown" then Stdio.convertMarkdownToHtml libs workingContent
    else if String.eqb workingType "text" then Return (Stdio.textToHtmlPage workingContent)
    else Return workingContent
  else if String.eqb output "pdf" then
    Stdio.convertToPdf libs workingContent workingType
  else if String.eqb output "docx" then
    Stdio.convertToDocx libs workingContent workingType
  else
    Throw (Error ("Output format '" ++ output ++ "' conversion not implemented")).

Definition stdio_wrap (error : JsError) : Result string :=
  Throw (Error ("Conversion failed: " ++ message error)).

(** Puppeteer alone is installed, and prints every page as the same bytes. *)
Definition printing_libs : Libs :=
  {| marked := None; turndown := None;
     puppeteer := Some {| open_page := Return tt;
                          print := fun _ _ => Return "JVBERi0=" |};
     officegen := None; mammoth := None; pdfParse := None |}.

(** Mammoth alone is installed, and extracts the same text from everything. *)
Definition extracting_libs : Libs :=
  {| marked := None; turndown := None; puppeteer := None; officegen := None;
     mammoth := Some (fun _ => Return "Minutes:"); pdfParse := None |}.

(** A string that does not begin with a space. *)
Definition starts_clean (s : string) : Prop :=
  match s with
  | EmptyString => True
  | String c _ => JsChar.is_space c = false
  end.

(** The tools of a [tools/list] answer, and whether it names a tool. *)
Definition tools_of (listing : json) : list json :=
  match get "tools" listing with
  | Some (JArr tools) => tools
  | _ => []
  end.

Definition advertised (tools : list json) (tool : string) : Prop :=
  In (Some (JStr tool)) (tool_names tools).

Definition unknown_tool (tool : string) : JsError := Error ("Unknown tool: " ++ tool).

(** The answer of [/mcp] to a request that made the handler throw. *)
Definition internal_error (id : option json) : Http.Response :=
  {| Http.status_code := 500;
     Http.body := Http.rpc_error (-32603) "Internal error" id |}.

(** A call of [convert-document] with the given arguments, and one that
    asks for [text] as [txt] to be converted to [txt]. *)
Definition stdio_identity_call (text : string) : Stdio.CallToolArguments :=
  {| Stdio.arg_content := text; Stdio.arg_input_format := "txt";
     Stdio.arg_output_format := "txt"; Stdio.arg_filename := None;
     Stdio.arg_files := [] |}.

Definition http_call (tool : string) (args : Http.CallToolArguments) (id : option json)
  : Http.McpRequest :=
  {| Http.rpc_method := Some "tools/call"; Http.rpc_id := id;
     Http.rpc_params := Some {| Http.tool_name := Some tool;
                                Http.arguments := Some args |} |}.

(** Every character of a string passes a test. *)
Fixpoint all_chars (p : ascii -> bool) (s : string) : bool :=
  match s with
  | EmptyString => true
  | String c s' => p c && all_chars p s'
  end.

(** Each character that passes the test is replaced by a text; the others
    are kept. *)
Fixpoint substitute (p : ascii -> bool) (f : ascii -> string) (s : string) : string :=
  match s with
  | EmptyString => EmptyString
  | String c s' => (if p c then f c else String c "") ++ substitute p f s'
  end.

(** The characters that pass the test are deleted. *)
Definition delete_chars (p : ascii -> bool) (s : string) : string :=
  substitute p (fun _ => "") s.

(** What [escapeHtml] writes for one character. *)
Definition escape_char (c : ascii) : string :=
  if Ascii.eqb c "&" then "&amp;"
  else if Ascii.eqb c "<" then "&lt;"
  else if Ascii.eqb c ">" then "&gt;"
  else String c "".

Definition is_md_mark (c : ascii) : bool := Regex.mem c "#*_`".

(** The text after the leading characters that pass a test, and their
    number. *)
Fixpoint drop_while (p : ascii -> bool) (s : string) : string :=
  match s with
  | EmptyString => EmptyString
  | String c s' => if p c then drop_while p s' else s
  end.

Fixpoint span (p : ascii -> bool) (s : string) : nat :=
  match s with
  | EmptyString => 0
  | String c s' => if p c then S (span p s') else 0
  end.

(** Every run of spaces becomes one space; [in_run] tells that the space
    of the current run is already written. *)
Fixpoint collapse_go (in_run : bool) (s : string) : string :=
  match s with
  | EmptyString => EmptyString
  | String c s' =>
      if JsChar.is_space c
      then (if in_run then collapse_go true s' else " " ++ collapse_go true s')
      else String c (collapse_go false s')
  end.

(** Every white space of the text is a single space between two other
    characters. *)
Definition next_is_word (s : string) : bool :=
  match s with
  | EmptyString => false
  | String d _ => negb (JsChar.is_space d)
  end.

Fixpoint single_spaced (s : string) : bool :=
  match s with
  | EmptyString => true
  | String c s' =>
      (if JsChar.is_space c then Ascii.eqb c " " && next_is_word s' else true)
      && single_spaced s'
  end.

Definition spaces_normal (s : string) : Prop :=
  starts_clean s /\ single_spaced s = true.

(** The same, except that a space may also come first or last. *)
Definition next_is_word_or_end (s : string) : bool :=
  match s with
  | EmptyString => true
  | String d _ => negb (JsChar.is_space d)
  end.

Fixpoint loosely_spaced (s : string) : bool :=
  match s with
  | EmptyString => true
  | String c s' =>
      (if JsChar.is_space c then Ascii.eqb c " " && next_is_word_or_end s' else true)
      && loosely_spaced s'
  end.

(** The text after the first [>] of a string, when there is one. *)
Fixpoint after_gt (s : string) : option string :=
  match s with
  | EmptyString => None
  | String c s' => if Ascii.eqb ">" c then Some s' else after_gt s'
  end.

(** No [<] of the text has a [>] anywhere after it: the text holds no
    tag. *)
Fixpoint no_tag (s : string) : bool :=
  match s with
  | EmptyString => true
  | String c s' => if Ascii.eqb "<" c then negb (Regex.mem ">" s') else no_tag s'
  end.

Definition is_http_md_mark (c : ascii) : bool := Regex.mem c "#*`_[]()".

(** The line feed, and a text of one line. *)
Definition lf : ascii := ascii_of_nat 10.

Definition one_line (s : string) : Prop := Regex.mem lf s = false.

(** What the stdio [convertToDocx] asks of a paragraph it hands to
    officegen. *)
Definition docx_ready (p : DocxParagraph) : Prop :=
  trim (para_text p) = para_text p
  /\ (para_bold p = true -> String.length (para_text p) < 50)
  /\ (para_bold p = false -> para_text p <> "").

(** Officegen is installed and answers with the number of paragraphs it
    was given. *)
Definition counting_libs : Libs :=
  {| marked := None; turndown := None; puppeteer := None;
     officegen := Some (fun paragraphs => Return (of_nat (List.length paragraphs)));
     mammoth := None; pdfParse := None |}.

(** A position of the matcher none of whose texts holds the character. *)
Definition clean_state (x : ascii) (st : Regex.mstate) : Prop :=
  Regex.mem x (Regex.rest st) = false /\ Regex.mem x (Regex.cap st) = false.

(** A matcher hands its continuation only such positions when it starts
    from one. *)
Definition keeps_clean (x : ascii)
  (step : Regex.mstate -> (Regex.mstate -> option Regex.mstate)
          -> option Regex.mstate) : Prop :=
  forall st k y,
    clean_state x st -> step st k = Some y ->
    exists st', clean_state x st' /\ k st' = Some y.

(** ** Strings *)

Lemma append_nil_r (s : string) : s ++ "" = s.
Proof. induction s as [| c s IH]; simpl; [reflexivity | now rewrite IH]. Qed.

Lemma append_assoc (a b c : string) : (a ++ b) ++ c = a ++ (b ++ c).
Proof. induction a as [| x a IH]; simpl; [reflexivity | now rewrite IH]. Qed.

Lemma take_all (n : nat) (s : string) :
  String.length s <= n -> take n s = s.
Proof.
  revert n. induction s as [| c s IH]; intros [| n] H; simpl in *;
    try reflexivity; try lia.
  f_equal. apply IH. lia.
Qed.

Lemma take_length (n : nat) (s : string) :
  n <= String.length s -> String.length (take n s) = n.
Proof.
  revert n. induction s as [| c s IH]; intros [| n] H; simpl in *;
    try reflexivity; try lia.
  f_equal. apply IH. lia.
Qed.

Lemma take_drop (n : nat) (s : string) : take n s ++ drop n s = s.
Proof.
  revert n. induction s as [| c s IH]; intros [| n]; simpl;
    try reflexivity.
  f_equal. apply IH.
Qed.

(** ** The matcher does not depend on its fuel *)

Section RegexFacts.

Import Regex.

Let len (st : mstate) : nat := String.length (rest st).

Variable step : mstate -> (mstate -> option mstate) -> option mstate.
Hypothesis step_local : local_step step.

Lemma star_loop_local (greedy : bool) (fuel : nat) :
  local_step (fun st k => star_loop step greedy k fuel st).
Proof.
  induction fuel as [| fuel IH]; intros st k k' H; simpl.
  - apply H. apply Nat.le_refl.
  - assert (Hagain :
      step st (fun st' => if len st' <? len st
                          then star_loop step greedy k fuel st' else None)
      = step st (fun st' => if len st' <? len st
                            then star_loop step greedy k' fuel st' else None)).
    { apply step_local. intros st' Hle.
      destruct (len st' <? len st) eqn:E; [| reflexivity].
      apply (IH st' k k'). intros st'' Hle'. apply H.
      apply Nat.ltb_lt in E. lia. }
    unfold len in Hagain. rewrite Hagain.
    now rewrite (H st (Nat.le_refl _)).
Qed.

Hypothesis step_strict : strict_step step.

Lemma step_fails (st : mstate) (k : mstate -> option mstate) :
  (forall st', len st' <= len st -> k st' = None) -> step st k = None.
Proof.
  intros H. rewrite (step_local st k (fun _ => None)) by exact H.
  apply step_strict.
Qed.

Lemma star_loop_strict (greedy : bool) (fuel : nat) :
  strict_step (fun st k => star_loop step greedy k fuel st).
Proof.
  induction fuel as [| fuel IH]; intros st; simpl; [reflexivity |].
  rewrite step_fails.
  - now destruct greedy.
  - intros st' _. destruct (_ <? _); [apply IH | reflexivity].
Qed.

(** Any fuel that covers the remaining text gives the same result. *)
Lemma star_loop_fuel (greedy : bool) (k : mstate -> option mstate)
  (fuel1 fuel2 : nat) (st : mstate) :
  len st <= fuel1 -> len st <= fuel2 ->
  star_loop step greedy k fuel1 st = star_loop step greedy k fuel2 st.
Proof.
  revert fuel2 st.
  assert (Hend : forall fuel st, len st = 0 ->
            star_loop step greedy k fuel st = k st).
  { intros [| fuel] st H0; simpl; [reflexivity |].
    rewrite step_fails.
    - destruct greedy; [reflexivity | now destruct (k st)].
    - intros st' _. fold (len st') (len st). rewrite H0.
      reflexivity. }
  induction fuel1 as [| fuel1 IH]; intros fuel2 st H1 H2.
  - rewrite (Hend fuel2 st) by lia. reflexivity.
  - destruct fuel2 as [| fuel2].
    + rewrite (Hend (S fuel1) st) by lia. reflexivity.
    + simpl.
      assert (Hagain :
        step st (fun st' => if len st' <? len st
                            then star_loop step greedy k fuel1 st' else None)
        = step st (fun st' => if len st' <? len st
                              then star_loop step greedy k fuel2 st' else None)).
      { apply step_local. intros st' _.
        destruct (len st' <? len st) eqn:E; [| reflexivity].
        apply Nat.ltb_lt in E. apply IH; lia. }
      unfold len in Hagain. now rewrite Hagain.
Qed.

End RegexFacts.

Lemma run_local (r : Regex.regex) : local_step (Regex.run r).
Proof.
  induction r as [| p | r1 IH1 r2 IH2 | greedy r IH | r IH | m | m |];
    intros st k k' H; simpl.
  - apply H. apply Nat.le_refl.
  - destruct (Regex.rest st) as [| c s'] eqn:E; [reflexivity |].
    destruct (p c); [| reflexivity].
    apply H. simpl. lia.
  - apply IH1. intros st1 H1. apply IH2. intros st2 H2. apply H. lia.
  - now apply (star_loop_local (Regex.run r) IH greedy).
  - apply IH. intros st' H'. apply H. simpl. exact H'.
  - destruct (Regex.at_bol m st); [apply H, Nat.le_refl | reflexivity].
  - destruct (Regex.at_eol m st); [apply H, Nat.le_refl | reflexivity].
  - destruct (Regex.at_word_boundary st); [apply H, Nat.le_refl | reflexivity].
Qed.

Lemma run_strict (r : Regex.regex) : strict_step (Regex.run r).
Proof.
  induction r as [| p | r1 IH1 r2 IH2 | greedy r IH | r IH | m | m |];
    intros st; simpl; try reflexivity.
  - destruct (Regex.rest st) as [| c s']; [reflexivity |].
    now destruct (p c).
  - apply (step_fails (Regex.run r1) (run_local r1) IH1).
    intros st1 _. apply IH2.
  - apply (star_loop_strict (Regex.run r) (run_local r) IH greedy).
  - apply IH.
  - now destruct (Regex.at_bol m st).
  - now destruct (Regex.at_eol m st).
  - now destruct (Regex.at_word_boundary st).
Qed.

(** The star is the repeat matcher of the language: one more iteration of
    the body that consumes something, then the star again, or the
    continuation; the greedy star tries the iteration first, the lazy one
    the continuation.  No fuel appears. *)
Theorem run_star_unfold (greedy : bool) (r : Regex.regex) (st : Regex.mstate)
  (k : Regex.mstate -> option Regex.mstate) :
  Regex.run (Regex.Star greedy r) st k
  = let again (_ : unit) :=
      Regex.run r st (fun st' =>
        if String.length (Regex.rest st') <? String.length (Regex.rest st)
        then Regex.run (Regex.Star greedy r) st' k else None) in
    if greedy
    then match again tt with Some x => Some x | None => k st end
    else match k st with Some x => Some x | None => again tt end.
Proof.
  cbv zeta. simpl Regex.run.
  destruct (String.length (Regex.rest st)) as [| n] eqn:E.
  - simpl. rewrite (step_fails (Regex.run r) (run_local r) (run_strict r)).
    + destruct greedy; [reflexivity | now destruct (k st)].
    + intros st' _. reflexivity.
  - simpl.
    rewrite (run_local r st
      (fun st' => if String.length (Regex.rest st') <? String.length (Regex.rest st)
                  then Regex.star_loop (Regex.run r) greedy k n st' else None)
      (fun st' => if String.length (Regex.rest st') <? S n
                  then Regex.star_loop (Regex.run r) greedy k
                         (String.length (Regex.rest st')) st' else None)).
    + reflexivity.
    + intros st' _. rewrite E.
      destruct (String.length (Regex.rest st') <? S n) eqn:L; [| reflexivity].
      apply Nat.ltb_lt in L.
      apply (star_loop_fuel (Regex.run r) (run_local r) (run_strict r)); lia.
Qed.

(** ** Formats *)

Lemma includes_cases (x : string) (l : list string) :
  includes l x = true -> In x l.
Proof.
  unfold includes. intros H. apply existsb_exists in H.
  destruct H as [y [Hin Heq]]. apply String.eqb_eq in Heq. now subst.
Qed.

Lemma strict_eq_refl (v : option string) : Http.strict_eq v v = true.
Proof.
  destruct v as [s|]; simpl; [apply String.eqb_refl | reflexivity].
Qed.

(** The HTTP server compares the two formats before anything else. *)
Lemma http_identity (libs : Libs) (content : string) (f filename : option string) :
  Http.convertDocument libs content f f filename = Return content.
Proof.
  unfold Http.convertDocument. now rewrite strict_eq_refl.
Qed.

(** The stdio server rejects a format outside its lists before it converts. *)
Lemma stdio_rejects_input (libs : Libs) (content i o : string) (fn : option string) :
  includes Stdio.SUPPORTED_FORMATS_input (normalized i) = false ->
  Stdio.convertDocument libs content i o fn =
  Throw (Error ("Unsupported input format '" ++ normalized i
                ++ "'. Supported: txt, md, html, docx, pdf, rtf")).
Proof.
  intros H. unfold Stdio.convertDocument. fold (normalized i).
  now rewrite H.
Qed.

Lemma stdio_rejects_output (libs : Libs) (content i o : string) (fn : option string) :
  includes Stdio.SUPPORTED_FORMATS_input (normalized i) = true ->
  includes Stdio.SUPPORTED_FORMATS_output (normalized o) = false ->
  Stdio.convertDocument libs content i o fn =
  Throw (Error ("Unsupported output format '" ++ normalized o
                ++ "'. Supported: txt, md, html, docx, pdf, rtf")).
Proof.
  intros Hi Ho. unfold Stdio.convertDocument. fold (normalized i) (normalized o).
  now rewrite Hi, Ho.
Qed.

Lemma strict_eq_false (a b : option string) : a <> b -> Http.strict_eq a b = false.
Proof.
  destruct a as [x|], b as [y|]; simpl; intros H; try reflexivity.
  - apply String.eqb_neq. intros ->. now apply H.
  - now contradiction H.
Qed.

Lemma equals_false (v : option string) (t : string) :
  v <> Some t -> Http.equals v t = false.
Proof. apply strict_eq_false. Qed.

Lemma equals_true (v : option string) (t : string) :
  Http.equals v t = true -> v = Some t.
Proof.
  destruct v as [x|]; simpl; [|discriminate].
  intros H. apply String.eqb_eq in H. now subst.
Qed.

(** ** The batch loop *)

Section StdioBatch.

Variable libs : Libs.
Variable outputFormat : string.

Lemma stdio_batchResults_length (files : list Stdio.ConversionFile) (i : nat) :
  List.length (Stdio.batchResults libs outputFormat i files) = List.length files.
Proof.
  revert i. induction files as [| f files IH]; intros i; simpl;
    [reflexivity | now rewrite IH].
Qed.

Lemma stdio_batchResults_nth (files : list Stdio.ConversionFile) (i j : nat)
  (file : Stdio.ConversionFile) :
  nth_error files j = Some file ->
  nth_error (Stdio.batchResults libs outputFormat i files) j
  = Some (Stdio.batchEntry libs outputFormat (i + j) file).
Proof.
  revert i j. induction files as [| f files IH]; intros i [| j] H; simpl in *;
    try discriminate.
  - injection H as ->. now rewrite Nat.add_0_r.
  - rewrite (IH (S i) j H). now rewrite Nat.add_succ_r.
Qed.

Lemma stdio_batchResults_app (before after : list Stdio.ConversionFile) (i : nat) :
  Stdio.batchResults libs outputFormat i (before ++ after)%list
  = (Stdio.batchResults libs outputFormat i before
     ++ Stdio.batchResults libs outputFormat (i + List.length before) after)%list.
Proof.
  revert i. induction before as [| f before IH]; intros i; simpl.
  - now rewrite Nat.add_0_r.
  - rewrite IH. now rewrite Nat.add_succ_r.
Qed.

End StdioBatch.

Section HttpBatch.

Variable libs : Libs.
Variable outputFormat : option string.

Lemma http_batchResults_length (files : list Http.ConversionFile) (i : nat) :
  List.length (Http.batchResults libs outputFormat i files) = List.length files.
Proof.
  revert i. induction files as [| f files IH]; intros i; simpl;
    [reflexivity | now rewrite IH].
Qed.

Lemma http_batchResults_nth (files : list Http.ConversionFile) (i j : nat)
  (file : Http.ConversionFile) :
  nth_error files j = Some file ->
  nth_error (Http.batchResults libs outputFormat i files) j
  = Some (Http.batchEntry libs outputFormat (i + j) file).
Proof.
  revert i j. induction files as [| f files IH]; intros i [| j] H; simpl in *;
    try discriminate.
  - injection H as ->. now rewrite Nat.add_0_r.
  - rewrite (IH (S i) j H). now rewrite Nat.add_succ_r.
Qed.

Lemma http_batchResults_app (before after : list Http.ConversionFile) (i : nat) :
  Http.batchResults libs outputFormat i (before ++ after)%list
  = (Http.batchResults libs outputFormat i before
     ++ Http.batchResults libs outputFormat (i + List.length before) after)%list.
Proof.
  revert i. induction before as [| f before IH]; intros i; simpl.
  - now rewrite Nat.add_0_r.
  - rewrite IH. now rewrite Nat.add_succ_r.
Qed.

End HttpBatch.

Lemma stdio_contentPreview_eq (converted : string) :
  Stdio.contentPreview converted = preview_of converted.
Proof.
  unfold Stdio.contentPreview, preview_of, substring_0.
  destruct (100 <? String.length converted) eqn:E; [reflexivity |].
  apply Nat.ltb_ge in E. rewrite take_all by exact E.
  now rewrite append_nil_r.
Qed.

Lemma stdio_resultBlock_success (name converted : string) :
  Stdio.resultBlock (Stdio.Success name converted)
  = success_block "Content Preview: " name converted.
Proof.
  unfold Stdio.resultBlock, success_block. simpl Stdio.result_filename.
  simpl Stdio.status. rewrite stdio_contentPreview_eq.
  now rewrite !append_assoc.
Qed.

Lemma stdio_resultBlock_failure (name msg : string) :
  Stdio.resultBlock (Stdio.Failure name msg) = error_block name msg.
Proof.
  unfold Stdio.resultBlock, error_block. simpl Stdio.result_filename.
  simpl Stdio.status. now rewrite !append_assoc.
Qed.

Lemma http_resultBlock_success (name converted : string) :
  Http.resultBlock (Http.Success name (Http.contentPreview converted))
  = success_block "Preview: " name converted.
Proof.
  unfold Http.resultBlock, success_block. simpl Http.result_filename.
  simpl Http.status. now rewrite !append_assoc.
Qed.

Lemma http_resultBlock_failure (name msg : string) :
  Http.resultBlock (Http.Failure name msg) = error_block name msg.
Proof.
  unfold Http.resultBlock, error_block. simpl Http.result_filename.
  simpl Http.status. now rewrite !append_assoc.
Qed.

(** ** Failures and results of [convertDocument] *)

Lemma try_catch_throw {A : Type} (body : Result A) (handler : JsError -> Result A)
  (e : JsError) :
  try_catch body handler = Throw e ->
  exists cause, body = Throw cause /\ handler cause = Throw e.
Proof.
  destruct body as [a | cause]; simpl; [discriminate |].
  intros H. now exists cause.
Qed.

Lemma includes_registry (x : string) :
  includes registry x = true <-> In x registry.
Proof.
  split; [apply includes_cases |].
  intros H. apply existsb_exists. exists x. split; [exact H | apply String.eqb_refl].
Qed.

(** Once both formats are accepted, the stdio [convertDocument] is its two
    stages under the handler that wraps what they throw. *)
Lemma stdio_stages (libs : Libs) (content i o : string) (filename : option string) :
  In (normalized i) registry -> In (normalized o) registry ->
  Stdio.convertDocument libs content i o filename
  = try_catch (working <- stdio_working libs content (normalized i) ;;
               stdio_output libs (normalized o) working)
              stdio_wrap.
Proof.
  intros Hi Ho. apply includes_registry in Hi, Ho.
  unfold Stdio.convertDocument. fold (normalized i) (normalized o).
  change Stdio.SUPPORTED_FORMATS_input with registry.
  change Stdio.SUPPORTED_FORMATS_output with registry.
  rewrite Hi, Ho. reflexivity.
Qed.

Lemma stdio_returns (libs : Libs) (content i o : string) (filename : option string)
  (r : string) :
  Stdio.convertDocument libs content i o filename = Return r ->
  In (normalized i) registry /\ In (normalized o) registry
  /\ exists working,
       stdio_working libs content (normalized i) = Return working
       /\ stdio_output libs (normalized o) working = Return r.
Proof.
  intros H.
  destruct (includes registry (normalized i)) eqn:Ei;
    [| rewrite stdio_rejects_input in H by assumption; discriminate].
  destruct (includes registry (normalized o)) eqn:Eo;
    [| rewrite stdio_rejects_output in H by assumption; discriminate].
  apply includes_registry in Ei, Eo.
  rewrite (stdio_stages libs content i o filename Ei Eo) in H.
  split; [exact Ei |]. split; [exact Eo |].
  destruct (stdio_working libs content (normalized i)) as [w | e]; simpl in H.
  - exists w. split; [reflexivity |].
    destruct (stdio_output libs (normalized o) w); [exact H | discriminate].
  - discriminate.
Qed.

Lemma http_success_outputs (libs : Libs) (content : string)
  (i o filename : option string) (r : string) :
  i <> o ->
  Http.convertDocument libs content i o filename = Return r ->
  In o [Some "txt"; Some "md"; Some "html"; Some "pdf"]
  /\ (o = Some "pdf" -> puppeteer libs <> None).
Proof.
  intros Hio H. unfold Http.convertDocument in H.
  rewrite (strict_eq_false _ _ Hio) in H.
  destruct (match Http.equals i "docx", mammoth libs with
            | true, Some extractRawText =>
                value <- extractRawText content ;; Return (value, Some "txt")
            | _, _ =>
                match Http.equals i "pdf", pdfParse libs with
                | true, Some parse =>
                    text <- parse content ;; Return (text, Some "txt")
                | _, _ => Return (content, i)
                end
            end) as [w | e]; [| discriminate H].
  simpl in H.
  destruct (Http.equals o "txt") eqn:Et;
    [apply equals_true in Et; subst o; split; [simpl; auto | discriminate] |].
  destruct (Http.equals o "md") eqn:Em;
    [apply equals_true in Em; subst o; split; [simpl; auto | discriminate] |].
  destruct (Http.equals o "html") eqn:Eh;
    [apply equals_true in Eh; subst o; split; [simpl; auto | discriminate] |].
  destruct (Http.equals o "pdf") eqn:Ep.
  - apply equals_true in Ep; subst o. split; [simpl; auto |].
    intros _ Hp. unfold Http.convertToPdf in H. rewrite Hp in H. discriminate.
  - destruct (Http.equals o "docx"); discriminate.
Qed.

(** ** C1: identity conversion *)

(** C1, as stated, fails on the stdio server: with no library installed,
    [docx] to [docx] does not return the content but throws, because the
    server asks for the DOCX extractor before it looks at the output
    format. *)
Lemma C1_stdio_docx_to_docx_throws :
  Stdio.convertDocument no_libs "UEsDBBQ=" "docx" "docx" None
  = Throw (Error "Conversion failed: Mammoth library not available for DOCX processing. Install with: npm install mammoth")
  /\ Stdio.convertDocument no_libs "UEsDBBQ=" "docx" "docx" None <> Return "UEsDBBQ=".
Proof. split; [reflexivity | discriminate]. Qed.

(** C1 (amended): on the HTTP server, for every content and every format
    value [f], converting from [f] to [f] returns the content unchanged,
    whatever the libraries are or do.  The stdio server has no identity
    short-circuit: from [f] to [f] it returns the content unchanged for
    [txt], [md] and [html]; for [rtf] it throws (no RTF output); for [docx]
    and [pdf] whose extractor is not installed it throws, naming the
    extractor. *)
Theorem C1_identity_conversion :
  (forall libs content f filename,
      Http.convertDocument libs content f f filename = Return content)
  /\ (forall libs content f filename,
      In (normalized f) ["txt"; "md"; "html"] ->
      Stdio.convertDocument libs content f f filename = Return content)
  /\ (forall libs content f filename,
      normalized f = "rtf" ->
      Stdio.convertDocument libs content f f filename
      = Throw (Error "Conversion failed: Output format 'rtf' conversion not implemented"))
  /\ (forall libs content f filename,
      normalized f = "docx" -> mammoth libs = None ->
      Stdio.convertDocument libs content f f filename
      = Throw (Error "Conversion failed: Mammoth library not available for DOCX processing. Install with: npm install mammoth"))
  /\ (forall libs content f filename,
      normalized f = "pdf" -> pdfParse libs = None ->
      Stdio.convertDocument libs content f f filename
      = Throw (Error "Conversion failed: pdf-parse library not available for PDF processing. Install with: npm install pdf-parse")).
Proof.
  repeat split.
  - apply http_identity.
  - intros libs content f filename H. simpl in H.
    destruct H as [H | [H | [H | []]]]; symmetry in H;
      stdio_formats f f H H; reflexivity.
  - intros libs content f filename H. stdio_formats f f H H. reflexivity.
  - intros libs content f filename H Hm. stdio_formats f f H H.
    now rewrite Hm.
  - intros libs content f filename H Hp. stdio_formats f f H H.
    now rewrite Hp.
Qed.

Lemma C1_identity_conversion_witness :
  Http.convertDocument failing_libs "UEsDBBQ=" (Some "docx") (Some "docx") None
  = Return "UEsDBBQ="
  /\ Stdio.convertDocument no_libs "# Title" " MD " " MD " None = Return "# Title"
  /\ Stdio.convertDocument no_libs "{\rtf1}" "rtf" "rtf" None
     = Throw (Error "Conversion failed: Output format 'rtf' conversion not implemented")
  /\ Stdio.convertDocument no_libs "JVBERi0=" "PDF" "PDF" None
     = Throw (Error "Conversion failed: pdf-parse library not available for PDF processing. Install with: npm install pdf-parse").
Proof.
  destruct C1_identity_conversion as [Hhttp [Htext [Hrtf [_ Hpdf]]]].
  split; [| split; [| split]].
  - apply Hhttp.
  - apply Htext. vm_compute. right. left. reflexivity.
  - apply Hrtf. reflexivity.
  - apply Hpdf; reflexivity.
Defined.

(** ** C2: formats outside the registry *)

(** C2, as stated, fails on the HTTP server: the format [xyz] is in no list
    of formats, and converting from it to [txt] succeeds. *)
Lemma C2_http_accepts_unknown_input :
  Http.convertDocument no_libs "hello" (Some "xyz") (Some "txt") None = Return "hello"
  /\ forall e, Http.convertDocument no_libs "hello" (Some "xyz") (Some "txt") None
               <> Throw e.
Proof. split; [reflexivity | discriminate]. Qed.

(** C2 (amended): on the stdio server, a request whose input format, once
    lowercased and trimmed, is outside [txt, md, html, docx, pdf, rtf] fails
    with the message [Unsupported input format '<value>'. Supported: txt,
    md, html, docx, pdf, rtf]; one whose input format is in the list and
    whose output format is not fails with the same message for the output
    format.  The error is thrown before the conversion starts and is not
    wrapped.  Both are stated for format names of code units below 128.
    The HTTP server has no registry check: a request from an
    unknown input format to [txt] returns the content, and a request to an
    output format other than [txt], [md], [html], [pdf], [docx] that
    differs from the input format fails with [Conversion failed: Error:
    Unsupported output format: <value>], which names the value and lists
    nothing. *)
Theorem C2_unsupported_format :
  (forall libs content i o filename,
      ascii_text i ->
      ~ In (normalized i) ["txt"; "md"; "html"; "docx"; "pdf"; "rtf"] ->
      Stdio.convertDocument libs content i o filename
      = Throw (Error ("Unsupported input format '" ++ normalized i
                      ++ "'. Supported: txt, md, html, docx, pdf, rtf")))
  /\ (forall libs content i o filename,
      In (normalized i) ["txt"; "md"; "html"; "docx"; "pdf"; "rtf"] ->
      ascii_text o ->
      ~ In (normalized o) ["txt"; "md"; "html"; "docx"; "pdf"; "rtf"] ->
      Stdio.convertDocument libs content i o filename
      = Throw (Error ("Unsupported output format '" ++ normalized o
                      ++ "'. Supported: txt, md, html, docx, pdf, rtf")))
  /\ (forall libs content i filename,
      ~ In i [Some "txt"; Some "md"; Some "html"; Some "docx"; Some "pdf"] ->
      Http.convertDocument libs content i (Some "txt") filename = Return content)
  /\ (forall libs content i o filename,
      i <> o ->
      ~ In o [Some "txt"; Some "md"; Some "html"; Some "pdf"; Some "docx"] ->
      (forall extract e, i = Some "docx" -> mammoth libs = Some extract ->
                         extract content <> Throw e) ->
      (forall extract e, i = Some "pdf" -> pdfParse libs = Some extract ->
                         extract content <> Throw e) ->
      Http.convertDocument libs content i o filename
      = Throw (Error ("Conversion failed: Error: Unsupported output format: "
                      ++ Http.show o))).
Proof.
  split; [| split; [| split]].
  - intros libs content i o filename _ H. apply stdio_rejects_input.
    destruct (includes _ _) eqn:E; [| reflexivity].
    exfalso. apply H. now apply includes_cases in E.
  - intros libs content i o filename Hi _ Ho. apply stdio_rejects_output.
    + apply existsb_exists. exists (normalized i). split; [exact Hi|].
      apply String.eqb_refl.
    + destruct (includes _ _) eqn:E; [| reflexivity].
      exfalso. apply Ho. now apply includes_cases in E.
  - intros libs content i filename H.
    assert (Ht : Http.equals i "txt" = false)
      by (apply equals_false; intros ->; apply H; simpl; auto).
    assert (Hm : Http.equals i "md" = false)
      by (apply equals_false; intros ->; apply H; simpl; auto).
    assert (Hh : Http.equals i "html" = false)
      by (apply equals_false; intros ->; apply H; simpl; auto).
    assert (Hd : Http.equals i "docx" = false)
      by (apply equals_false; intros ->; apply H; simpl; auto 6).
    assert (Hp : Http.equals i "pdf" = false)
      by (apply equals_false; intros ->; apply H; simpl; auto 6).
    unfold Http.convertDocument. fold (Http.equals i "txt").
    rewrite Ht, Hd, Hp. cbn. unfold Http.convertToText.
    now rewrite Hh, Hm.
  - intros libs content i o filename Hio Ho Hmam Hpdf.
    assert (Eo : forall t, In (Some t) [Some "txt"; Some "md"; Some "html"; Some "pdf"; Some "docx"] ->
                           Http.equals o t = false)
      by (intros t Ht; apply equals_false; intros ->; now apply Ho).
    unfold Http.convertDocument. rewrite (strict_eq_false _ _ Hio).
    rewrite !Eo by (simpl; auto 6).
    assert (exists w, (match Http.equals i "docx", mammoth libs with
         | true, Some extractRawText =>
             value <- extractRawText content ;; Return (value, Some "txt")
         | _, _ =>
             match Http.equals i "pdf", pdfParse libs with
             | true, Some parse =>
                 text <- parse content ;; Return (text, Some "txt")
             | _, _ => Return (content, i)
             end
         end) = Return w) as [w ->].
    { destruct (Http.equals i "docx") eqn:Ed.
      - apply equals_true in Ed.
        destruct (mammoth libs) as [extract|] eqn:Em.
        + destruct (extract content) as [v|e] eqn:Ev.
          * eexists; reflexivity.
          * exfalso. exact (Hmam extract e Ed eq_refl Ev).
        + subst i. cbn. eexists; reflexivity.
      - destruct (Http.equals i "pdf") eqn:Ep.
        + apply equals_true in Ep.
          destruct (pdfParse libs) as [parse|] eqn:Epp.
          * destruct (parse content) as [v|e] eqn:Ev.
            -- destruct (mammoth libs); eexists; reflexivity.
            -- exfalso. exact (Hpdf parse e Ep eq_refl Ev).
          * destruct (mammoth libs); eexists; reflexivity.
        + destruct (mammoth libs); eexists; reflexivity. }
    reflexivity.
Qed.

Lemma C2_unsupported_format_witness :
  Stdio.convertDocument no_libs "hello" " ODT " "txt" None
  = Throw (Error "Unsupported input format 'odt'. Supported: txt, md, html, docx, pdf, rtf")
  /\ Stdio.convertDocument no_libs "hello" "txt" "epub" None
     = Throw (Error "Unsupported output format 'epub'. Supported: txt, md, html, docx, pdf, rtf")
  /\ Http.convertDocument no_libs "hello" (Some "txt") (Some "rtf") None
     = Throw (Error "Conversion failed: Error: Unsupported output format: rtf").
Proof.
  destruct C2_unsupported_format as [Hin [Hout [_ Hhttp]]].
  split; [| split].
  - apply (Hin no_libs "hello" " ODT " "txt" None).
    + reflexivity.
    + vm_compute. intuition discriminate.
  - apply (Hout no_libs "hello" "txt" "epub" None).
    + vm_compute. auto.
    + reflexivity.
    + vm_compute. intuition discriminate.
  - apply (Hhttp no_libs "hello" (Some "txt") (Some "rtf") None).
    + discriminate.
    + simpl. intuition discriminate.
    + intros extract e _ H. discriminate H.
    + intros extract e _ H. discriminate H.
Defined.

(** ** C3: batch conversion *)

(** C3, as stated, fails on the HTTP server: a file without [input_format]
    is not converted as [txt].  Its format is passed on as [undefined],
    for which the conversion to Markdown has no branch, so the text comes
    back as it is, where a [txt] file gets its heading. *)
Lemma C3_http_missing_input_format_is_not_txt :
  Http.batchResults no_libs (Some "md") 0
    [{| Http.content := "Summary:"; Http.input_format := None;
        Http.filename := None |}]
  = [Http.Success "file_1" "Summary:"]
  /\ Http.batchResults no_libs (Some "md") 0
       [{| Http.content := "Summary:"; Http.input_format := Some "txt";
           Http.filename := None |}]
     = [Http.Success "file_1" "## Summary"].
Proof. split; reflexivity. Qed.

(** C3 (amended): on both servers [convertFileBatch] returns a header
    followed by one block per file, in input order; the block at a position
    depends on the file at that position and on the position only, so a
    file that fails gets a block of status [error] with the failure message
    and the files after it are processed as if it had succeeded.  A missing
    (or empty) filename is replaced by [file_<position counted from 1>].
    A file that converts gets a block of status [success] with the first
    100 characters of the converted text, followed by three dots exactly
    when the text is longer than 100 characters; this is stated for a
    converted text of code units below 128, whose characters are what the
    servers count.  The stdio server converts
    a file whose [input_format] is missing (or empty) as [txt]; the HTTP
    server passes the missing format on as it is. *)
Theorem C3_batch_conversion :
  (* the report, in input order *)
  (forall libs files out,
      Stdio.convertFileBatch libs files out
      = report_header (List.length files) out
        ++ String.concat "" (List.map Stdio.resultBlock
                               (Stdio.batchResults libs out 0 files)))
  /\ (forall libs files out,
      Http.convertFileBatch libs files out
      = report_header (List.length files) (Http.show out)
        ++ join "" (List.map Http.resultBlock
                      (Http.batchResults libs out 0 files)))
  /\ (forall libs files out,
      List.length (Stdio.batchResults libs out 0 files) = List.length files)
  /\ (forall libs files out,
      List.length (Http.batchResults libs out 0 files) = List.length files)
  /\ (forall libs files out j file,
      nth_error files j = Some file ->
      nth_error (Stdio.batchResults libs out 0 files) j
      = Some (Stdio.batchEntry libs out j file))
  /\ (forall libs files out j file,
      nth_error files j = Some file ->
      nth_error (Http.batchResults libs out 0 files) j
      = Some (Http.batchEntry libs out j file))
  (* a failure is recorded and the loop goes on *)
  /\ (forall libs out before file after,
      Stdio.batchResults libs out 0 (before ++ file :: after)%list
      = (Stdio.batchResults libs out 0 before
         ++ Stdio.batchEntry libs out (List.length before) file
         :: Stdio.batchResults libs out (S (List.length before)) after)%list)
  /\ (forall libs out before file after,
      Http.batchResults libs out 0 (before ++ file :: after)%list
      = (Http.batchResults libs out 0 before
         ++ Http.batchEntry libs out (List.length before) file
         :: Http.batchResults libs out (S (List.length before)) after)%list)
  (* the block of one file *)
  /\ (forall libs out i file,
      let name := or_else (Stdio.filename file) (default_name i) in
      let outcome :=
        Stdio.convertDocument libs (or_else (Stdio.content file) "")
          (or_else (Stdio.input_format file) "txt") out (Some name) in
      (forall converted, outcome = Return converted ->
         Stdio.batchEntry libs out i file = Stdio.Success name converted
         /\ (ascii_text converted ->
             Stdio.resultBlock (Stdio.batchEntry libs out i file)
             = success_block "Content Preview: " name converted))
      /\ (forall e, outcome = Throw e ->
         Stdio.batchEntry libs out i file = Stdio.Failure name (message e)
         /\ Stdio.resultBlock (Stdio.batchEntry libs out i file)
            = error_block name (message e)))
  /\ (forall libs out i file,
      let name := or_else (Http.filename file) (default_name i) in
      let outcome :=
        Http.convertDocument libs (Http.content file) (Http.input_format file)
          out (Http.filename file) in
      (forall converted, outcome = Return converted ->
         ascii_text converted ->
         Http.resultBlock (Http.batchEntry libs out i file)
         = success_block "Preview: " name converted)
      /\ (forall e, outcome = Throw e ->
         Http.resultBlock (Http.batchEntry libs out i file)
         = error_block name (error_toString e)))
  (* the defaults *)
  /\ (forall libs out i content filename,
      Stdio.batchEntry libs out i
        {| Stdio.content := content; Stdio.input_format := None;
           Stdio.filename := filename |}
      = Stdio.batchEntry libs out i
          {| Stdio.content := content; Stdio.input_format := Some "txt";
             Stdio.filename := filename |})
  /\ (forall libs out i content filename,
      Stdio.batchEntry libs out i
        {| Stdio.content := content; Stdio.input_format := Some "";
           Stdio.filename := filename |}
      = Stdio.batchEntry libs out i
          {| Stdio.content := content; Stdio.input_format := Some "txt";
             Stdio.filename := filename |})
  /\ (forall libs out i content input_format,
      Stdio.result_filename
        (Stdio.batchEntry libs out i
           {| Stdio.content := content; Stdio.input_format := input_format;
              Stdio.filename := None |})
      = "file_" ++ of_nat (i + 1))
  /\ (forall libs out i content input_format,
      Http.result_filename
        (Http.batchEntry libs out i
           {| Http.content := content; Http.input_format := input_format;
              Http.filename := None |})
      = "file_" ++ of_nat (i + 1))
  (* the preview *)
  /\ (forall converted,
      ascii_text converted ->
      String.length converted <= 100 -> preview_of converted = converted)
  /\ (forall converted,
      ascii_text converted ->
      100 < String.length converted ->
      preview_of converted = take 100 converted ++ "..."
      /\ String.length (take 100 converted) = 100
      /\ take 100 converted ++ drop 100 converted = converted).
Proof.
  split; [| split; [| split; [| split; [| split; [| split; [| split;
    [| split; [| split; [| split; [| split; [| split; [| split; [| split;
    [| split]]]]]]]]]]]]]].
  - intros libs files out. unfold Stdio.convertFileBatch, Stdio.batchReport,
      report_header. now rewrite !append_assoc.
  - intros libs files out. unfold Http.convertFileBatch, report_header.
    now rewrite !append_assoc.
  - intros libs files out. apply stdio_batchResults_length.
  - intros libs files out. apply http_batchResults_length.
  - intros libs files out j file H.
    now rewrite (stdio_batchResults_nth libs out files 0 j file H).
  - intros libs files out j file H.
    now rewrite (http_batchResults_nth libs out files 0 j file H).
  - intros libs out before file after.
    now rewrite stdio_batchResults_app.
  - intros libs out before file after.
    now rewrite http_batchResults_app.
  - intros libs out i file name outcome. split.
    + intros converted H. unfold Stdio.batchEntry.
      fold (default_name i). fold name. fold outcome. rewrite H.
      split; [reflexivity | intros _; apply stdio_resultBlock_success].
    + intros e H. unfold Stdio.batchEntry.
      fold (default_name i). fold name. fold outcome. rewrite H.
      split; [reflexivity | apply stdio_resultBlock_failure].
  - intros libs out i file name outcome. split.
    + intros converted H _. unfold Http.batchEntry. fold outcome. rewrite H.
      apply http_resultBlock_success.
    + intros e H. unfold Http.batchEntry. fold outcome. rewrite H.
      apply http_resultBlock_failure.
  - reflexivity.
  - reflexivity.
  - intros libs out i content input_format. unfold Stdio.batchEntry.
    simpl or_else at 3.
    now destruct (Stdio.convertDocument _ _ _ _ _).
  - intros libs out i content input_format. unfold Http.batchEntry.
    simpl or_else.
    now destruct (Http.convertDocument _ _ _ _ _).
  - intros converted _ H. unfold preview_of.
    rewrite take_all by exact H.
    apply Nat.ltb_ge in H. rewrite H. apply append_nil_r.
  - intros converted _ H. unfold preview_of. split; [| split].
    + apply Nat.ltb_lt in H. now rewrite H.
    + apply take_length. lia.
    + apply take_drop.
Qed.

Lemma C3_batch_conversion_witness :
  nth_error (Stdio.batchResults no_libs "md" 0 scenario_files) 1
  = Some (Stdio.Failure "file_2"
            "Unsupported input format 'odt'. Supported: txt, md, html, docx, pdf, rtf")
  /\ nth_error (Stdio.batchResults no_libs "md" 0 scenario_files) 2
     = Some (Stdio.Success "file_3" "## Summary")
  /\ preview_of (repeat "a" 120) = repeat "a" 100 ++ "..."
  /\ preview_of "## Summary" = "## Summary"
  /\ Stdio.convertFileBatch no_libs scenario_files "md"
     = join nl [
         "Batch Conversion Results (3 files to md)";
         repeat "=" 50;
         "";
         "File: a.txt";
         "Status: success";
         "Content Preview: " ++ repeat "a" 100 ++ "...";
         repeat "-" 30;
         "File: file_2";
         "Status: error";
         "Error: Unsupported input format 'odt'. Supported: txt, md, html, docx, pdf, rtf";
         repeat "-" 30;
         "File: file_3";
         "Status: success";
         "Content Preview: ## Summary";
         repeat "-" 30;
         ""].
Proof.
  destruct C3_batch_conversion
    as [Hreport [_ [_ [_ [Hnth [_ [_ [_ [_ [_ [_ [_ [_ [_ [Hshort Hlong]]]]]]]]]]]]]]].
  split; [| split; [| split; [| split]]].
  - rewrite (Hnth no_libs scenario_files "md" 1 _ eq_refl). reflexivity.
  - rewrite (Hnth no_libs scenario_files "md" 2 _ eq_refl). reflexivity.
  - destruct (Hlong (repeat "a" 120)) as [H _];
      [reflexivity | vm_compute; lia |].
    rewrite H. reflexivity.
  - apply Hshort; [reflexivity | vm_compute; lia].
  - rewrite Hreport. reflexivity.
Defined.

(** ** C4: HTML to text *)

(** C4, as stated, fails on the HTTP server: its [convertToText] strips the
    tags and the spaces and decodes no entity, so [&amp;] stays. *)
Lemma C4_http_keeps_entities :
  Http.convertDocument no_libs hello_html (Some "html") (Some "txt") None
  = Return "Hello &amp; welcome"
  /\ Http.convertDocument no_libs hello_html (Some "html") (Some "txt") None
     <> Return "Hello & welcome".
Proof. split; [reflexivity | discriminate]. Qed.

(** C4 (amended): on the stdio server, whatever libraries are installed,
    converting [<p>Hello &amp; welcome</p>] from [html] to [txt] returns
    exactly [Hello & welcome]; [convertHtmlToText] removes the script and
    style blocks and the tags, then decodes [&nbsp; &amp; &lt; &gt; &quot;
    &#39;], then collapses the runs of spaces and trims, in that order (so
    [&lt;b&gt;] comes out as [<b>], and [a&nbsp; b] as [a b]).  The HTTP
    server decodes no entity and returns [Hello &amp; welcome]. *)
Theorem C4_html_to_text :
  (forall libs filename,
      Stdio.convertDocument libs hello_html "html" "txt" filename
      = Return "Hello & welcome")
  /\ (forall html,
      Stdio.convertHtmlToText html
      = collapse_spaces (decode_entities (strip_tags html)))
  /\ strip_tags hello_html = "Hello &amp; welcome"
  /\ decode_entities "Hello &amp; welcome" = "Hello & welcome"
  /\ Stdio.convertHtmlToText "<i>x</i> &lt;b&gt;" = "x <b>"
  /\ Stdio.convertHtmlToText "<p> a&nbsp; b </p>" = "a b"
  /\ (forall libs filename,
      Http.convertDocument libs hello_html (Some "html") (Some "txt") filename
      = Return "Hello &amp; welcome").
Proof.
  repeat split; intros; reflexivity.
Qed.

(** ** C5: PDF output without puppeteer *)



(** ** C6: text to Markdown and back *)

(** C6, as stated, fails on the stdio server: from [md] to [txt] it deletes
    the marks and nothing else, so the space after [##] stays in front. *)
Lemma C6_stdio_keeps_leading_space :
  Stdio.convertDocument no_libs "## Summary" "md" "txt" None = Return " Summary"
  /\ Stdio.convertDocument no_libs "## Summary" "md" "txt" None <> Return "Summary".
Proof. split; [reflexivity | discriminate]. Qed.

(** C6 (amended): on both servers, converting the text [Summary:] to
    Markdown yields [## Summary].  Converting [## Summary] from [md] to
    [txt] yields exactly [Summary] on the HTTP server, which deletes the
    marks, collapses the spaces and trims; on the stdio server, which only
    deletes the marks, it yields [ Summary], with a space in
    front. *)
Theorem C6_summary_round_trip :
  (forall libs filename,
      Http.convertDocument libs "Summary:" (Some "txt") (Some "md") filename
      = Return "## Summary")
  /\ (forall libs filename,
      Http.convertDocument libs "## Summary" (Some "md") (Some "txt") filename
      = Return "Summary")
  /\ (forall libs filename,
      Stdio.convertDocument libs "Summary:" "txt" "md" filename
      = Return "## Summary")
  /\ (forall libs filename,
      Stdio.convertDocument libs "## Summary" "md" "txt" filename
      = Return " Summary").
Proof.
  repeat split; intros; reflexivity.
Qed.

(** ** C7: the heading heuristic *)

(** C7, as stated, fails on both servers: the line [AB:] is equal to its
    uppercase and has exactly 3 characters, and it is promoted, to the
    level-2 heading [## AB].  The length decides the level-1 rule only; a
    short line still goes through the colon rule. *)
Lemma C7_short_uppercase_line_with_colon :
  toUpperCase "AB:" = "AB:"
  /\ String.length "AB:" = 3
  /\ Stdio.convertTextToMarkdown "AB:" = "## AB"
  /\ (forall libs, Http.convertToMarkdown libs "AB:" (Some "txt") = Return "## AB").
Proof. repeat split. Qed.

(** C7 (amended): in the heading heuristic of both servers, the line [ABC]
    (all uppercase, 3 characters) stays [ABC] and the line [TEST] (4
    characters) becomes [# Test].  In general a non-blank line of code
    units below 128 that is equal to its uppercase becomes a level-1
    heading with title-cased text when it is longer than 3 characters;
    with 3 characters or fewer it does not, and then it stays as it is
    when it does not end with a colon, and becomes a level-2 heading
    without its colon when it does.  The stdio server looks at the trimmed
    line, the HTTP server at the line itself. *)
Theorem C7_uppercase_heading_threshold :
  Stdio.convertTextToMarkdown "ABC" = "ABC"
  /\ Stdio.convertTextToMarkdown "TEST" = "# Test"
  /\ (forall libs, Http.convertToMarkdown libs "ABC" (Some "txt") = Return "ABC")
  /\ (forall libs, Http.convertToMarkdown libs "TEST" (Some "txt") = Return "# Test")
  /\ (forall line,
      ascii_text line ->
      truthy (trim line) = true ->
      trim line = toUpperCase (trim line) ->
      (3 < String.length (trim line) ->
       Stdio.markdownLine line = "# " ++ title_case (trim line))
      /\ (String.length (trim line) <= 3 ->
          endsWith ":" (trim line) = false ->
          Stdio.markdownLine line = trim line)
      /\ (String.length (trim line) <= 3 ->
          endsWith ":" (trim line) = true ->
          Stdio.markdownLine line = "## " ++ slice_0_m1 (trim line)))
  /\ (forall line,
      ascii_text line ->
      truthy (trim line) = true ->
      toUpperCase line = line ->
      (3 < String.length line ->
       Http.markdownLine line = "# " ++ title_case line)
      /\ (String.length line <= 3 ->
          endsWith ":" line = false ->
          Http.markdownLine line = line)
      /\ (String.length line <= 3 ->
          endsWith ":" line = true ->
          Http.markdownLine line = "## " ++ slice_0_m1 line)).
Proof.
  split; [reflexivity |]. split; [reflexivity |].
  split; [reflexivity |]. split; [reflexivity |].
  split.
  - intros line _ Hne Hup. unfold Stdio.markdownLine.
    rewrite Hne, <- Hup, String.eqb_refl. simpl negb. cbv iota.
    split; [| split].
    + intros Hlen. apply Nat.ltb_lt in Hlen. now rewrite Hlen.
    + intros Hlen Hcolon. apply Nat.ltb_ge in Hlen. now rewrite Hlen, Hcolon.
    + intros Hlen Hcolon. apply Nat.ltb_ge in Hlen. now rewrite Hlen, Hcolon.
  - intros line _ Hne Hup. unfold Http.markdownLine.
    rewrite Hne, Hup, String.eqb_refl. simpl negb. cbv iota.
    split; [| split].
    + intros Hlen. apply Nat.ltb_lt in Hlen. now rewrite Hlen.
    + intros Hlen Hcolon. apply Nat.ltb_ge in Hlen. now rewrite Hlen, Hcolon.
    + intros Hlen Hcolon. apply Nat.ltb_ge in Hlen. now rewrite Hlen, Hcolon.
Qed.

Lemma C7_uppercase_heading_threshold_witness :
  Stdio.markdownLine "  RELEASE NOTES " = "# Release Notes"
  /\ Stdio.markdownLine " FAQ " = "FAQ"
  /\ Stdio.markdownLine " Q: " = "## Q"
  /\ Http.markdownLine "Q&A 2" = "# Q&A 2"
  /\ Http.markdownLine "N/A" = "N/A"
  /\ Http.markdownLine "AB:" = "## AB".
Proof.
  destruct C7_uppercase_heading_threshold as [_ [_ [_ [_ [Hs Hh]]]]].
  split; [| split; [| split; [| split; [| split]]]].
  - apply (Hs "  RELEASE NOTES ");
      [reflexivity | reflexivity | reflexivity | vm_compute; lia].
  - apply (Hs " FAQ ");
      [reflexivity | reflexivity | reflexivity | vm_compute; lia | reflexivity].
  - apply (Hs " Q: ");
      [reflexivity | reflexivity | reflexivity | vm_compute; lia | reflexivity].
  - apply (Hh "Q&A 2");
      [reflexivity | reflexivity | reflexivity | vm_compute; lia].
  - apply (Hh "N/A");
      [reflexivity | reflexivity | reflexivity | vm_compute; lia | reflexivity].
  - apply (Hh "AB:");
      [reflexivity | reflexivity | reflexivity | vm_compute; lia | reflexivity].
Defined.

(** ** C8: HTML to Markdown without turndown *)

(** C8, as stated, fails on the HTTP server: without turndown its
    [convertToMarkdown] has no branch for HTML and returns the HTML as it
    came. *)
Lemma C8_http_returns_html_unchanged :
  Http.convertDocument no_libs "<h1>NOTES</h1>" (Some "html") (Some "md") None
  = Return "<h1>NOTES</h1>"
  /\ Stdio.convertTextToMarkdown (Stdio.convertHtmlToText "<h1>NOTES</h1>")
     = "# Notes".
Proof. split; reflexivity. Qed.

(** C8 (amended): on the stdio server, when turndown is absent, converting
    HTML to Markdown strips the HTML to text with [convertHtmlToText] (what
    [html] to [txt] returns) and runs the text-to-Markdown heuristic on that
    text; the request succeeds.  On the HTTP server, when turndown is
    absent, [html] to [md] returns the HTML unchanged. *)
Theorem C8_html_to_markdown_fallback :
  (forall libs html,
      turndown libs = None ->
      Stdio.convertHtmlToMarkdown libs html
      = Return (Stdio.convertTextToMarkdown (Stdio.convertHtmlToText html)))
  /\ (forall libs html filename,
      turndown libs = None ->
      Stdio.convertDocument libs html "html" "md" filename
      = Return (Stdio.convertTextToMarkdown (Stdio.convertHtmlToText html)))
  /\ (forall libs html filename,
      turndown libs = None ->
      Stdio.convertDocument libs html "html" "md" filename
      = bind (Stdio.convertDocument libs html "html" "txt" filename)
             (fun text => Stdio.convertDocument libs text "txt" "md" filename))
  /\ (forall libs html filename,
      turndown libs = None ->
      Http.convertDocument libs html (Some "html") (Some "md") filename
      = Return html).
Proof.
  split; [| split; [| split]]; intros libs html; intros.
  - unfold Stdio.convertHtmlToMarkdown. now rewrite H.
  - unfold Stdio.convertDocument, Stdio.convertHtmlToMarkdown.
    rewrite H. reflexivity.
  - unfold Stdio.convertDocument, Stdio.convertHtmlToMarkdown.
    rewrite H. reflexivity.
  - unfold Http.convertDocument, Http.convertToMarkdown.
    rewrite H. reflexivity.
Qed.

Lemma C8_html_to_markdown_fallback_witness :
  Stdio.convertDocument no_libs "<h1>NOTES</h1><p>Agenda:</p>" "html" "md" None
  = Return "## NOTESAgenda"
  /\ Http.convertDocument no_libs "<h1>NOTES</h1>" (Some "html") (Some "md") None
     = Return "<h1>NOTES</h1>".
Proof.
  destruct C8_html_to_markdown_fallback as [_ [Hs [_ Hh]]].
  split.
  - rewrite (Hs no_libs "<h1>NOTES</h1><p>Agenda:</p>" None eq_refl). reflexivity.
  - apply (Hh no_libs "<h1>NOTES</h1>" None eq_refl).
Defined.

(** ** C9: text to text *)

(** C9: [convertToText] returns a plain-text input unchanged, for every
    string, so applying it twice is applying it once; the stdio server,
    where the conversion to text is a branch of [convertDocument], returns
    the content of a [txt] to [txt] request unchanged as well. *)
Theorem C9_convertToText_idempotent :
  (forall s, Http.convertToText s (Some "txt") = s)
  /\ (forall s,
      Http.convertToText (Http.convertToText s (Some "txt")) (Some "txt")
      = Http.convertToText s (Some "txt"))
  /\ (forall libs s filename,
      Stdio.convertDocument libs s "txt" "txt" filename = Return s)
  /\ (forall libs s filename,
      bind (Stdio.convertDocument libs s "txt" "txt" filename)
           (fun t => Stdio.convertDocument libs t "txt" "txt" filename)
      = Stdio.convertDocument libs s "txt" "txt" filename).
Proof.
  repeat split; intros; reflexivity.
Qed.

(** ** C10: the HTTP server compares the formats before it looks at them *)

(** C10: on the HTTP server, for every content and every format value [f],
    in a list of formats or not, converting from [f] to [f] returns the
    content unchanged, whatever libraries are installed; so does [xyz] to
    [xyz], and no error is raised. *)
Theorem C10_http_identity_before_validation :
  (forall libs content f filename,
      Http.convertDocument libs content f f filename = Return content)
  /\ (forall libs content filename,
      Http.convertDocument libs content (Some "xyz") (Some "xyz") filename
      = Return content)
  /\ (forall libs content f filename e,
      Http.convertDocument libs content f f filename <> Throw e).
Proof.
  split; [| split]; intros.
  - apply http_identity.
  - apply http_identity.
  - rewrite http_identity. discriminate.
Qed.

(** * Further properties of the two servers *)

(** ** Failures of [convertDocument] *)

(** X1: whatever the libraries do, a failure of the stdio [convertDocument]
    on format names of code units below 128 is an [Error] of one of three
    kinds: the input format is outside the
    registry and the message is the unsupported-input one; or the input
    format is in it, the output format is not, and the message is the
    unsupported-output one; or both are in it and the message starts with
    [Conversion failed: ]. *)
Theorem X1_stdio_failures_are_labelled (libs : Libs) (content i o : string)
  (filename : option string) (e : JsError) :
  ascii_text i -> ascii_text o ->
  Stdio.convertDocument libs content i o filename = Throw e ->
  name e = "Error"
  /\ ((~ In (normalized i) registry
       /\ message e = "Unsupported input format '" ++ normalized i
                      ++ "'. Supported: txt, md, html, docx, pdf, rtf")
      \/ (In (normalized i) registry /\ ~ In (normalized o) registry
          /\ message e = "Unsupported output format '" ++ normalized o
                         ++ "'. Supported: txt, md, html, docx, pdf, rtf")
      \/ (In (normalized i) registry /\ In (normalized o) registry
          /\ exists cause, message e = "Conversion failed: " ++ cause)).
Proof.
  intros _ _ H.
  destruct (includes registry (normalized i)) eqn:Ei.
  - destruct (includes registry (normalized o)) eqn:Eo.
    + unfold Stdio.convertDocument in H. fold (normalized i) (normalized o) in H.
      change Stdio.SUPPORTED_FORMATS_input with registry in H.
      change Stdio.SUPPORTED_FORMATS_output with registry in H.
      rewrite Ei, Eo in H. simpl negb in H. cbv iota in H.
      apply try_catch_throw in H. destruct H as [cause [_ H]].
      injection H as <-. split; [reflexivity |].
      right. right. repeat split; try now apply includes_registry.
      now exists (message cause).
    + rewrite stdio_rejects_output in H by assumption.
      injection H as <-. split; [reflexivity |].
      right. left. repeat split; try now apply includes_registry.
      intros Hin. apply includes_registry in Hin. congruence.
  - rewrite stdio_rejects_input in H by assumption.
    injection H as <-. split; [reflexivity |].
    left. split; [| reflexivity].
    intros Hin. apply includes_registry in Hin. congruence.
Qed.

Lemma X1_stdio_failures_are_labelled_witness :
  Stdio.convertDocument no_libs "# Report" "md" " PDF" None
  = Throw stdio_puppeteer_missing
  /\ name stdio_puppeteer_missing = "Error".
Proof.
  split; [reflexivity |].
  exact (proj1 (X1_stdio_failures_are_labelled no_libs "# Report" "md" " PDF"
                  None stdio_puppeteer_missing eq_refl eq_refl eq_refl)).
Defined.

(** The working type is one of three, whatever the input format. *)
Lemma stdio_working_type (libs : Libs) (content input : string) (w : string * string) :
  stdio_working libs content input = Return w ->
  In (snd w) ["text"; "markdown"; "html"].
Proof.
  unfold stdio_working.
  destruct (String.eqb input "txt");
    [intros H; injection H as <-; simpl; auto |].
  destruct (String.eqb input "md");
    [intros H; injection H as <-; simpl; auto |].
  destruct (String.eqb input "html");
    [intros H; injection H as <-; simpl; auto |].
  destruct (String.eqb input "docx").
  { destruct (mammoth libs) as [f |]; [| discriminate].
    destruct (f content); simpl; [| discriminate].
    intros H; injection H as <-; simpl; auto. }
  destruct (String.eqb input "pdf").
  { destruct (pdfParse libs) as [f |]; [| discriminate].
    destruct (f content); simpl; [| discriminate].
    intros H; injection H as <-; simpl; auto. }
  intros H; injection H as <-; simpl; auto.
Qed.

(** X2: a conversion on the stdio server between format names of code
    units below 128 succeeds only when the libraries
    it goes through are installed: mammoth for [docx] input, pdf-parse for
    [pdf] input, puppeteer for [pdf] output, officegen for [docx] output,
    marked for Markdown to [html] or [pdf]; and it never succeeds for [rtf]
    output or for a format outside the registry. *)
Theorem X2_stdio_success_needs_libraries (libs : Libs) (content i o : string)
  (filename : option string) (r : string) :
  ascii_text i -> ascii_text o ->
  Stdio.convertDocument libs content i o filename = Return r ->
  In (normalized i) registry
  /\ In (normalized o) ["txt"; "md"; "html"; "docx"; "pdf"]
  /\ (normalized i = "docx" -> mammoth libs <> None)
  /\ (normalized i = "pdf" -> pdfParse libs <> None)
  /\ (normalized o = "pdf" -> puppeteer libs <> None)
  /\ (normalized o = "docx" -> officegen libs <> None)
  /\ (normalized i = "md" -> In (normalized o) ["html"; "pdf"] ->
      marked libs <> None).
Proof.
  intros _ _ H. apply stdio_returns in H.
  destruct H as [Hi [Ho [w [Hw Hout]]]].
  split; [exact Hi |].
  split.
  { simpl in Ho. destruct Ho as [Ho | [Ho | [Ho | [Ho | [Ho | [Ho | []]]]]]];
      try (rewrite <- Ho; simpl; auto 6; fail).
    rewrite <- Ho in Hout. discriminate Hout. }
  split.
  { intros E Hm. rewrite E in Hw. unfold stdio_working in Hw. simpl in Hw.
    rewrite Hm in Hw. discriminate. }
  split.
  { intros E Hm. rewrite E in Hw. unfold stdio_working in Hw. simpl in Hw.
    rewrite Hm in Hw. discriminate. }
  split.
  { intros E Hp. rewrite E in Hout. unfold stdio_output, Stdio.convertToPdf in Hout.
    simpl in Hout. rewrite Hp in Hout. discriminate. }
  split.
  { intros E Hg. rewrite E in Hout. unfold stdio_output, Stdio.convertToDocx in Hout.
    simpl in Hout. rewrite Hg in Hout. discriminate. }
  intros E Eo Hm. rewrite E in Hw. injection Hw as <-.
  simpl in Eo. destruct Eo as [Eo | [Eo | []]]; rewrite <- Eo in Hout.
  - unfold stdio_output, Stdio.convertMarkdownToHtml in Hout. simpl in Hout.
    rewrite Hm in Hout. discriminate.
  - unfold stdio_output, Stdio.convertToPdf, Stdio.convertMarkdownToHtml in Hout.
    simpl in Hout. rewrite Hm in Hout.
    destruct (puppeteer libs) as [p |]; [| discriminate].
    destruct (open_page p); discriminate.
Qed.

Lemma X2_stdio_success_needs_libraries_witness :
  Stdio.convertDocument printing_libs "hello" "txt" "pdf" None = Return "JVBERi0="
  /\ puppeteer printing_libs <> None.
Proof.
  split; [reflexivity |].
  destruct (X2_stdio_success_needs_libraries printing_libs "hello" "txt" "pdf"
              None "JVBERi0=" eq_refl eq_refl eq_refl) as [_ [_ [_ [_ [H _]]]]].
  apply H. reflexivity.
Defined.

Lemma strict_eq_true (a b : option string) : Http.strict_eq a b = true -> a = b.
Proof.
  destruct a as [x |], b as [y |]; simpl; intros H; try discriminate;
    [| reflexivity].
  apply String.eqb_eq in H. now subst.
Qed.

Lemma http_failure_shape (libs : Libs) (content : string)
  (i o filename : option string) (e : JsError) :
  Http.convertDocument libs content i o filename = Throw e ->
  exists cause, e = Error ("Conversion failed: " ++ error_toString cause).
Proof.
  unfold Http.convertDocument. intros H.
  apply try_catch_throw in H. destruct H as [cause [_ H]].
  injection H as <-. now exists cause.
Qed.

(** X3: whatever the libraries do, a failure of the HTTP [convertDocument]
    is a request between two different formats, and what is thrown is an
    [Error] whose message is [Conversion failed: ] followed by the printed
    cause (its name, a colon, its message). *)
Theorem X3_http_failures_are_wrapped (libs : Libs) (content : string)
  (i o filename : option string) (e : JsError) :
  Http.convertDocument libs content i o filename = Throw e ->
  i <> o
  /\ exists cause, e = Error ("Conversion failed: " ++ error_toString cause).
Proof.
  intros H. split.
  - intros ->. rewrite http_identity in H. discriminate.
  - exact (http_failure_shape _ _ _ _ _ _ H).
Qed.

Lemma X3_http_failures_are_wrapped_witness :
  Some "md" <> Some "pdf"
  /\ exists cause,
       http_puppeteer_missing = Error ("Conversion failed: " ++ error_toString cause).
Proof.
  apply (X3_http_failures_are_wrapped no_libs "# Report" (Some "md") (Some "pdf") None).
  reflexivity.
Defined.

(** X4: on the HTTP server a conversion between two different formats
    succeeds only to [txt], [md], [html] or [pdf], and to [pdf] only when
    puppeteer is installed: it never produces [docx], nor any other
    format. *)
Theorem X4_http_success_outputs (libs : Libs) (content : string)
  (i o filename : option string) (r : string) :
  i <> o ->
  Http.convertDocument libs content i o filename = Return r ->
  In o [Some "txt"; Some "md"; Some "html"; Some "pdf"]
  /\ (o = Some "pdf" -> puppeteer libs <> None).
Proof. apply http_success_outputs. Qed.

Lemma X4_http_success_outputs_witness :
  Http.convertDocument printing_libs "hello" (Some "txt") (Some "pdf") None
  = Return "JVBERi0="
  /\ In (Some "pdf") [Some "txt"; Some "md"; Some "html"; Some "pdf"]
  /\ (Some "pdf" = Some "pdf" -> puppeteer printing_libs <> None).
Proof.
  split; [reflexivity |].
  apply (X4_http_success_outputs printing_libs "hello" (Some "txt") (Some "pdf")
           None "JVBERi0=").
  - discriminate.
  - reflexivity.
Defined.

(** X5: the stdio server reads an [rtf] input as plain text: for every
    content and output format, a request from [rtf] gives what the same
    request from [txt] gives.  A [docx] input whose extraction by mammoth
    returns a text gives what that text gives as [txt]. *)
Theorem X5_stdio_rtf_and_docx_inputs_are_text :
  (forall libs content i o filename,
      normalized i = "rtf" ->
      Stdio.convertDocument libs content i o filename
      = Stdio.convertDocument libs content "txt" o filename)
  /\ (forall libs content i o filename extract text,
      normalized i = "docx" ->
      mammoth libs = Some extract -> extract content = Return text ->
      Stdio.convertDocument libs content i o filename
      = Stdio.convertDocument libs text "txt" o filename).
Proof.
  split.
  - intros libs content i o filename Hi.
    unfold Stdio.convertDocument. fold (normalized i).
    rewrite Hi. reflexivity.
  - intros libs content i o filename extract text Hi Hm Hx.
    unfold Stdio.convertDocument. fold (normalized i).
    rewrite Hi, Hm.
    cbv beta iota delta [includes existsb String.eqb Ascii.eqb Bool.eqb negb orb
      Stdio.SUPPORTED_FORMATS_input].
    rewrite Hx. reflexivity.
Qed.

Lemma X5_stdio_rtf_and_docx_inputs_are_text_witness :
  Stdio.convertDocument no_libs "{\rtf1 NOTES}" "RTF" "md" None
  = Stdio.convertDocument no_libs "{\rtf1 NOTES}" "txt" "md" None
  /\ Stdio.convertDocument extracting_libs "UEsDBBQ=" "docx" "md" None
     = Return "## Minutes".
Proof.
  destruct X5_stdio_rtf_and_docx_inputs_are_text as [Hrtf Hdocx].
  split.
  - apply Hrtf. reflexivity.
  - rewrite (Hdocx extracting_libs "UEsDBBQ=" "docx" "md" None
               (fun _ => Return "Minutes:") "Minutes:" eq_refl eq_refl eq_refl).
    reflexivity.
Defined.

(** ** Trimming and case *)

Lemma is_space_to_lower (c : ascii) :
  JsChar.is_space (JsChar.to_lower c) = JsChar.is_space c.
Proof. destruct c as [[] [] [] [] [] [] [] []]; reflexivity. Qed.

Lemma to_lower_idempotent (c : ascii) :
  JsChar.to_lower (JsChar.to_lower c) = JsChar.to_lower c.
Proof. destruct c as [[] [] [] [] [] [] [] []]; reflexivity. Qed.

Lemma toLowerCase_idempotent (s : string) :
  toLowerCase (toLowerCase s) = toLowerCase s.
Proof.
  induction s as [| c s IH]; simpl; [reflexivity |].
  unfold toLowerCase in *. simpl. now rewrite to_lower_idempotent, IH.
Qed.

Lemma trimStart_toLowerCase (s : string) :
  trimStart (toLowerCase s) = toLowerCase (trimStart s).
Proof.
  induction s as [| c s IH]; [reflexivity |].
  unfold toLowerCase in *. simpl. rewrite is_space_to_lower.
  destruct (JsChar.is_space c); [exact IH | reflexivity].
Qed.

Lemma trimEnd_toLowerCase (s : string) :
  trimEnd (toLowerCase s) = toLowerCase (trimEnd s).
Proof.
  induction s as [| c s IH]; [reflexivity |].
  unfold toLowerCase in *. simpl. rewrite IH, is_space_to_lower.
  destruct (trimEnd s); simpl; [| reflexivity].
  destruct (JsChar.is_space c); reflexivity.
Qed.

Lemma trim_toLowerCase (s : string) : trim (toLowerCase s) = toLowerCase (trim s).
Proof.
  unfold trim. now rewrite trimStart_toLowerCase, trimEnd_toLowerCase.
Qed.

Lemma trimStart_clean (s : string) : starts_clean (trimStart s).
Proof.
  induction s as [| c s IH]; simpl; [exact I |].
  destruct (JsChar.is_space c) eqn:E; [exact IH | exact E].
Qed.

Lemma trimStart_of_clean (s : string) : starts_clean s -> trimStart s = s.
Proof.
  destruct s as [| c s]; simpl; [reflexivity |]. now intros ->.
Qed.

Lemma trimEnd_keeps_clean (s : string) : starts_clean s -> starts_clean (trimEnd s).
Proof.
  destruct s as [| c s]; simpl; [exact id |].
  intros H. rewrite H. now destruct (trimEnd s).
Qed.

Lemma trimEnd_idempotent (s : string) : trimEnd (trimEnd s) = trimEnd s.
Proof.
  induction s as [| c s IH]; simpl; [reflexivity |].
  destruct (trimEnd s) as [| d t] eqn:E.
  - destruct (JsChar.is_space c) eqn:Ec; simpl; [reflexivity |].
    now rewrite Ec.
  - simpl. simpl in IH. rewrite IH. reflexivity.
Qed.

Lemma trim_clean (s : string) : starts_clean (trim s).
Proof. apply trimEnd_keeps_clean, trimStart_clean. Qed.

Lemma trim_idempotent (s : string) : trim (trim s) = trim s.
Proof.
  unfold trim at 1. rewrite trimStart_of_clean by apply trim_clean.
  unfold trim. apply trimEnd_idempotent.
Qed.

Lemma normalized_idempotent (format : string) :
  normalized (normalized format) = normalized format.
Proof.
  unfold normalized.
  now rewrite <- trim_toLowerCase, toLowerCase_idempotent, trim_idempotent.
Qed.

(** ** Which libraries a conversion consults *)

(** X6: on the stdio server a conversion between the textual formats does
    not consult puppeteer, officegen, mammoth or pdf-parse: from [txt],
    [md], [html] or [rtf] to [txt] the result is the same whatever the
    libraries are, and to [md] or [html] it is the same for two sets of
    libraries that agree on marked and turndown. *)
Theorem X6_stdio_textual_conversions_ignore_binary_libraries :
  (forall libs libs' content i o filename,
      In (normalized i) ["txt"; "md"; "html"; "rtf"] ->
      normalized o = "txt" ->
      Stdio.convertDocument libs content i o filename
      = Stdio.convertDocument libs' content i o filename)
  /\ (forall libs libs' content i o filename,
      marked libs = marked libs' -> turndown libs = turndown libs' ->
      In (normalized i) ["txt"; "md"; "html"; "rtf"] ->
      In (normalized o) ["md"; "html"] ->
      Stdio.convertDocument libs content i o filename
      = Stdio.convertDocument libs' content i o filename).
Proof.
  split.
  - intros libs libs' content i o filename Hi Ho. simpl in Hi.
    destruct Hi as [Hi | [Hi | [Hi | [Hi | []]]]]; symmetry in Hi;
      unfold Stdio.convertDocument; fold (normalized i); fold (normalized o);
      rewrite Hi, Ho; reflexivity.
  - intros libs libs' content i o filename Hm Ht Hi Ho. simpl in Hi, Ho.
    destruct Hi as [Hi | [Hi | [Hi | [Hi | []]]]]; symmetry in Hi;
      destruct Ho as [Ho | [Ho | []]]; symmetry in Ho;
      unfold Stdio.convertDocument, Stdio.convertHtmlToMarkdown,
        Stdio.convertMarkdownToHtml;
      fold (normalized i); fold (normalized o);
      rewrite Hi, Ho, ?Hm, ?Ht; reflexivity.
Qed.

Lemma X6_stdio_textual_conversions_ignore_binary_libraries_witness :
  Stdio.convertDocument no_libs "<p>Hi</p>" "html" "txt" None
  = Stdio.convertDocument failing_libs "<p>Hi</p>" "html" "txt" None
  /\ Stdio.convertDocument no_libs "NOTES" "txt" "md" None
     = Stdio.convertDocument printing_libs "NOTES" "txt" "md" None.
Proof.
  destruct X6_stdio_textual_conversions_ignore_binary_libraries as [Htxt Hmd].
  split.
  - apply Htxt; [vm_compute; auto | reflexivity].
  - apply Hmd; [reflexivity | reflexivity | vm_compute; auto | vm_compute; auto].
Defined.

(** X7: the stdio server reads format names without regard to case and to
    surrounding spaces: a request gives what the same request gives with
    both names lowercased and trimmed, so two spellings with the same
    normal form are interchangeable. *)
Theorem X7_stdio_format_names_are_normalised (libs : Libs)
  (content i o : string) (filename : option string) :
  Stdio.convertDocument libs content i o filename
  = Stdio.convertDocument libs content (normalized i) (normalized o) filename.
Proof.
  unfold Stdio.convertDocument.
  fold (normalized i) (normalized o) (normalized (normalized i))
       (normalized (normalized o)).
  now rewrite !normalized_idempotent.
Qed.

(** ** The tool handlers *)

Lemma advertised_three (tools : list json) (tool : string) :
  tool_names tools = [Some (JStr "convert-document");
                      Some (JStr "list-supported-formats");
                      Some (JStr "convert-file-batch")] ->
  advertised tools tool
  <-> tool = "convert-document" \/ tool = "list-supported-formats"
      \/ tool = "convert-file-batch".
Proof.
  intros E. unfold advertised. rewrite E. simpl. split.
  - intros [H | [H | [H | []]]]; injection H as <-; auto.
  - intros [-> | [-> | ->]]; auto.
Qed.

Lemma advertised_two (tool : string) :
  advertised Http.route_tools tool
  <-> tool = "convert-document" \/ tool = "list-supported-formats".
Proof.
  unfold advertised. simpl. split.
  - intros [H | [H | []]]; injection H as <-; auto.
  - intros [-> | ->]; auto.
Qed.

Lemma equals_some (x y : string) : Http.equals (Some x) y = String.eqb x y.
Proof. reflexivity. Qed.

(** X8: the tool handler of the HTTP server serves exactly the tools it
    lists: a call throws [Unknown tool: <name>] if and only if the name is
    not listed.  On the [/mcp] route a call of a name outside the two
    tools that the route's own [tools/list] gives throws the same error
    inside the route, and the caller is answered with status 500 and
    [Internal error], without the name.  [convert-file-batch], which the
    handler lists and serves, is such a name; [list-supported-formats] is
    answered with status 200 and the route's own text. *)
Theorem X8_http_tools_listed_are_tools_served :
  (forall libs tool args,
      ~ advertised (tools_of Http.listTools) tool
      <-> Http.callTool libs (Some tool) args = Throw (unknown_tool tool))
  /\ (forall libs tool args id,
      ~ advertised Http.route_tools tool ->
      Http.route_call libs (http_call tool args id) = Throw (unknown_tool tool)
      /\ Http.mcp libs (http_call tool args id) = internal_error id)
  /\ (forall libs args id,
      Http.mcp libs (http_call "list-supported-formats" args id)
      = {| Http.status_code := 200;
           Http.body := Http.rpc_result (Http.text_content Http.route_formats_text) id |})
  /\ advertised (tools_of Http.listTools) "convert-file-batch"
  /\ ~ advertised Http.route_tools "convert-file-batch".
Proof.
  split; [| split; [| split; [| split]]].
  - intros libs tool args.
    rewrite (advertised_three (tools_of Http.listTools) tool eq_refl).
    unfold Http.callTool. rewrite !equals_some.
    destruct (String.eqb tool "convert-document") eqn:E1.
    { apply String.eqb_eq in E1. subst tool. split; [intros H; exfalso; auto |].
      intros H. exfalso.
      destruct (http_failure_shape _ _ _ _ _ _ H) as [cause Hc].
      discriminate Hc. }
    destruct (String.eqb tool "list-supported-formats") eqn:E2.
    { apply String.eqb_eq in E2. subst tool. split; [intros H; exfalso; auto |].
      discriminate. }
    destruct (String.eqb tool "convert-file-batch") eqn:E3.
    { apply String.eqb_eq in E3. subst tool. split; [intros H; exfalso; auto |].
      discriminate. }
    apply String.eqb_neq in E1, E2, E3. split; [reflexivity |].
    intros _ [H | [H | H]]; congruence.
  - intros libs tool args id H. rewrite advertised_two in H.
    assert (E : Http.route_call libs (http_call tool args id)
                = Throw (unknown_tool tool)).
    { unfold Http.route_call, http_call.
      cbn [Http.rpc_params Http.tool_name Http.arguments]. rewrite !equals_some.
      destruct (String.eqb tool "convert-document") eqn:E1;
        [apply String.eqb_eq in E1; exfalso; auto |].
      destruct (String.eqb tool "list-supported-formats") eqn:E2;
        [apply String.eqb_eq in E2; exfalso; auto |].
      reflexivity. }
    split; [exact E |].
    unfold Http.mcp. rewrite E. reflexivity.
  - reflexivity.
  - apply (advertised_three (tools_of Http.listTools) _ eq_refl). auto.
  - rewrite advertised_two. intros [H | H]; discriminate.
Qed.

Lemma X8_http_tools_listed_are_tools_served_witness :
  Http.mcp no_libs
    (http_call "convert-file-batch"
       {| Http.arg_content := "hello"; Http.arg_input_format := Some "txt";
          Http.arg_output_format := Some "md"; Http.arg_filename := None;
          Http.arg_files := [] |} (Some (JNum 3)))
  = internal_error (Some (JNum 3)).
Proof.
  destruct X8_http_tools_listed_are_tools_served as [_ [Hroute _]].
  apply Hroute.
  unfold advertised. simpl. intuition discriminate.
Defined.

(** X9: the stdio tool handler answers every failure as text: a name it
    does not list gets [Error: Unknown tool: <name>], and a
    [convert-document] call whose conversion throws gets [Error: ] followed
    by the message.  The same text is also the answer to a conversion that
    succeeded: asking for the text [Error: <msg>] as [txt] to [txt] returns
    it, so an answer that starts with [Error: ] does not tell a failure from
    a result. *)
Theorem X9_stdio_tool_errors_are_text :
  (forall libs tool args,
      ~ advertised (tools_of Stdio.listTools) tool ->
      Stdio.callTool libs tool args = "Error: Unknown tool: " ++ tool)
  /\ (forall libs args e,
      Stdio.convertDocument libs (Stdio.arg_content args)
        (Stdio.arg_input_format args) (Stdio.arg_output_format args)
        (Stdio.arg_filename args) = Throw e ->
      Stdio.callTool libs "convert-document" args = "Error: " ++ message e)
  /\ (forall libs msg,
      Stdio.callTool libs "convert-document" (stdio_identity_call ("Error: " ++ msg))
      = "Error: " ++ msg).
Proof.
  split; [| split].
  - intros libs tool args H.
    rewrite (advertised_three (tools_of Stdio.listTools) tool eq_refl) in H.
    unfold Stdio.callTool.
    destruct (String.eqb tool "convert-document") eqn:E1;
      [apply String.eqb_eq in E1; exfalso; auto |].
    destruct (String.eqb tool "list-supported-formats") eqn:E2;
      [apply String.eqb_eq in E2; exfalso; auto |].
    destruct (String.eqb tool "convert-file-batch") eqn:E3;
      [apply String.eqb_eq in E3; exfalso; auto |].
    reflexivity.
  - intros libs args e H. unfold Stdio.callTool. simpl String.eqb. cbv iota.
    now rewrite H.
  - intros libs msg. reflexivity.
Qed.

Lemma X9_stdio_tool_errors_are_text_witness :
  Stdio.callTool no_libs "convert-pdf" (stdio_identity_call "hello")
  = "Error: Unknown tool: convert-pdf"
  /\ Stdio.callTool no_libs "convert-document"
       {| Stdio.arg_content := "hello"; Stdio.arg_input_format := "odt";
          Stdio.arg_output_format := "txt"; Stdio.arg_filename := None;
          Stdio.arg_files := [] |}
     = "Error: Unsupported input format 'odt'. Supported: txt, md, html, docx, pdf, rtf".
Proof.
  destruct X9_stdio_tool_errors_are_text as [Hunknown [Hfail _]].
  split.
  - apply Hunknown. unfold advertised. simpl. intuition discriminate.
  - apply (Hfail no_libs _ (Error "Unsupported input format 'odt'. Supported: txt, md, html, docx, pdf, rtf")).
    reflexivity.
Defined.

(** X10: the [/mcp] route answers every request with the request's [id].
    A [tools/call] whose tool throws is answered with status 500, code
    -32603 and the message [Internal error], whatever was thrown: so are a
    [convert-document] whose conversion fails, every call of
    [convert-file-batch], and a call without [params].  A
    [convert-document] that succeeds is answered with status 200 and the
    converted text, and a method other than [initialize], [tools/list] and
    [tools/call] with status 400, code -32601 and the method's name. *)
Theorem X10_mcp_answers :
  (forall libs args id e,
      Http.convertDocument libs (Http.arg_content args) (Http.arg_input_format args)
        (Http.arg_output_format args) (Http.arg_filename args) = Throw e ->
      Http.mcp libs (http_call "convert-document" args id) = internal_error id)
  /\ (forall libs args id,
      Http.mcp libs (http_call "convert-file-batch" args id) = internal_error id)
  /\ (forall libs id,
      Http.mcp libs {| Http.rpc_method := Some "tools/call"; Http.rpc_id := id;
                       Http.rpc_params := None |}
      = internal_error id)
  /\ (forall libs args id text,
      Http.convertDocument libs (Http.arg_content args) (Http.arg_input_format args)
        (Http.arg_output_format args) (Http.arg_filename args) = Return text ->
      Http.mcp libs (http_call "convert-document" args id)
      = {| Http.status_code := 200;
           Http.body := Http.rpc_result (Http.text_content text) id |})
  /\ (forall libs request,
      ~ In (Http.rpc_method request)
           [Some "initialize"; Some "tools/list"; Some "tools/call"] ->
      Http.mcp libs request
      = {| Http.status_code := 400;
           Http.body := Http.rpc_error (-32601)
                          ("Method not found: " ++ Http.show (Http.rpc_method request))
                          (Http.rpc_id request) |})
  /\ (forall libs request,
      get "id" (Http.body (Http.mcp libs request)) = Http.rpc_id request
      /\ get "jsonrpc" (Http.body (Http.mcp libs request)) = Some (JStr "2.0")).
Proof.
  split; [| split; [| split; [| split; [| split]]]].
  - intros libs args id e H. unfold Http.mcp, http_call, Http.route_call.
    cbn [Http.rpc_method Http.rpc_params Http.rpc_id Http.tool_name Http.arguments].
    simpl Http.equals. cbv iota. now rewrite H.
  - reflexivity.
  - reflexivity.
  - intros libs args id text H. unfold Http.mcp, http_call, Http.route_call.
    cbn [Http.rpc_method Http.rpc_params Http.rpc_id Http.tool_name Http.arguments].
    simpl Http.equals. cbv iota. now rewrite H.
  - intros libs request H. unfold Http.mcp.
    rewrite !equals_false; [reflexivity | | |];
      intros E; apply H; rewrite E; simpl; auto.
  - intros libs request. unfold Http.mcp.
    destruct (Http.equals (Http.rpc_method request) "initialize");
      [destruct (Http.rpc_id request); split; reflexivity |].
    destruct (Http.equals (Http.rpc_method request) "tools/list");
      [destruct (Http.rpc_id request); split; reflexivity |].
    destruct (Http.equals (Http.rpc_method request) "tools/call");
      [| destruct (Http.rpc_id request); split; reflexivity].
    destruct (Http.route_call libs request);
      destruct (Http.rpc_id request); split; reflexivity.
Qed.

Lemma X10_mcp_answers_witness :
  Http.mcp no_libs
    (http_call "convert-document"
       {| Http.arg_content := "# Report"; Http.arg_input_format := Some "md";
          Http.arg_output_format := Some "pdf"; Http.arg_filename := None;
          Http.arg_files := [] |} (Some (JNum 7)))
  = internal_error (Some (JNum 7))
  /\ Http.mcp no_libs {| Http.rpc_method := Some "ping"; Http.rpc_id := None;
                         Http.rpc_params := None |}
     = {| Http.status_code := 400;
          Http.body := Http.rpc_error (-32601) "Method not found: ping" None |}.
Proof.
  destruct X10_mcp_answers as [Hfail [_ [_ [_ [Hmethod _]]]]].
  split.
  - apply (Hfail no_libs _ _ http_puppeteer_missing). reflexivity.
  - apply (Hmethod no_libs {| Http.rpc_method := Some "ping"; Http.rpc_id := None;
                              Http.rpc_params := None |}).
    simpl. intuition discriminate.
Defined.

(** ** Failures in a batch *)

Lemma stdio_never_returns (libs : Libs) (content i o : string)
  (filename : option string) :
  ~ In (normalized o) ["txt"; "md"; "html"; "docx"; "pdf"] ->
  exists e, Stdio.convertDocument libs content i o filename = Throw e.
Proof.
  intros Ho.
  destruct (Stdio.convertDocument libs content i o filename) as [r | e] eqn:E;
    [| now exists e].
  exfalso. apply stdio_returns in E.
  destruct E as [_ [Hin [w [_ Hout]]]].
  simpl in Hin. destruct Hin as [H | [H | [H | [H | [H | [H | []]]]]]];
    try (apply Ho; rewrite <- H; simpl; auto 6; fail).
  rewrite <- H in Hout. discriminate Hout.
Qed.


(** X11: when the target format of a stdio batch, a name of code units
    below 128, is [rtf] or is not in the registry, no file of the batch is
    converted: every block of the report
    has status [error], whatever the files and the libraries are. *)
Theorem X11_stdio_batch_unusable_target (libs : Libs)
  (files : list Stdio.ConversionFile) (out : string) :
  ascii_text out ->
  ~ In (normalized out) ["txt"; "md"; "html"; "docx"; "pdf"] ->
  Forall (fun r => Stdio.status r = "error") (Stdio.batchResults libs out 0 files).
Proof.
  intros _ Ho. generalize 0 as i.
  induction files as [| f files IH]; intros i; simpl; constructor.
  - unfold Stdio.batchEntry.
    destruct (stdio_never_returns libs (or_else (Stdio.content f) "")
                (or_else (Stdio.input_format f) "txt") out
                (Some (or_else (Stdio.filename f) ("file_" ++ of_nat (i + 1)))) Ho)
      as [e ->].
    reflexivity.
  - apply IH.
Qed.

Lemma X11_stdio_batch_unusable_target_witness :
  Forall (fun r => Stdio.status r = "error")
         (Stdio.batchResults no_libs " RTF" 0 scenario_files).
Proof.
  apply X11_stdio_batch_unusable_target; [reflexivity |].
  vm_compute. intuition discriminate.
Defined.



(** ** Replacing single characters *)

Lemma all_chars_app (p : ascii -> bool) (a b : string) :
  all_chars p (a ++ b) = all_chars p a && all_chars p b.
Proof.
  induction a as [| c a IH]; simpl; [reflexivity |].
  now rewrite IH, andb_assoc.
Qed.

Lemma exec_chr (p : ascii -> bool) (before : option ascii) (s : string) :
  Regex.exec (Regex.Chr p) before s
  = match s with
    | String c _ => if p c then Some (1, "") else None
    | EmptyString => None
    end.
Proof.
  unfold Regex.exec. simpl. destruct s as [| c s]; [reflexivity |].
  destruct (p c); [| reflexivity]. simpl Regex.rest. simpl Regex.cap.
  change (String.length (String c s)) with (S (String.length s)).
  replace (S (String.length s) - String.length s) with 1 by lia.
  reflexivity.
Qed.

Lemma replace_chr (p : ascii -> bool) (f : string -> string -> string)
  (before : option ascii) (s : string) :
  Regex.replace_go (Regex.Chr p) f true before 0 s
  = substitute p (fun c => f (String c "") "") s.
Proof.
  revert before. induction s as [| c s IH]; intros before.
  - reflexivity.
  - cbn [Regex.replace_go]. rewrite exec_chr. simpl substitute.
    destruct (p c).
    + cbn [take]. now rewrite IH.
    + now rewrite IH.
Qed.

Lemma substitute_app (p : ascii -> bool) (f : ascii -> string) (a b : string) :
  substitute p f (a ++ b) = substitute p f a ++ substitute p f b.
Proof.
  induction a as [| c a IH]; simpl; [reflexivity |].
  now rewrite IH, append_assoc.
Qed.

Lemma escapeHtml_chars (s : string) :
  Stdio.escapeHtml s = substitute (fun _ => true) escape_char s.
Proof.
  unfold Stdio.escapeHtml, Stdio.replace_lit, Regex.replace_all, Regex.const.
  cbn [Regex.lit]. rewrite !replace_chr.
  induction s as [| c s IH]; [reflexivity |].
  cbn [substitute]. rewrite !substitute_app, IH. f_equal.
  unfold escape_char.
  destruct (Ascii.eqb "&" c) eqn:Ea.
  { apply Ascii.eqb_eq in Ea. subst c. reflexivity. }
  rewrite Ascii.eqb_sym, Ea. cbn [substitute append].
  destruct (Ascii.eqb "<" c) eqn:El.
  { apply Ascii.eqb_eq in El. subst c. reflexivity. }
  rewrite (Ascii.eqb_sym c "<"), El. cbn [substitute append].
  destruct (Ascii.eqb ">" c) eqn:Eg.
  { apply Ascii.eqb_eq in Eg. subst c. reflexivity. }
  rewrite (Ascii.eqb_sym c ">"), Eg. reflexivity.
Qed.

Lemma escape_char_safe (c : ascii) :
  all_chars (fun x => negb (Regex.mem x "<>")) (escape_char c) = true.
Proof.
  unfold escape_char.
  destruct (Ascii.eqb c "&"); [reflexivity |].
  destruct (Ascii.eqb c "<") eqn:El; [reflexivity |].
  destruct (Ascii.eqb c ">") eqn:Eg; [reflexivity |].
  simpl. now rewrite El, Eg.
Qed.

(** X13: [escapeHtml], the same on both servers, rewrites a text character
    by character: [&] becomes [&amp;], [<] becomes [&lt;], [>] becomes
    [&gt;] and every other character is kept, although the three
    replacements run one after the other over the whole text.  The result
    holds no [<] and no [>], so the page built from a plain text cannot be
    given a tag by the text. *)
Theorem X13_escapeHtml_is_characterwise (s : string) :
  Stdio.escapeHtml s = substitute (fun _ => true) escape_char s
  /\ Http.escapeHtml s = Stdio.escapeHtml s
  /\ all_chars (fun x => negb (Regex.mem x "<>")) (Stdio.escapeHtml s) = true.
Proof.
  split; [apply escapeHtml_chars |]. split; [reflexivity |].
  rewrite escapeHtml_chars.
  induction s as [| c s IH]; [reflexivity |].
  cbn [substitute]. now rewrite all_chars_app, escape_char_safe, IH.
Qed.

Lemma delete_chars_clean (p : ascii -> bool) (s : string) :
  all_chars (fun c => negb (p c)) (delete_chars p s) = true.
Proof.
  unfold delete_chars. induction s as [| c s IH]; [reflexivity |].
  simpl. destruct (p c) eqn:E; simpl; [exact IH |]. now rewrite E, IH.
Qed.

Lemma delete_chars_of_clean (p : ascii -> bool) (s : string) :
  all_chars (fun c => negb (p c)) s = true -> delete_chars p s = s.
Proof.
  unfold delete_chars. induction s as [| c s IH]; [reflexivity |].
  simpl. destruct (p c); simpl; [discriminate |].
  intros H. now rewrite IH.
Qed.

Lemma stdio_md_to_txt (libs : Libs) (content : string) (filename : option string) :
  Stdio.convertDocument libs content "md" "txt" filename
  = Return (delete_chars is_md_mark content).
Proof.
  change (Stdio.convertDocument libs content "md" "txt" filename)
    with (Return (A := string)
            (Regex.replace_all Stdio.re_md_marks (Regex.const "") content)).
  unfold Regex.replace_all, Stdio.re_md_marks, Regex.one_of.
  now rewrite replace_chr.
Qed.

(** X14: on the stdio server, converting Markdown to text deletes the
    characters [#], [*], [_] and the backquote and keeps every other
    character in place, spaces and line feeds included: the result holds
    none of the four, a text that holds none of them comes back unchanged,
    and converting the result again changes nothing. *)
Theorem X14_stdio_markdown_to_text_deletes_marks (libs : Libs) (content : string)
  (filename : option string) :
  Stdio.convertDocument libs content "md" "txt" filename
  = Return (delete_chars is_md_mark content)
  /\ all_chars (fun c => negb (is_md_mark c)) (delete_chars is_md_mark content) = true
  /\ Stdio.convertDocument libs (delete_chars is_md_mark content) "md" "txt" filename
     = Return (delete_chars is_md_mark content)
  /\ (all_chars (fun c => negb (is_md_mark c)) content = true ->
      Stdio.convertDocument libs content "md" "txt" filename = Return content).
Proof.
  split; [apply stdio_md_to_txt |].
  split; [apply delete_chars_clean |].
  split.
  - rewrite stdio_md_to_txt. f_equal.
    apply delete_chars_of_clean, delete_chars_clean.
  - intros H. rewrite stdio_md_to_txt. f_equal.
    now apply delete_chars_of_clean.
Qed.

Lemma X14_stdio_markdown_to_text_deletes_marks_witness :
  Stdio.convertDocument no_libs "Plain text, two  spaces." "md" "txt" None
  = Return "Plain text, two  spaces.".
Proof.
  apply (X14_stdio_markdown_to_text_deletes_marks no_libs
           "Plain text, two  spaces." None).
  reflexivity.
Defined.

(** ** Runs of spaces *)

Lemma run_chr (p : ascii -> bool) (st : Regex.mstate)
  (k : Regex.mstate -> option Regex.mstate) :
  Regex.run (Regex.Chr p) st k
  = match Regex.rest st with
    | String c s' =>
        if p c then k (Regex.MState (Some c) s' (Regex.cap st)) else None
    | EmptyString => None
    end.
Proof. reflexivity. Qed.

Lemma run_seq (r1 r2 : Regex.regex) (st : Regex.mstate)
  (k : Regex.mstate -> option Regex.mstate) :
  Regex.run (Regex.Seq r1 r2) st k
  = Regex.run r1 st (fun st1 => Regex.run r2 st1 k).
Proof. reflexivity. Qed.

Lemma run_star_chr (p : ascii -> bool) (s : string) (before : option ascii)
  (g1 : string) :
  exists last,
    Regex.run (Regex.Star true (Regex.Chr p)) (Regex.MState before s g1)
              (fun st => Some st)
    = Some (Regex.MState last (drop_while p s) g1).
Proof.
  revert before. induction s as [| c s IH]; intros before.
  - exists before. reflexivity.
  - rewrite run_star_unfold. cbv zeta. rewrite run_chr.
    cbn [Regex.rest Regex.cap].
    destruct (p c) eqn:E.
    + assert (L : (String.length s <? String.length (String c s)) = true)
        by (apply Nat.ltb_lt; simpl; lia).
      rewrite L. destruct (IH (Some c)) as [last ->].
      exists last. cbn [drop_while]. now rewrite E.
    + exists before. cbn [drop_while]. now rewrite E.
Qed.

Lemma drop_while_length (p : ascii -> bool) (s : string) :
  String.length s = span p s + String.length (drop_while p s).
Proof.
  induction s as [| c s IH]; simpl; [reflexivity |].
  destruct (p c); simpl; [now rewrite IH | reflexivity].
Qed.

Lemma exec_spaces (before : option ascii) (s : string) :
  Regex.exec Stdio.re_spaces before s
  = match s with
    | String c s' =>
        if JsChar.is_space c then Some (S (span JsChar.is_space s'), "") else None
    | EmptyString => None
    end.
Proof.
  unfold Regex.exec, Stdio.re_spaces, Regex.plus.
  destruct s as [| c s]; [reflexivity |].
  rewrite run_seq, run_chr. cbn [Regex.rest Regex.cap].
  destruct (JsChar.is_space c); [| reflexivity].
  destruct (run_star_chr JsChar.is_space s (Some c) "") as [last H].
  rewrite H. cbn [Regex.rest Regex.cap].
  change (String.length (String c s)) with (S (String.length s)).
  rewrite (drop_while_length JsChar.is_space s) at 1.
  f_equal. f_equal. lia.
Qed.

Lemma replace_spaces (s : string) :
  forall before,
    Regex.replace_go Stdio.re_spaces (Regex.const " ") true before 0 s
    = collapse_go false s
    /\ Regex.replace_go Stdio.re_spaces (Regex.const " ") true before
         (span JsChar.is_space s) s
       = collapse_go true s.
Proof.
  induction s as [| c s IH]; intros before; [split; reflexivity |].
  assert (H0 : Regex.replace_go Stdio.re_spaces (Regex.const " ") true before 0
                 (String c s) = collapse_go false (String c s)).
  { cbn [Regex.replace_go]. rewrite exec_spaces. cbn [collapse_go].
    destruct (JsChar.is_space c).
    - now rewrite (proj2 (IH (Some c))).
    - now rewrite (proj1 (IH (Some c))). }
  split; [exact H0 |].
  cbn [span collapse_go]. destruct (JsChar.is_space c) eqn:E.
  - cbn [Regex.replace_go]. apply (proj2 (IH (Some c))).
  - rewrite H0. cbn [collapse_go]. now rewrite E.
Qed.

Lemma collapse_spaces_eq (s : string) :
  collapse_spaces s = trim (collapse_go false s).
Proof.
  unfold collapse_spaces, Regex.replace_all.
  now rewrite (proj1 (replace_spaces s None)).
Qed.

Lemma collapse_go_loose (s : string) :
  forall in_run,
    loosely_spaced (collapse_go in_run s) = true
    /\ (in_run = true -> next_is_word_or_end (collapse_go in_run s) = true).
Proof.
  induction s as [| c s IH]; intros in_run; [split; reflexivity |].
  cbn [collapse_go]. destruct (JsChar.is_space c) eqn:E.
  - destruct in_run.
    + apply IH.
    + split; [| discriminate].
      change (" " ++ collapse_go true s) with (String " " (collapse_go true s)).
      cbn [loosely_spaced].
      destruct (IH true) as [H1 H2]. rewrite H1, (H2 eq_refl). reflexivity.
  - split.
    + cbn [loosely_spaced]. rewrite E. apply (IH false).
    + intros _. simpl. now rewrite E.
Qed.

Lemma loosely_spaced_tail (c : ascii) (s : string) :
  loosely_spaced (String c s) = true -> loosely_spaced s = true.
Proof. simpl. intros H. now apply andb_prop in H. Qed.

Lemma trimStart_loose (s : string) :
  loosely_spaced s = true -> loosely_spaced (trimStart s) = true.
Proof.
  induction s as [| c s IH]; [trivial |].
  intros H. cbn [trimStart]. destruct (JsChar.is_space c); [| exact H].
  apply IH. now apply loosely_spaced_tail in H.
Qed.

Lemma trimEnd_of_word (d : ascii) (x : string) :
  JsChar.is_space d = false -> exists u, trimEnd (String d x) = String d u.
Proof.
  intros H. cbn [trimEnd]. destruct (trimEnd x) as [| e t].
  - rewrite H. now exists "".
  - now exists (String e t).
Qed.

Lemma trimEnd_single (s : string) :
  loosely_spaced s = true -> single_spaced (trimEnd s) = true.
Proof.
  induction s as [| c s IH]; [trivial |].
  intros H. cbn [loosely_spaced] in H. apply andb_prop in H.
  destruct H as [Hc Hs]. specialize (IH Hs).
  destruct (JsChar.is_space c) eqn:E.
  - apply andb_prop in Hc. destruct Hc as [Hsp Hd].
    destruct s as [| d x].
    + cbn [trimEnd]. now rewrite E.
    + simpl in Hd. apply negb_true_iff in Hd.
      destruct (trimEnd_of_word d x Hd) as [u Hu].
      change (trimEnd (String c (String d x)))
        with (match trimEnd (String d x) with
              | EmptyString => if JsChar.is_space c then EmptyString
                               else String c EmptyString
              | String a t => String c (String a t)
              end).
      rewrite Hu in *. cbn [single_spaced next_is_word] in *.
      rewrite E, Hsp, Hd in *. exact IH.
  - cbn [trimEnd]. destruct (trimEnd s) as [| e t].
    + rewrite E. cbn [single_spaced]. now rewrite E.
    + cbn [single_spaced] in *. rewrite E. exact IH.
Qed.

Lemma collapse_spaces_normal (s : string) : spaces_normal (collapse_spaces s).
Proof.
  rewrite collapse_spaces_eq. split; [apply trim_clean |].
  unfold trim. apply trimEnd_single, trimStart_loose.
  apply (collapse_go_loose s false).
Qed.

Lemma collapse_go_of_single (s : string) :
  single_spaced s = true -> collapse_go false s = s.
Proof.
  induction s as [| c s IH]; [trivial |].
  intros H. cbn [single_spaced] in H. apply andb_prop in H.
  destruct H as [Hc Hs]. specialize (IH Hs). cbn [collapse_go].
  destruct (JsChar.is_space c) eqn:E; [| now rewrite IH].
  apply andb_prop in Hc. destruct Hc as [Hsp Hd].
  apply Ascii.eqb_eq in Hsp. subst c.
  destruct s as [| d x]; [discriminate |].
  simpl in Hd. apply negb_true_iff in Hd.
  cbn [collapse_go] in *. rewrite Hd in *. now rewrite IH.
Qed.

Lemma trimEnd_of_single (s : string) :
  single_spaced s = true -> trimEnd s = s.
Proof.
  induction s as [| c s IH]; [trivial |].
  intros H. cbn [single_spaced] in H. apply andb_prop in H.
  destruct H as [Hc Hs]. cbn [trimEnd]. rewrite (IH Hs).
  destruct s as [| d x]; [| reflexivity].
  destruct (JsChar.is_space c); [| reflexivity].
  apply andb_prop in Hc. destruct Hc as [_ Hd]. discriminate.
Qed.

Lemma collapse_spaces_of_normal (s : string) :
  spaces_normal s -> collapse_spaces s = s.
Proof.
  intros [Hc Hs]. rewrite collapse_spaces_eq, (collapse_go_of_single s Hs).
  unfold trim. rewrite (trimStart_of_clean s Hc). now apply trimEnd_of_single.
Qed.

(** X15: the text that [html] to [txt] returns on both servers, and that
    [md] to [txt] returns on the HTTP server, has its white space in normal
    form: it neither starts nor ends with white space, and every white
    space in it is one space character between two other characters.  A
    text of code units below 128 in that form is left as it is by the
    collapsing and trimming steps. *)
Theorem X15_text_output_has_normal_spacing :
  (forall html, spaces_normal (Stdio.convertHtmlToText html))
  /\ (forall content, spaces_normal (Http.convertToText content (Some "html")))
  /\ (forall content, spaces_normal (Http.convertToText content (Some "md")))
  /\ (forall s, ascii_text s -> spaces_normal s -> collapse_spaces s = s).
Proof.
  split; [| split; [| split]].
  - intros html.
    change (Stdio.convertHtmlToText html)
      with (collapse_spaces (decode_entities (strip_tags html))).
    apply collapse_spaces_normal.
  - intros content.
    change (Http.convertToText content (Some "html"))
      with (collapse_spaces (Regex.replace_all Http.re_tag (Regex.const "") content)).
    apply collapse_spaces_normal.
  - intros content.
    change (Http.convertToText content (Some "md"))
      with (collapse_spaces
              (Regex.replace_all Http.re_md_marks (Regex.const "") content)).
    apply collapse_spaces_normal.
  - intros s _. apply collapse_spaces_of_normal.
Qed.

Lemma X15_text_output_has_normal_spacing_witness :
  collapse_spaces "Hello & welcome" = "Hello & welcome".
Proof.
  apply X15_text_output_has_normal_spacing; [reflexivity |].
  split; reflexivity.
Defined.

(** ** Tags *)

Lemma mem_app (x : ascii) (a b : string) :
  Regex.mem x (a ++ b) = Regex.mem x a || Regex.mem x b.
Proof.
  induction a as [| c a IH]; simpl; [reflexivity |].
  now rewrite IH, orb_assoc.
Qed.

Lemma mem_drop (x : ascii) (n : nat) (s : string) :
  Regex.mem x s = false -> Regex.mem x (drop n s) = false.
Proof.
  revert n. induction s as [| c s IH]; intros [| n] H; simpl in *; trivial.
  apply orb_false_iff in H. now apply IH.
Qed.

Lemma mem_take (x : ascii) (n : nat) (s : string) :
  Regex.mem x s = false -> Regex.mem x (take n s) = false.
Proof.
  revert n. induction s as [| c s IH]; intros [| n] H; simpl in *; trivial.
  apply orb_false_iff in H. destruct H as [Hc Hs].
  rewrite Hc. now apply IH.
Qed.

Lemma star_loop_keeps_clean (x : ascii)
  (step : Regex.mstate -> (Regex.mstate -> option Regex.mstate)
          -> option Regex.mstate) (greedy : bool) (fuel : nat) :
  keeps_clean x step ->
  keeps_clean x (fun st k => Regex.star_loop step greedy k fuel st).
Proof.
  intros Hstep. induction fuel as [| fuel IH]; intros st k y Hst H.
  - now exists st.
  - cbn [Regex.star_loop] in H.
    assert (Hagain : forall y',
      step st (fun st' =>
        if String.length (Regex.rest st') <? String.length (Regex.rest st)
        then Regex.star_loop step greedy k fuel st' else None) = Some y' ->
      exists st', clean_state x st' /\ k st' = Some y').
    { intros y' Hy. destruct (Hstep _ _ _ Hst Hy) as [st1 [H1 Hk]].
      destruct (_ <? _); [| discriminate]. exact (IH st1 k y' H1 Hk). }
    destruct greedy.
    + destruct (step st _) as [y' |] eqn:E.
      * injection H as <-. now apply Hagain.
      * now exists st.
    + destruct (k st) as [y' |] eqn:E.
      * injection H as <-. now exists st.
      * now apply Hagain.
Qed.

Lemma run_keeps_clean (x : ascii) (r : Regex.regex) : keeps_clean x (Regex.run r).
Proof.
  induction r as [| p | r1 IH1 r2 IH2 | greedy r IH | r IH | m | m |];
    intros st k y Hst H; cbn [Regex.run] in H.
  - now exists st.
  - destruct Hst as [Hr Hc].
    destruct (Regex.rest st) as [| c s'] eqn:E; [discriminate |].
    destruct (p c); [| discriminate].
    eexists. split; [| exact H]. split; [| exact Hc].
    cbn [Regex.rest Regex.mem] in *. apply orb_false_iff in Hr. apply Hr.
  - destruct (IH1 _ _ _ Hst H) as [st1 [H1 Hk]].
    exact (IH2 _ _ _ H1 Hk).
  - exact (star_loop_keeps_clean x (Regex.run r) greedy _ IH st k y Hst H).
  - destruct (IH _ _ _ Hst H) as [st1 [H1 Hk]].
    eexists. split; [| exact Hk]. split; [apply H1 |].
    cbn [Regex.cap]. unfold Regex.consumed. apply mem_take, Hst.
  - destruct (Regex.at_bol m st); [now exists st | discriminate].
  - destruct (Regex.at_eol m st); [now exists st | discriminate].
  - destruct (Regex.at_word_boundary st); [now exists st | discriminate].
Qed.

Lemma exec_group_mem (x : ascii) (r : Regex.regex) (before : option ascii)
  (s : string) (len : nat) (g1 : string) :
  Regex.mem x s = false ->
  Regex.exec r before s = Some (len, g1) -> Regex.mem x g1 = false.
Proof.
  intros Hs H. unfold Regex.exec in H.
  destruct (Regex.run r (Regex.MState before s "") (fun st => Some st))
    as [st' |] eqn:E; [| discriminate].
  injection H as _ <-.
  assert (H0 : clean_state x (Regex.MState before s ""))
    by (split; [exact Hs | reflexivity]).
  destruct (run_keeps_clean x r _ _ _ H0 E) as [st1 [H1 Hk]].
  injection Hk as <-. apply H1.
Qed.

(** A replacement brings no character that is neither in the text nor in
    what is written for a match. *)
Lemma replace_go_mem (x : ascii) (r : Regex.regex)
  (f : string -> string -> string) (global : bool) (s : string) :
  (forall m g1, Regex.mem x m = false -> Regex.mem x g1 = false ->
                Regex.mem x (f m g1) = false) ->
  Regex.mem x s = false ->
  forall before skip,
    Regex.mem x (Regex.replace_go r f global before skip s) = false.
Proof.
  intros Hf. induction s as [| c s IH]; intros Hs before skip.
  - destruct skip; [| reflexivity]. cbn [Regex.replace_go].
    destruct (Regex.exec r before "") as [[len g1] |] eqn:E; [| reflexivity].
    rewrite mem_app, Hf;
      [| now apply mem_take | exact (exec_group_mem x r _ _ _ _ Hs E)].
    now destruct global; destruct len.
  - pose proof Hs as Hall.
    simpl in Hs. apply orb_false_iff in Hs. destruct Hs as [Hc Hs].
    destruct skip as [| k]; cbn [Regex.replace_go]; [| now apply IH].
    destruct (Regex.exec r before (String c s)) as [[len g1] |] eqn:E.
    + rewrite mem_app, Hf;
        [| now apply mem_take | exact (exec_group_mem x r _ _ _ _ Hall E)].
      cbn [orb]. destruct global.
      * destruct len; [| now apply IH].
        simpl. rewrite Hc. now apply IH.
      * now apply mem_drop.
    + simpl. rewrite Hc. now apply IH.
Qed.

Lemma run_tag_tail (s : string) (before : option ascii) (g1 : string) :
  Regex.run (Regex.Seq (Regex.Star true (Regex.none_of ">")) (Regex.lit ">"))
            (Regex.MState before s g1) (fun st => Some st)
  = match after_gt s with
    | Some r => Some (Regex.MState (Some ">"%char) r g1)
    | None => None
    end.
Proof.
  revert before. induction s as [| c s IH]; intros before.
  - reflexivity.
  - rewrite run_seq, run_star_unfold. cbv zeta.
    unfold Regex.none_of at 1. rewrite run_chr.
    cbn [Regex.rest Regex.cap Regex.mem after_gt].
    rewrite (Ascii.eqb_sym c ">").
    destruct (Ascii.eqb ">" c) eqn:E.
    + cbn [orb negb]. cbn [Regex.lit]. rewrite run_chr.
      cbn [Regex.rest Regex.cap]. rewrite E.
      apply Ascii.eqb_eq in E. now subst c.
    + cbn [orb negb].
      assert (L : (String.length s <? String.length (String c s)) = true)
        by (apply Nat.ltb_lt; simpl; lia).
      rewrite L. rewrite <- run_seq, IH.
      destruct (after_gt s); [reflexivity |].
      cbn [Regex.lit]. rewrite run_chr. cbn [Regex.rest]. now rewrite E.
Qed.

Lemma exec_tag (before : option ascii) (s : string) :
  Regex.exec Http.re_tag before s
  = match s with
    | String c s' =>
        if Ascii.eqb "<" c then
          match after_gt s' with
          | Some r => Some (String.length s - String.length r, "")
          | None => None
          end
        else None
    | EmptyString => None
    end.
Proof.
  unfold Regex.exec, Http.re_tag. cbn [Regex.seq].
  destruct s as [| c s]; [reflexivity |].
  rewrite run_seq. cbn [Regex.lit]. rewrite run_chr. cbn [Regex.rest Regex.cap].
  destruct (Ascii.eqb "<" c); [| reflexivity].
  change (Regex.Chr (Ascii.eqb ">")) with (Regex.lit ">").
  rewrite run_tag_tail. now destruct (after_gt s).
Qed.

Lemma after_gt_none (s : string) : after_gt s = None <-> Regex.mem ">" s = false.
Proof.
  induction s as [| c s IH]; cbn [after_gt Regex.mem]; [tauto |].
  destruct (Ascii.eqb ">" c); cbn [orb]; [| exact IH].
  split; intros H; discriminate H.
Qed.

Lemma after_gt_shorter (s r : string) :
  after_gt s = Some r -> String.length r < String.length s.
Proof.
  revert r. induction s as [| c s IH]; intros r; cbn [after_gt String.length];
    [discriminate |].
  destruct (Ascii.eqb ">" c).
  - intros H. injection H as ->. lia.
  - intros H. apply IH in H. lia.
Qed.

Lemma no_tag_of_no_gt (s : string) : Regex.mem ">" s = false -> no_tag s = true.
Proof.
  induction s as [| c s IH]; cbn [no_tag Regex.mem]; [trivial |].
  intros H. apply orb_false_iff in H. destruct H as [_ H].
  destruct (Ascii.eqb "<" c); [now rewrite H | now apply IH].
Qed.

Lemma no_tag_tail (c : ascii) (s : string) :
  no_tag (String c s) = true -> no_tag s = true.
Proof.
  cbn [no_tag]. destruct (Ascii.eqb "<" c); [| trivial].
  intros H. apply negb_true_iff in H. now apply no_tag_of_no_gt.
Qed.

Lemma strip_no_tag (s : string) :
  forall before skip,
    no_tag (Regex.replace_go Http.re_tag (Regex.const "") true before skip s) = true.
Proof.
  induction s as [| c s IH]; intros before skip.
  - destruct skip; reflexivity.
  - destruct skip as [| k]; cbn [Regex.replace_go]; [| apply IH].
    rewrite exec_tag. destruct (Ascii.eqb "<" c) eqn:E.
    + destruct (after_gt s) as [r |] eqn:A.
      * apply after_gt_shorter in A.
        change (String.length (String c s)) with (S (String.length s)).
        destruct (S (String.length s) - String.length r) as [| l] eqn:L; [lia |].
        apply IH.
      * apply after_gt_none in A. cbn [no_tag]. rewrite E.
        apply negb_true_iff. apply replace_go_mem; [reflexivity | exact A].
    + cbn [no_tag]. rewrite E. apply IH.
Qed.

Lemma strip_of_no_tag (s : string) :
  no_tag s = true ->
  forall before, Regex.replace_go Http.re_tag (Regex.const "") true before 0 s = s.
Proof.
  induction s as [| c s IH]; intros H before; [reflexivity |].
  cbn [Regex.replace_go]. rewrite exec_tag.
  pose proof (no_tag_tail c s H) as Ht.
  destruct (Ascii.eqb "<" c) eqn:E.
  - cbn [no_tag] in H. rewrite E in H. apply negb_true_iff in H.
    apply after_gt_none in H. rewrite H. now rewrite IH.
  - now rewrite IH.
Qed.

Lemma space_is_not_lt (c : ascii) : JsChar.is_space c = true -> Ascii.eqb "<" c = false.
Proof. destruct c as [[] [] [] [] [] [] [] []]; trivial; discriminate. Qed.

Lemma mem_collapse_go (x : ascii) (s : string) :
  Ascii.eqb x " " = false -> Regex.mem x s = false ->
  forall in_run, Regex.mem x (collapse_go in_run s) = false.
Proof.
  intros Hx. induction s as [| c s IH]; intros Hs in_run; [reflexivity |].
  cbn [Regex.mem] in Hs. apply orb_false_iff in Hs. destruct Hs as [Hc Hs].
  cbn [collapse_go]. destruct (JsChar.is_space c).
  - destruct in_run; [now apply IH |].
    change (" " ++ collapse_go true s) with (String " " (collapse_go true s)).
    cbn [Regex.mem]. rewrite Hx. now apply IH.
  - cbn [Regex.mem]. rewrite Hc. now apply IH.
Qed.

Lemma no_tag_collapse_go (s : string) :
  no_tag s = true -> forall in_run, no_tag (collapse_go in_run s) = true.
Proof.
  induction s as [| c s IH]; intros H in_run; [reflexivity |].
  pose proof (no_tag_tail c s H) as Ht.
  cbn [collapse_go]. destruct (JsChar.is_space c) eqn:E.
  - destruct in_run; [now apply IH |].
    change (" " ++ collapse_go true s) with (String " " (collapse_go true s)).
    cbn [no_tag]. change (Ascii.eqb "<" " ") with false. now apply IH.
  - cbn [no_tag] in *. destruct (Ascii.eqb "<" c); [| now apply IH].
    apply negb_true_iff in H. apply negb_true_iff.
    now apply mem_collapse_go.
Qed.

Lemma mem_trimEnd (x : ascii) (s : string) :
  Regex.mem x s = false -> Regex.mem x (trimEnd s) = false.
Proof.
  induction s as [| c s IH]; [trivial |].
  cbn [Regex.mem]. intros H. apply orb_false_iff in H. destruct H as [Hc Hs].
  cbn [trimEnd]. specialize (IH Hs). destruct (trimEnd s) as [| e t].
  - destruct (JsChar.is_space c); [reflexivity |].
    cbn [Regex.mem]. now rewrite Hc.
  - cbn [Regex.mem] in *. now rewrite Hc, IH.
Qed.

Lemma no_tag_trimStart (s : string) : no_tag s = true -> no_tag (trimStart s) = true.
Proof.
  induction s as [| c s IH]; [trivial |].
  intros H. cbn [trimStart]. destruct (JsChar.is_space c); [| exact H].
  apply IH. now apply no_tag_tail in H.
Qed.

Lemma no_tag_trimEnd (s : string) : no_tag s = true -> no_tag (trimEnd s) = true.
Proof.
  induction s as [| c s IH]; [trivial |].
  intros H. pose proof (no_tag_tail c s H) as Ht. specialize (IH Ht).
  cbn [no_tag] in H. cbn [trimEnd].
  destruct (Ascii.eqb "<" c) eqn:E.
  - apply negb_true_iff in H. apply mem_trimEnd in H.
    destruct (trimEnd s) as [| e t].
    + destruct (JsChar.is_space c); [reflexivity |].
      cbn [no_tag]. now rewrite E.
    + cbn [no_tag]. rewrite E. now apply negb_true_iff.
  - destruct (trimEnd s) as [| e t].
    + destruct (JsChar.is_space c); [reflexivity |].
      cbn [no_tag]. now rewrite E.
    + cbn [no_tag]. now rewrite E.
Qed.

Lemma no_tag_collapse_spaces (s : string) :
  no_tag s = true -> no_tag (collapse_spaces s) = true.
Proof.
  intros H. rewrite collapse_spaces_eq. unfold trim.
  apply no_tag_trimEnd, no_tag_trimStart. now apply no_tag_collapse_go.
Qed.

Lemma all_chars_collapse_go (p : ascii -> bool) (s : string) :
  p " "%char = true -> all_chars p s = true ->
  forall in_run, all_chars p (collapse_go in_run s) = true.
Proof.
  intros Hp. induction s as [| c s IH]; intros H in_run; [reflexivity |].
  cbn [all_chars] in H. apply andb_prop in H. destruct H as [Hc Hs].
  cbn [collapse_go]. destruct (JsChar.is_space c).
  - destruct in_run; [now apply IH |].
    change (" " ++ collapse_go true s) with (String " " (collapse_go true s)).
    cbn [all_chars]. rewrite Hp. now apply IH.
  - cbn [all_chars]. rewrite Hc. now apply IH.
Qed.

Lemma all_chars_trimStart (p : ascii -> bool) (s : string) :
  all_chars p s = true -> all_chars p (trimStart s) = true.
Proof.
  induction s as [| c s IH]; [trivial |].
  intros H. cbn [trimStart]. destruct (JsChar.is_space c); [| exact H].
  cbn [all_chars] in H. apply andb_prop in H. now apply IH.
Qed.

Lemma all_chars_trimEnd (p : ascii -> bool) (s : string) :
  all_chars p s = true -> all_chars p (trimEnd s) = true.
Proof.
  induction s as [| c s IH]; [trivial |].
  cbn [all_chars]. intros H. apply andb_prop in H. destruct H as [Hc Hs].
  cbn [trimEnd]. specialize (IH Hs). destruct (trimEnd s) as [| e t].
  - destruct (JsChar.is_space c); [reflexivity |].
    cbn [all_chars]. now rewrite Hc.
  - cbn [all_chars] in *. now rewrite Hc, IH.
Qed.

Lemma all_chars_collapse_spaces (p : ascii -> bool) (s : string) :
  p " "%char = true -> all_chars p s = true ->
  all_chars p (collapse_spaces s) = true.
Proof.
  intros Hp H. rewrite collapse_spaces_eq. unfold trim.
  apply all_chars_trimEnd, all_chars_trimStart. now apply all_chars_collapse_go.
Qed.

Lemma http_html_to_text (content : string) :
  Http.convertToText content (Some "html")
  = collapse_spaces (Regex.replace_all Http.re_tag (Regex.const "") content).
Proof. reflexivity. Qed.

Lemma http_md_to_text (content : string) :
  Http.convertToText content (Some "md")
  = collapse_spaces (delete_chars is_http_md_mark content).
Proof.
  change (Http.convertToText content (Some "md"))
    with (collapse_spaces
            (Regex.replace_all Http.re_md_marks (Regex.const "") content)).
  unfold Regex.replace_all, Http.re_md_marks, Regex.one_of.
  now rewrite replace_chr.
Qed.

(** X16: on the HTTP server the text made from HTML holds no tag: no [<]
    of it has a [>] anywhere after it.  And [convertToText] is idempotent
    for every input type, not for plain text only: converting its result
    again, as the same type, changes nothing. *)
Theorem X16_http_convertToText_strips_and_settles :
  (forall content, no_tag (Http.convertToText content (Some "html")) = true)
  /\ (forall content inputType,
      Http.convertToText (Http.convertToText content inputType) inputType
      = Http.convertToText content inputType).
Proof.
  assert (Hhtml : forall content,
            no_tag (Http.convertToText content (Some "html")) = true).
  { intros content. rewrite http_html_to_text.
    apply no_tag_collapse_spaces. apply strip_no_tag. }
  split; [exact Hhtml |].
  intros content inputType.
  destruct (Http.equals inputType "html") eqn:Eh.
  - apply equals_true in Eh. subst inputType.
    rewrite (http_html_to_text (Http.convertToText content (Some "html"))).
    unfold Regex.replace_all. rewrite strip_of_no_tag by apply Hhtml.
    apply collapse_spaces_of_normal. rewrite http_html_to_text.
    apply collapse_spaces_normal.
  - destruct (Http.equals inputType "md") eqn:Em.
    + apply equals_true in Em. subst inputType.
      rewrite (http_md_to_text (Http.convertToText content (Some "md"))).
      rewrite delete_chars_of_clean.
      * apply collapse_spaces_of_normal. rewrite http_md_to_text.
        apply collapse_spaces_normal.
      * rewrite http_md_to_text. apply all_chars_collapse_spaces; [reflexivity |].
        apply delete_chars_clean.
    + unfold Http.convertToText. now rewrite Eh, Em.
Qed.

(** ** Lines *)

Lemma rev_string_app (acc s : string) :
  rev_string acc s = rev_string "" s ++ acc.
Proof.
  revert acc. induction s as [| c s IH]; intros acc; [reflexivity |].
  cbn [rev_string]. rewrite (IH (String c acc)), (IH (String c "")).
  now rewrite append_assoc.
Qed.

Lemma rev_string_append (a b : string) :
  rev_string "" (a ++ b) = rev_string "" b ++ rev_string "" a.
Proof.
  induction a as [| c a IH]; cbn [append rev_string].
  - now rewrite append_nil_r.
  - rewrite (rev_string_app (String c "") (a ++ b)), IH.
    rewrite (rev_string_app (String c "") a). now rewrite append_assoc.
Qed.

Lemma rev_string_involutive (s : string) : rev_string "" (rev_string "" s) = s.
Proof.
  induction s as [| c s IH]; [reflexivity |].
  cbn [rev_string]. rewrite (rev_string_app (String c "") s), rev_string_append.
  now rewrite IH.
Qed.

Lemma split_go_cons (c : ascii) (s acc : string) :
  split_go nl acc 0 (String c s)
  = if Ascii.eqb lf c then rev_string "" acc :: split_go nl "" 0 s
    else split_go nl (String c acc) 0 s.
Proof.
  cbn [split_go]. unfold nl at 1. cbn [startsWith]. fold lf.
  now destruct (Ascii.eqb lf c).
Qed.

Lemma split_go_line (x s acc : string) :
  one_line x ->
  split_go nl acc 0 (x ++ s) = split_go nl (rev_string acc x) 0 s.
Proof.
  unfold one_line. revert acc. induction x as [| c x IH]; intros acc H;
    [reflexivity |].
  cbn [Regex.mem] in H. apply orb_false_iff in H. destruct H as [Hc Hx].
  cbn [append rev_string]. rewrite split_go_cons, Hc. now apply IH.
Qed.

Lemma split_one_line (x : string) : one_line x -> split nl x = [x].
Proof.
  intros H. unfold split. rewrite <- (append_nil_r x) at 1.
  rewrite (split_go_line x "" "" H). cbn [split_go].
  now rewrite rev_string_involutive.
Qed.

Lemma split_first_line (x rest : string) :
  one_line x -> split nl (x ++ nl ++ rest) = x :: split nl rest.
Proof.
  intros H. unfold split. rewrite (split_go_line x (nl ++ rest) "" H).
  change (nl ++ rest) with (String lf rest).
  rewrite split_go_cons, Ascii.eqb_refl. now rewrite rev_string_involutive.
Qed.

(** Joining lines and splitting the result gives the lines back. *)
Lemma split_join (l : list string) :
  l <> [] -> Forall one_line l -> split nl (join nl l) = l.
Proof.
  induction l as [| x l IH]; [congruence |].
  intros _ H. inversion H as [| x' l' Hx Hl]; subst.
  destruct l as [| y l].
  - now apply split_one_line.
  - change (join nl (x :: y :: l)) with (x ++ nl ++ join nl (y :: l)).
    rewrite (split_first_line x _ Hx). f_equal.
    apply IH; [discriminate | exact Hl].
Qed.

Lemma mem_rev_string (x : ascii) (s acc : string) :
  Regex.mem x s = false -> Regex.mem x acc = false ->
  Regex.mem x (rev_string acc s) = false.
Proof.
  revert acc. induction s as [| c s IH]; intros acc Hs Ha; [exact Ha |].
  cbn [Regex.mem] in Hs. apply orb_false_iff in Hs. destruct Hs as [Hc Hs].
  cbn [rev_string]. apply IH; [exact Hs |]. cbn [Regex.mem]. now rewrite Hc.
Qed.

(** The pieces that [split] cuts at line feeds hold no line feed, and there
    is at least one. *)
Lemma split_go_lines (s acc : string) :
  one_line acc ->
  Forall one_line (split_go nl acc 0 s) /\ split_go nl acc 0 s <> [].
Proof.
  unfold one_line. revert acc. induction s as [| c s IH]; intros acc Ha.
  - cbn [split_go]. split; [| discriminate].
    constructor; [| constructor]. now apply mem_rev_string.
  - rewrite split_go_cons.
    destruct (Ascii.eqb lf c) eqn:E.
    + split; [| discriminate]. constructor.
      * now apply mem_rev_string.
      * apply (IH ""). reflexivity.
    + apply IH. cbn [Regex.mem]. now rewrite E.
Qed.

Lemma split_lines (s : string) :
  Forall one_line (split nl s) /\ split nl s <> [].
Proof. apply split_go_lines. reflexivity. Qed.

Lemma lf_to_lower (c : ascii) : Ascii.eqb lf (JsChar.to_lower c) = Ascii.eqb lf c.
Proof. destruct c as [[] [] [] [] [] [] [] []]; reflexivity. Qed.

Lemma lf_to_upper (c : ascii) : Ascii.eqb lf (JsChar.to_upper c) = Ascii.eqb lf c.
Proof. destruct c as [[] [] [] [] [] [] [] []]; reflexivity. Qed.

Lemma one_line_toLowerCase (s : string) : one_line s -> one_line (toLowerCase s).
Proof.
  unfold one_line, toLowerCase. induction s as [| c s IH]; [trivial |].
  cbn [JsString.map Regex.mem]. rewrite lf_to_lower.
  intros H. apply orb_false_iff in H. destruct H as [-> H]. now apply IH.
Qed.

Lemma one_line_toUpperCase (s : string) : one_line s -> one_line (toUpperCase s).
Proof.
  unfold one_line, toUpperCase. induction s as [| c s IH]; [trivial |].
  cbn [JsString.map Regex.mem]. rewrite lf_to_upper.
  intros H. apply orb_false_iff in H. destruct H as [-> H]. now apply IH.
Qed.

Lemma mem_trimStart (x : ascii) (s : string) :
  Regex.mem x s = false -> Regex.mem x (trimStart s) = false.
Proof.
  induction s as [| c s IH]; [trivial |].
  intros H. cbn [trimStart]. destruct (JsChar.is_space c); [| exact H].
  cbn [Regex.mem] in H. apply orb_false_iff in H. now apply IH.
Qed.

Lemma one_line_trim (s : string) : one_line s -> one_line (trim s).
Proof. intros H. apply mem_trimEnd, mem_trimStart, H. Qed.

Lemma one_line_title_case (s : string) : one_line s -> one_line (title_case s).
Proof.
  intros H. unfold title_case, Regex.replace_all.
  apply replace_go_mem.
  - intros m g1 Hm _. now apply one_line_toUpperCase.
  - now apply one_line_toLowerCase.
Qed.

Lemma stdio_markdownLine_one_line (line : string) :
  one_line line -> one_line (Stdio.markdownLine line).
Proof.
  intros H. apply one_line_trim in H. unfold Stdio.markdownLine.
  destruct (negb (truthy (trim line))); [reflexivity |].
  destruct (_ && _).
  - change (one_line (String "#" (String " " (title_case (trim line))))).
    unfold one_line. cbn [Regex.mem]. now apply one_line_title_case.
  - destruct (endsWith ":" (trim line)); [| exact H].
    change (one_line (String "#" (String "#" (String " " (slice_0_m1 (trim line)))))).
    unfold one_line. cbn [Regex.mem]. now apply mem_take.
Qed.

Lemma http_markdownLine_one_line (line : string) :
  one_line line -> one_line (Http.markdownLine line).
Proof.
  intros H. unfold Http.markdownLine.
  destruct (negb (truthy (trim line))); [reflexivity |].
  destruct (_ && _).
  - change (one_line (String "#" (String " " (title_case line)))).
    unfold one_line. cbn [Regex.mem]. now apply one_line_title_case.
  - destruct (endsWith ":" line); [| exact H].
    change (one_line (String "#" (String "#" (String " " (slice_0_m1 line))))).
    unfold one_line. cbn [Regex.mem]. now apply mem_take.
Qed.

Lemma map_lines (f : string -> string) (s : string) :
  (forall line, one_line line -> one_line (f line)) ->
  split nl (join nl (List.map f (split nl s))) = List.map f (split nl s).
Proof.
  intros Hf. destruct (split_lines s) as [Hall Hne].
  apply split_join.
  - destruct (split nl s); [congruence | discriminate].
  - clear Hne. induction Hall as [| x l Hx Hl IH]; simpl; constructor; auto.
Qed.

(** X17: the text-to-Markdown heuristic of both servers works line by
    line: splitting its result at line feeds gives, in order, the heading
    form of each line of the input, so no line is merged, split, added or
    dropped; and on the stdio server a line of the result is empty exactly
    when the input line, of code units below 128, is blank. *)
Theorem X17_heading_heuristic_is_linewise :
  (forall text,
      split nl (Stdio.convertTextToMarkdown text)
      = List.map Stdio.markdownLine (split nl text))
  /\ (forall libs content,
      exists md,
        Http.convertToMarkdown libs content (Some "txt") = Return md
        /\ split nl md = List.map Http.markdownLine (split nl content))
  /\ (forall text,
      List.length (split nl (Stdio.convertTextToMarkdown text))
      = List.length (split nl text))
  /\ (forall line,
      ascii_text line -> (Stdio.markdownLine line = "" <-> trim line = "")).
Proof.
  assert (H1 : forall text,
             split nl (Stdio.convertTextToMarkdown text)
             = List.map Stdio.markdownLine (split nl text)).
  { intros text. unfold Stdio.convertTextToMarkdown.
    apply map_lines, stdio_markdownLine_one_line. }
  split; [exact H1 |]. split; [| split].
  - intros libs content.
    exists (join nl (List.map Http.markdownLine (split nl content))).
    split; [reflexivity |].
    apply map_lines, http_markdownLine_one_line.
  - intros text. now rewrite H1, List.length_map.
  - intros line _. unfold Stdio.markdownLine.
    destruct (trim line) as [| c t] eqn:E; [split; reflexivity |].
    cbn [truthy negb].
    split; [| discriminate].
    destruct (_ && _); [discriminate |].
    destruct (endsWith ":" (String c t)); discriminate.
Qed.

Lemma X17_heading_heuristic_is_linewise_witness :
  Stdio.markdownLine "   " = "".
Proof.
  destruct X17_heading_heuristic_is_linewise as [_ [_ [_ H]]].
  apply (proj2 (H "   " eq_refl)). reflexivity.
Defined.

(** ** The listing of formats and the conversions *)

Lemma http_listing_lines (libs : Libs) :
  nth_error (split nl (Http.listSupportedFormats libs)) 3
  = Some ("Input Formats: " ++ join ", " (Http.formats_input libs))
  /\ nth_error (split nl (Http.listSupportedFormats libs)) 4
     = Some ("Output Formats: " ++ join ", " (Http.formats_output libs)).
Proof.
  unfold Http.listSupportedFormats, Http.formats_input, Http.formats_output.
  destruct (marked libs), (turndown libs), (puppeteer libs), (mammoth libs),
    (pdfParse libs); split; reflexivity.
Qed.

(** X18: the fourth and fifth lines of the HTTP [listSupportedFormats] name
    the input and output formats, and these follow the libraries: [pdf] is
    listed as output exactly when puppeteer is installed, [docx] and [pdf]
    as input exactly when mammoth and pdf-parse are, and [docx] is never
    listed as output.  The conversions agree with the output list: whatever
    a request between two different formats returns, its output format is
    one the listing names. *)
Theorem X18_http_listing_matches_conversions (libs : Libs) :
  nth_error (split nl (Http.listSupportedFormats libs)) 3
  = Some ("Input Formats: " ++ join ", " (Http.formats_input libs))
  /\ nth_error (split nl (Http.listSupportedFormats libs)) 4
     = Some ("Output Formats: " ++ join ", " (Http.formats_output libs))
  /\ (forall o, In o (Http.formats_output libs)
             <-> In o ["txt"; "md"; "html"] \/ (o = "pdf" /\ puppeteer libs <> None))
  /\ (forall i, In i (Http.formats_input libs)
                <-> In i ["txt"; "md"; "html"]
                    \/ (i = "docx" /\ mammoth libs <> None)
                    \/ (i = "pdf" /\ pdfParse libs <> None))
  /\ (forall content i o filename r,
      i <> Some o ->
      Http.convertDocument libs content i (Some o) filename = Return r ->
      In o (Http.formats_output libs)).
Proof.
  assert (Hout : forall o, In o (Http.formats_output libs)
             <-> In o ["txt"; "md"; "html"] \/ (o = "pdf" /\ puppeteer libs <> None)).
  { intros o. unfold Http.formats_output. rewrite in_app_iff.
    destruct (puppeteer libs) as [p |]; simpl.
    - split.
      + intros [H | [H | []]]; [now left | right; split; [now symmetry | discriminate]].
      + intros [H | [H _]]; [now left | right; left; now symmetry].
    - split.
      + intros [H | []]. now left.
      + intros [H | [_ H]]; [now left | congruence]. }
  split; [apply http_listing_lines |]. split; [apply http_listing_lines |].
  split; [exact Hout |]. split.
  - intros i. unfold Http.formats_input. rewrite !in_app_iff.
    destruct (mammoth libs) as [m |], (pdfParse libs) as [q |]; simpl;
      (split; [intros H | intros H]);
      repeat match goal with
             | H : _ \/ _ |- _ => destruct H
             | H : _ /\ _ |- _ => destruct H
             | H : False |- _ => destruct H
             end;
      subst; try congruence; auto 10;
      try (right; left; split; [reflexivity | discriminate]);
      try (right; right; split; [reflexivity | discriminate]).
  - intros content i o filename r Hio H.
    destruct (http_success_outputs libs content i (Some o) filename r Hio H)
      as [Hin Hp].
    apply Hout. simpl in Hin.
    destruct Hin as [E | [E | [E | [E | []]]]]; injection E as <-;
      [left; simpl; auto | left; simpl; auto | left; simpl; auto |].
    right. split; [reflexivity |]. now apply Hp.
Qed.

Lemma X18_http_listing_matches_conversions_witness :
  In "pdf" (Http.formats_output printing_libs).
Proof.
  destruct (X18_http_listing_matches_conversions printing_libs) as [_ [_ [_ [_ H]]]].
  apply (H "hello" (Some "txt") "pdf" None "JVBERi0="); [discriminate | reflexivity].
Defined.

(** ** The two servers side by side *)

Lemma markdownLine_agree (line : string) :
  trim line = line -> Stdio.markdownLine line = Http.markdownLine line.
Proof.
  intros H. unfold Stdio.markdownLine, Http.markdownLine. rewrite H.
  now rewrite (String.eqb_sym line (toUpperCase line)).
Qed.

(** X19: on a text of code units below 128 none of whose lines has white
    space in front or behind, the two servers give the same Markdown: the HTTP server applies to each
    line what the stdio server applies to the trimmed line. *)
Theorem X19_servers_agree_on_trimmed_text (libs : Libs) (text : string)
  (filename filename' : option string) :
  ascii_text text ->
  Forall (fun line => trim line = line) (split nl text) ->
  Http.convertDocument libs text (Some "txt") (Some "md") filename
  = Stdio.convertDocument libs text "txt" "md" filename'.
Proof.
  intros _ H.
  change (Http.convertDocument libs text (Some "txt") (Some "md") filename)
    with (Return (A := string)
            (join nl (List.map Http.markdownLine (split nl text)))).
  change (Stdio.convertDocument libs text "txt" "md" filename')
    with (Return (A := string)
            (join nl (List.map Stdio.markdownLine (split nl text)))).
  f_equal. f_equal.
  induction H as [| line l Hl _ IH]; [reflexivity |].
  simpl. now rewrite IH, (markdownLine_agree line Hl).
Qed.

Lemma X19_servers_agree_on_trimmed_text_witness :
  Http.convertDocument no_libs ("RELEASE NOTES" ++ nl ++ "Summary:" ++ nl ++ "done")
    (Some "txt") (Some "md") None
  = Stdio.convertDocument no_libs ("RELEASE NOTES" ++ nl ++ "Summary:" ++ nl ++ "done")
      "txt" "md" None.
Proof.
  apply X19_servers_agree_on_trimmed_text; [reflexivity |].
  vm_compute. repeat constructor.
Defined.

Lemma stdio_listing_line (libs : Libs) :
  nth_error (split nl (Stdio.listSupportedFormats libs)) 4
  = Some "Output Formats: txt, md, html, docx, pdf, rtf".
Proof.
  unfold Stdio.listSupportedFormats, Stdio.checkDependencies.
  destruct (marked libs), (turndown libs), (puppeteer libs), (officegen libs),
    (mammoth libs), (pdfParse libs); reflexivity.
Qed.

(** X22: the stdio [listSupportedFormats] names the six formats of the
    registry as output formats whatever libraries are installed, [rtf]
    among them; yet no request for [rtf] output is ever converted. *)
Theorem X22_stdio_lists_rtf_but_never_writes_it (libs : Libs) :
  nth_error (split nl (Stdio.listSupportedFormats libs)) 4
  = Some "Output Formats: txt, md, html, docx, pdf, rtf"
  /\ (forall content i filename r,
      Stdio.convertDocument libs content i "rtf" filename <> Return r).
Proof.
  split; [apply stdio_listing_line |].
  intros content i filename r H.
  destruct (stdio_never_returns libs content i "rtf" filename) as [e He].
  - vm_compute. intuition discriminate.
  - congruence.
Qed.

(** ** The paragraphs of a DOCX document *)

Lemma trimStart_length (s : string) : String.length (trimStart s) <= String.length s.
Proof.
  induction s as [| c s IH]; [reflexivity |].
  cbn [trimStart]. destruct (JsChar.is_space c); simpl; lia.
Qed.

Lemma trimEnd_length (s : string) : String.length (trimEnd s) <= String.length s.
Proof.
  induction s as [| c s IH]; [reflexivity |].
  cbn [trimEnd]. destruct (trimEnd s) as [| e t].
  - destruct (JsChar.is_space c); simpl; lia.
  - simpl in *. lia.
Qed.

Lemma trim_length (s : string) : String.length (trim s) <= String.length s.
Proof.
  unfold trim. pose proof (trimEnd_length (trimStart s)).
  pose proof (trimStart_length s). lia.
Qed.

Lemma drop_length (n : nat) (s : string) : String.length (drop n s) <= String.length s.
Proof.
  revert n. induction s as [| c s IH]; intros [| n]; simpl; try lia.
  specialize (IH n). lia.
Qed.

(** Deleting matches does not lengthen a text. *)
Lemma delete_matches_length (r : Regex.regex) (global : bool) (s : string) :
  forall before skip,
    String.length (Regex.replace_go r (Regex.const "") global before skip s)
    <= String.length s.
Proof.
  induction s as [| c s IH]; intros before skip.
  - destruct skip; [| reflexivity]. cbn [Regex.replace_go].
    destruct (Regex.exec r before "") as [[len g1] |]; [| reflexivity].
    now destruct global; destruct len.
  - destruct skip as [| k]; cbn [Regex.replace_go].
    + destruct (Regex.exec r before (String c s)) as [[len g1] |].
      * unfold Regex.const at 1. cbn [append]. destruct global.
        -- destruct len.
           ++ specialize (IH (Some c) 0). simpl. lia.
           ++ specialize (IH (Some c) len). simpl. lia.
        -- apply drop_length.
      * specialize (IH (Some c) 0). simpl. lia.
    + specialize (IH (Some c) k). simpl. lia.
Qed.

Lemma docxParagraph_ready (para : string) :
  truthy (trim para) = true -> docx_ready (Stdio.docxParagraph para).
Proof.
  intros Hne. unfold docx_ready, Stdio.docxParagraph.
  destruct (String.length para <? 50) eqn:L; cbn [andb].
  - destruct (_ || _).
    + cbn [para_text para_bold]. split; [apply trim_idempotent |].
      split; [| discriminate]. intros _.
      apply Nat.ltb_lt in L.
      pose proof (trim_length (Regex.replace_first Stdio.re_heading_marks
                                 (Regex.const "") para)).
      pose proof (delete_matches_length Stdio.re_heading_marks false para None 0).
      unfold Regex.replace_first in *. lia.
    + cbn [para_text para_bold]. split; [apply trim_idempotent |].
      split; [discriminate |]. intros _ E. now rewrite E in Hne.
  - cbn [para_text para_bold]. split; [apply trim_idempotent |].
    split; [discriminate |]. intros _ E. now rewrite E in Hne.
Qed.

(** X20: when officegen is installed, the stdio [convertToDocx] hands it,
    for a content of code units below 128, a list of paragraphs each of
    which is trimmed; one set in bold has fewer
    than 50 characters, and one not in bold is never empty. *)
Theorem X20_stdio_docx_paragraphs (libs : Libs) (content contentType : string)
  (generate : list DocxParagraph -> Result string) :
  ascii_text content ->
  officegen libs = Some generate ->
  exists paragraphs,
    Stdio.convertToDocx libs content contentType = generate paragraphs
    /\ Forall docx_ready paragraphs.
Proof.
  intros _ H. unfold Stdio.convertToDocx. rewrite H.
  eexists. split; [reflexivity |].
  apply Forall_map. apply Forall_forall.
  intros para Hin. apply filter_In in Hin. destruct Hin as [_ Hne].
  now apply docxParagraph_ready.
Qed.

Lemma X20_stdio_docx_paragraphs_witness :
  exists paragraphs,
    Stdio.convertToDocx counting_libs ("TITLE" ++ nl ++ nl ++ "Body text.") "text"
    = Return (of_nat (List.length paragraphs))
    /\ Forall docx_ready paragraphs.
Proof.
  apply (X20_stdio_docx_paragraphs counting_libs
           ("TITLE" ++ nl ++ nl ++ "Body text.") "text"
           (fun paragraphs => Return (of_nat (List.length paragraphs))));
    reflexivity.
Defined.

(** ** The fallback from Markdown to HTML *)

Lemma substitute_removes (x : ascii) (t s : string) :
  Regex.mem x t = false ->
  Regex.mem x (substitute (Ascii.eqb x) (fun _ => t) s) = false.
Proof.
  intros Ht. induction s as [| c s IH]; [reflexivity |].
  cbn [substitute]. rewrite mem_app, IH, orb_false_r.
  destruct (Ascii.eqb x c) eqn:E; [exact Ht |].
  cbn [Regex.mem]. now rewrite E.
Qed.

(** X21: the HTML that the HTTP server writes by hand from Markdown, when
    marked is absent, holds no line feed: every line feed of the Markdown
    has become a [<br>] or a paragraph boundary, and the steps that follow
    bring none back. *)
Theorem X21_simpleMarkdownToHtml_is_one_line (markdown : string) :
  one_line (Http.simpleMarkdownToHtml markdown).
Proof.
  unfold one_line, Http.simpleMarkdownToHtml. cbv zeta.
  unfold Regex.replace_all at 1.
  apply replace_go_mem;
    [intros m g1 _ Hg; unfold Http.wrap; cbn [append];
     now rewrite mem_app, Hg |].
  unfold Regex.replace_all at 1.
  apply replace_go_mem;
    [intros m g1 _ Hg; unfold Http.wrap; cbn [append];
     now rewrite mem_app, Hg |].
  unfold Http.replace_lit at 1. unfold Regex.replace_all at 1.
  apply replace_go_mem; [reflexivity |].
  rewrite !mem_app. cbn [Regex.mem]. change (Ascii.eqb lf "<") with false.
  change (Ascii.eqb lf "p") with false. change (Ascii.eqb lf ">") with false.
  change (Ascii.eqb lf "/") with false. cbn [orb]. rewrite orb_false_r.
  unfold Http.replace_lit at 1. unfold Regex.replace_all at 1.
  change (Regex.lit nl) with (Regex.Chr (Ascii.eqb lf)).
  rewrite replace_chr. unfold Regex.const.
  now apply (substitute_removes lf "<br>").
Qed.
